(** * Quest bot: ledger store, submission intake, review pipeline, withdrawals

    A shallow embedding of [bot.py].  The relational store is a record of
    tables; every coroutine of the bot is cut at the places where it waits
    for a user (a [bot.wait_for], or the sends before the board refresh), and
    each piece between two such waits is a program in a small monad that
    threads the process state and lets a storage statement raise.

    Integers are Python's and PostgreSQL's, taken as [Z] (the INTEGER and
    BIGINT columns are assumed to stay within their ranges).  Time is
    counted in microseconds, the resolution of [datetime]. *)

From stdpp Require Import gmap strings list.
From Stdlib Require Import ZArith Lia Ascii.
Local Open Scope Z_scope.

(** ** Configuration *)

Definition MILESTONES : list Z := [500; 1000; 1500; 2000].

(** [BUTTON_COOLDOWN = 10  # seconds] *)
Definition BUTTON_COOLDOWN : Z := 10.

(** One second in the unit of the clock. *)
Definition SECOND : Z := 1000000.

Definition COOLDOWN_MESSAGES : list string :=
  [ "⏳ Quest cooldown! Take a sip of water 💧";
    "😅 Whoa {user}, calm down — adventurers need rest too 🛑";
    "🕒 Patience {user}, greatness takes time ⚡";
    "🚦 Too much traffic on **{title}** — wait {sec}s!";
    "😴 Even heroes nap. Try again in {sec}s!";
    "🐢 Slow and steady wins the quest {user}!" ]%string.

(** ** The five tables *)

Inductive status := pending | approved | rejected.

#[global] Instance status_eq_dec : EqDecision status.
Proof. solve_decision. Defined.

Record task := Task {
  t_id : Z;
  t_title : string;
  t_points : Z;
  t_max_submissions : Z;
  t_archived : Z;
  t_role_reward_id : option Z;
  t_daily_flag : Z;
  t_type : string;
  t_task_link : option string;
  t_announcement_message_id : option Z
}.

Record submission := Submission {
  s_id : Z;
  s_user_id : Z;
  s_task_id : Z;
  s_proof : option string;
  s_status : status;
  s_created_at : Z;
  s_reviewed_at : option Z
}.

Inductive wstatus := w_pending | w_completed.

Record withdrawal := Withdrawal {
  w_id : Z;
  w_user_id : Z;
  w_bank_name : string;
  w_account_number : string;
  w_account_name : string;
  w_points : Z;
  w_status : wstatus;
  w_created_at : Z
}.

(** [users] has [user_id] as its primary key and one more column, so it is a
    finite map from ids to points; the tables with a SERIAL key keep their
    rows in insertion order together with the sequence's next value. *)
Record db := Db {
  users : gmap Z Z;
  tasks : list task;
  tasks_seq : Z;
  submissions : list submission;
  submissions_seq : Z;
  withdrawals : list withdrawal;
  withdrawals_seq : Z;
  banned_users : gset Z
}.

Definition empty_db : db :=
  Db ∅ [] 1 [] 1 [] 1 ∅.

Definition set_users (f : gmap Z Z → gmap Z Z) (d : db) : db :=
  Db (f (users d)) (tasks d) (tasks_seq d) (submissions d) (submissions_seq d)
     (withdrawals d) (withdrawals_seq d) (banned_users d).

Definition set_tasks (f : list task → list task) (d : db) : db :=
  Db (users d) (f (tasks d)) (tasks_seq d) (submissions d) (submissions_seq d)
     (withdrawals d) (withdrawals_seq d) (banned_users d).

Definition set_submissions (f : list submission → list submission) (d : db) : db :=
  Db (users d) (tasks d) (tasks_seq d) (f (submissions d)) (submissions_seq d)
     (withdrawals d) (withdrawals_seq d) (banned_users d).

Definition set_withdrawals (f : list withdrawal → list withdrawal) (d : db) : db :=
  Db (users d) (tasks d) (tasks_seq d) (submissions d) (submissions_seq d)
     (f (withdrawals d)) (withdrawals_seq d) (banned_users d).

(** ** Pure helpers *)

(** [return [m for m in milestones if old_pts < m <= new_pts]] *)
Definition next_milestones_reached (old_pts new_pts : Z) (milestones : list Z) : list Z :=
  filter (λ m, old_pts < m ≤ new_pts) milestones.

Inductive rank := Master | Pro | Adventurer | Explorer | Newbie.

Definition get_rank (points : Z) : rank :=
  if 2000 <=? points then Master
  else if 1500 <=? points then Pro
  else if 1000 <=? points then Adventurer
  else if 500 <=? points then Explorer
  else Newbie.

(** ** Statements of the store *)

(** [SELECT points FROM users WHERE user_id=$1], then
    [row['points'] if row else 0]. *)
Definition get_user_points_q (user_id : Z) (d : db) : Z :=
  match users d !! user_id with
  | Some points => points
  | None => 0
  end.

(** [INSERT INTO users (user_id, points) VALUES ($1, 0) ON CONFLICT (user_id) DO NOTHING] *)
Definition ensure_user_q (user_id : Z) (d : db) : db :=
  match users d !! user_id with
  | Some _ => d
  | None => set_users (insert user_id 0) d
  end.

(** [SELECT 1 FROM banned_users WHERE user_id=$1], then [row is not None]. *)
Definition is_banned_q (user_id : Z) (d : db) : bool :=
  bool_decide (user_id ∈ banned_users d).

(** [INSERT INTO banned_users (user_id) VALUES ($1) ON CONFLICT (user_id) DO NOTHING] *)
Definition ban_q (user_id : Z) (d : db) : db :=
  Db (users d) (tasks d) (tasks_seq d) (submissions d) (submissions_seq d)
     (withdrawals d) (withdrawals_seq d) ({[ user_id ]} ∪ banned_users d).

(** [SELECT COUNT( * ) AS cnt FROM submissions WHERE task_id=$1 AND status!='rejected'] *)
Definition count_done (tid : Z) (d : db) : Z :=
  Z.of_nat (length (filter (λ s, s_task_id s = tid ∧ s_status s ≠ rejected) (submissions d))).

(** [SELECT id, status FROM submissions WHERE user_id=$1 AND task_id=$2]
    read with [fetchrow]: the first matching row. *)
Definition existing_q (user_id tid : Z) (d : db) : option submission :=
  head (filter (λ s, s_user_id s = user_id ∧ s_task_id s = tid) (submissions d)).

(** [UPDATE tasks SET archived=1 WHERE id=$1] *)
Definition archive_row (tid : Z) (t : task) : task :=
  if decide (t_id t = tid)
  then Task (t_id t) (t_title t) (t_points t) (t_max_submissions t) 1 (t_role_reward_id t)
            (t_daily_flag t) (t_type t) (t_task_link t) (t_announcement_message_id t)
  else t.

Definition archive_q (tid : Z) : db → db := set_tasks (fmap (archive_row tid)).

(** [SELECT ... FROM tasks WHERE archived=0] *)
Definition open_tasks_q (d : db) : list task :=
  filter (λ t, t_archived t = 0) (tasks d).

Definition task_by_id (tid : Z) (d : db) : option task :=
  head (filter (λ t, t_id t = tid) (tasks d)).

(** [SELECT title FROM tasks WHERE id=$1], then [row['title'] if row else None]. *)
Definition task_title_q (tid : Z) (d : db) : option string :=
  t_title <$> task_by_id tid d.

(** [INSERT INTO tasks (title, points, max_submissions, role_reward_id, type)
    VALUES (...) RETURNING id]; the other columns take their defaults. *)
Definition insert_task_q (title : string) (points max_subs : Z) (role : option Z)
    (ttype : string) (d : db) : db :=
  Db (users d)
     (tasks d ++ [Task (tasks_seq d) title points max_subs 0 role 0 ttype None None])
     (tasks_seq d + 1) (submissions d) (submissions_seq d)
     (withdrawals d) (withdrawals_seq d) (banned_users d).

(** [UPDATE tasks SET task_link=$1 WHERE id=$2] *)
Definition set_link_row (link : string) (tid : Z) (t : task) : task :=
  if decide (t_id t = tid)
  then Task (t_id t) (t_title t) (t_points t) (t_max_submissions t) (t_archived t)
            (t_role_reward_id t) (t_daily_flag t) (t_type t) (Some link)
            (t_announcement_message_id t)
  else t.

Definition set_link_q (link : string) (tid : Z) : db → db :=
  set_tasks (fmap (set_link_row link tid)).

(** [UPDATE tasks SET announcement_message_id=$1 WHERE id=$2] *)
Definition set_announcement_row (mid tid : Z) (t : task) : task :=
  if decide (t_id t = tid)
  then Task (t_id t) (t_title t) (t_points t) (t_max_submissions t) (t_archived t)
            (t_role_reward_id t) (t_daily_flag t) (t_type t) (t_task_link t) (Some mid)
  else t.

Definition set_announcement_q (mid tid : Z) : db → db :=
  set_tasks (fmap (set_announcement_row mid tid)).

(** [INSERT INTO submissions (user_id, task_id, proof) VALUES ($1, $2, $3)].
    [task_id] REFERENCES [tasks(id)]: without such a task the statement is
    refused.  [status] defaults to ['pending'], [created_at] to the clock. *)
Definition insert_submission_q (user_id tid : Z) (proof : string) (now : Z)
    (d : db) : option db :=
  match task_by_id tid d with
  | None => None
  | Some _ =>
      Some (Db (users d) (tasks d) (tasks_seq d)
              (submissions d ++
                 [Submission (submissions_seq d) user_id tid (Some proof) pending now None])
              (submissions_seq d + 1)
              (withdrawals d) (withdrawals_seq d) (banned_users d))
  end.

(** [UPDATE submissions SET status=..., reviewed_at=CURRENT_TIMESTAMP WHERE id=$1] *)
Definition review_row (sid : Z) (st : status) (now : Z) (s : submission) : submission :=
  if decide (s_id s = sid)
  then Submission (s_id s) (s_user_id s) (s_task_id s) (s_proof s) st (s_created_at s) (Some now)
  else s.

Definition review_q (sid : Z) (st : status) (now : Z) : db → db :=
  set_submissions (fmap (review_row sid st now)).

(** [UPDATE users SET points = points + $1 WHERE user_id=$2] *)
Definition add_points_q (amount user_id : Z) : db → db :=
  set_users (alter (λ p, p + amount) user_id).

(** [UPDATE users SET points = points - $1 WHERE user_id=$2] *)
Definition sub_points_q (amount user_id : Z) : db → db :=
  set_users (alter (λ p, p - amount) user_id).

(** [INSERT INTO withdrawals (...) VALUES (...) RETURNING id] *)
Definition insert_withdrawal_q (user_id : Z) (bank number name : string) (points now : Z)
    (d : db) : db :=
  Db (users d) (tasks d) (tasks_seq d) (submissions d) (submissions_seq d)
     (withdrawals d ++
        [Withdrawal (withdrawals_seq d) user_id bank number name points w_pending now])
     (withdrawals_seq d + 1) (banned_users d).

(** [UPDATE withdrawals SET status='completed' WHERE id=$1] *)
Definition complete_row (wid : Z) (w : withdrawal) : withdrawal :=
  if decide (w_id w = wid)
  then Withdrawal (w_id w) (w_user_id w) (w_bank_name w) (w_account_number w)
                  (w_account_name w) (w_points w) w_completed (w_created_at w)
  else w.

Definition complete_q (wid : Z) : db → db := set_withdrawals (fmap (complete_row wid)).

(** [DELETE FROM submissions WHERE task_id=$1] *)
Definition delete_submissions_q (tid : Z) : db → db :=
  set_submissions (filter (λ s, s_task_id s ≠ tid)).

(** [DELETE FROM tasks WHERE id=$1] *)
Definition delete_task_q (tid : Z) : db → db :=
  set_tasks (filter (λ t, t_id t ≠ tid)).

(** The row the review select reads:
    [SELECT s.*, t.title, t.points AS task_points FROM submissions s
     JOIN tasks t ON s.task_id = t.id WHERE s.id=$1]. *)
Record review_row_t := ReviewRow {
  r_sub : submission;
  r_title : string;
  r_task_points : Z
}.

Definition review_select_q (sid : Z) (d : db) : option review_row_t :=
  s ← head (filter (λ s, s_id s = sid) (submissions d));
  t ← task_by_id (s_task_id s) d;
  Some (ReviewRow s (t_title t) (t_points t)).

(** [SELECT s.id, ... FROM submissions s JOIN tasks t ON s.task_id = t.id
     WHERE s.status='pending' LIMIT 25]: the ids offered by the menu. *)
Definition pending_q (d : db) : list Z :=
  s_id <$> take 25 (filter (λ s, s_status s = pending ∧ is_Some (task_by_id (s_task_id s) d))
                      (submissions d)).

(** ** What the bot sends *)

Inductive reply :=
| OnlyCaller
| YouAreBanned
| Cooldown (template : string) (user : Z) (title : string) (sec : Z)
| QuestFull (title : string)
| AlreadySubmitted (title : string) (st : status)
| QuestIntro (title : string)
| ProofPrompt (title : string)
| TimesUp
| SlotsUpdate (title : string) (slots_left : Z)
| SubmissionSent (title : string)
| NoActiveQuests
| TaskAdded (tid : Z)
| BadTaskType
| LinkSaved (link : string)
| Announcement (title : string) (points : Z)
| LinkTimedOut
| UserBanned (user_id : Z)
| BadUserId
| QuestRemoved (tid : Z)
| QuestArchived (tid : Z)
| NoPending
| PickSubmission
| NoLongerPending
| ApprovedNotice (user_id : Z) (title : option string) (points : Z)
| RejectedNotice (user_id : Z) (title : option string)
| ProfileEmbed (points : Z) (r : rank) (total approved_n rejected_n : Z)
| NeedThousand
| AskBankName
| AskAccountNumber
| AskAccountName
| AskPoints
| WithdrawTimedOut
| InvalidNumber
| MinimumWithdrawal
| OnlyHave (current_points : Z)
| WithdrawalSent (points new_balance : Z)
| MustBeAdministrator
| WithdrawalApproved (withdrawal_id points : Z)
| AddFailed
| ErrorOccurred.

(** ** Messages with components, and suspended coroutines *)

(** What a quest button's callback captured when the board was drawn. *)
Record button := Button {
  b_tid : Z;
  b_title : string;
  b_ttype : string;
  b_link : option string;
  b_max_subs : Z;
  b_pts : Z
}.

Inductive view :=
| Board (ctx_author : Z) (guild_owner : option Z) (buttons : list button)
| Menu (options : list Z)
| Review (sid : Z) (row : review_row_t)
| Profile (member : Z) (withdraw_button : bool)
| Payout (withdrawal_id points : Z)
| Closed.

Inductive coroutine :=
| AwaitLink (author channel tid : Z) (title : string) (points : Z)
| AwaitProof (user channel : Z) (board_msg : nat) (b : button) (done_count : Z)
| Recorded (board_msg : nat)
| AwaitBankName (user channel current_points : Z)
| AwaitAccountNumber (user channel current_points : Z) (bank : string)
| AwaitAccountName (user channel current_points : Z) (bank number : string)
| AwaitPoints (user channel current_points : Z) (bank number name : string).

(** The [timeout=] of the [bot.wait_for] a coroutine is suspended in, in
    seconds; [Recorded] waits for its own sends, not for a user. *)
Definition wait_timeout (c : coroutine) : option Z :=
  match c with
  | AwaitLink _ _ _ _ _ => Some 120
  | AwaitProof _ _ _ _ _ => Some 180
  | Recorded _ => None
  | AwaitBankName _ _ _ | AwaitAccountNumber _ _ _ _
  | AwaitAccountName _ _ _ _ _ | AwaitPoints _ _ _ _ _ _ => Some 60
  end.

(** The process: the store, the module-level [last_click] dict, the messages
    that carry components, the coroutines suspended in a wait, and what was
    sent so far. *)
Record world := World {
  store : db;
  last_click : gmap (Z * Z) Z;
  views : list view;
  suspended : list coroutine;
  outbox : list reply
}.

Definition init : world := World empty_db ∅ [] [] [].

(** ** The monad of a callback *)

(** A callback runs on the process state and may die on a storage statement.
    The [option nat] says which statement raises: [Some n] is the [n]-th from
    here (once), [None] is none.  Outside [conn.transaction()] asyncpg commits
    each statement on its own, so what ran before the raise stays. *)
Inductive outcome (A : Type) :=
| Returned (a : A)
| Raised.

Arguments Returned {A} a.
Arguments Raised {A}.

Definition handler (A : Type) : Type := option nat → world → outcome A * option nat * world.

Definition ret {A} (a : A) : handler A := λ k w, (Returned a, k, w).

Definition bind {A B} (m : handler A) (f : A → handler B) : handler B :=
  λ k w,
    match m k w with
    | (Returned a, k', w') => f a k' w'
    | (Raised, k', w') => (Raised, k', w')
    end.

Notation "'let!' x ':=' m 'in' f" := (bind m (λ x, f))
  (at level 10, x name, m at level 100, f at level 200, only parsing).
Notation "m ';;;' f" := (bind m (λ _, f))
  (at level 100, f at level 200, right associativity, only parsing).

Definition with_store (d : db) (w : world) : world :=
  World d (last_click w) (views w) (suspended w) (outbox w).

(** One statement sent to the store.  It raises when the store is down for
    it, or when the store refuses it ([u] gives [None]); otherwise its result
    comes back and its effect is committed. *)
Definition statement {A} (u : db → option (A * db)) : handler A :=
  λ k w,
    match k with
    | Some O => (Raised, None, w)
    | _ =>
        match u (store w) with
        | Some (a, d) => (Returned a, pred <$> k, with_store d w)
        | None => (Raised, pred <$> k, w)
        end
    end.

(** A statement that reads: [conn.fetchrow], [conn.fetch]. *)
Definition query {A} (q : db → A) : handler A := statement (λ d, Some (q d, d)).

(** A statement that writes: [conn.execute]. *)
Definition execute (u : db → db) : handler unit := statement (λ d, Some (tt, u d)).

(** A statement that writes and may be refused by a constraint. *)
Definition execute_checked (u : db → option db) : handler unit :=
  statement (λ d, pair tt <$> u d).

(** [try: ... except Exception: ...] around a piece that may raise. *)
Definition attempt {A} (m : handler A) : handler (option A) :=
  λ k w,
    match m k w with
    | (Returned a, k', w') => (Returned (Some a), k', w')
    | (Raised, k', w') => (Returned None, k', w')
    end.

Definition send (r : reply) : handler unit :=
  λ k w, (Returned tt, k, World (store w) (last_click w) (views w) (suspended w) (outbox w ++ [r])).

Definition read_last_click (key : Z * Z) : handler (option Z) :=
  λ k w, (Returned (last_click w !! key), k, w).

Definition write_last_click (key : Z * Z) (now : Z) : handler unit :=
  λ k w, (Returned tt, k,
          World (store w) (<[key := now]> (last_click w)) (views w) (suspended w) (outbox w)).

Definition read_view (i : nat) : handler (option view) :=
  λ k w, (Returned (views w !! i), k, w).

(** Sending a message that carries components; its position is its id. *)
Definition post_view (v : view) : handler nat :=
  λ k w, (Returned (length (views w)), k,
          World (store w) (last_click w) (views w ++ [v]) (suspended w) (outbox w)).

(** [message.edit(view=...)] *)
Definition edit_view (i : nat) (v : view) : handler unit :=
  λ k w, (Returned tt, k,
          World (store w) (last_click w) (<[i := v]> (views w)) (suspended w) (outbox w)).

(** The id of the message just sent; the platform gives it, here it is the
    place of the message in the outbox. *)
Definition sent_message_id : handler Z :=
  λ k w, (Returned (Z.of_nat (length (outbox w))), k, w).

(** Entering a wait: the rest of the coroutine is parked. *)
Definition suspend (c : coroutine) : handler unit :=
  λ k w, (Returned tt, k,
          World (store w) (last_click w) (views w) (suspended w ++ [c]) (outbox w)).

(** The parked coroutine [i] is taken out to be resumed. *)
Definition unpark (i : nat) (w : world) : world :=
  World (store w) (last_click w) (views w) (delete i (suspended w)) (outbox w).

(** The state a callback leaves, whether it returned or died. *)
Definition after {A} (m : handler A) (k : option nat) (w : world) : world := (m k w).2.

(** ** Helpers of the source *)

Definition ensure_user (user_id : Z) : handler unit := execute (ensure_user_q user_id).

Definition get_user_points (user_id : Z) : handler Z := query (get_user_points_q user_id).

Definition is_banned (user_id : Z) : handler bool := query (is_banned_q user_id).

Definition task_title_by_id (task_id : Z) : handler (option string) :=
  query (task_title_q task_id).

(** ** The quest board *)

Definition button_of (r : task) : button :=
  Button (t_id r) (t_title r) (t_type r) (t_task_link r) (t_max_submissions r) (t_points r).

(** The loop [for r in rows[:10]] of [tasks_cmd] and [refresh_task_board]:
    a full task is archived and skipped, the others get a button. *)
Fixpoint draw_buttons (rows : list task) : handler (list button) :=
  match rows with
  | [] => ret []
  | r :: rows' =>
      let! done := query (count_done (t_id r)) in
      if t_max_submissions r <=? done then
        execute (archive_q (t_id r)) ;;;
        draw_buttons rows'
      else
        let! bs := draw_buttons rows' in
        ret (button_of r :: bs)
  end.

(** [tasks_cmd]; the board message is sent by [ctx.send], so it is no
    interaction response. *)
Definition tasks_cmd (author : Z) (guild_owner : option Z) : handler unit :=
  let! rows := query open_tasks_q in
  match rows with
  | [] => send NoActiveQuests
  | _ =>
      let! board_msg := post_view (Board author guild_owner []) in
      let! bs := draw_buttons (take 10 rows) in
      edit_view board_msg (Board author guild_owner bs)
  end.

(** [refresh_task_board(message)].  [message.interaction] is [None] for a
    board, so the callbacks are bound anew to [message.guild.owner]; with no
    guild (or no owner known) the function returns before it touches
    anything. *)
Definition refresh_task_board (message : nat) : handler unit :=
  let! rows := query open_tasks_q in
  let! v := read_view message in
  match v with
  | Some (Board _ (Some owner) _) =>
      let! bs := draw_buttons (take 10 rows) in
      match bs with
      | [] => edit_view message (Board owner (Some owner) []) ;;; send NoActiveQuests
      | _ => edit_view message (Board owner (Some owner) bs)
      end
  | _ => ret tt
  end.

(** ** Submission intake *)

(** [last and (now - last).total_seconds() < BUTTON_COOLDOWN]: the time left
    when the click comes too early.  On whole microseconds, comparing the
    float [total_seconds()] with 10 is comparing the difference with ten
    million. *)
Definition cooldown_remaining (last : option Z) (now : Z) : option Z :=
  match last with
  | Some l =>
      if now - l <? BUTTON_COOLDOWN * SECOND
      then Some (BUTTON_COOLDOWN * SECOND - (now - l))
      else None
  | None => None
  end.

(** [random.choice(COOLDOWN_MESSAGES)], the draw being [choice]. *)
Definition pick_message (choice : nat) : string :=
  nth (choice `mod` length COOLDOWN_MESSAGES)%nat COOLDOWN_MESSAGES ""%string.

(** Whether a template has the [{sec}] field, the only place where the
    remaining time shows. *)
Definition shows_remaining (template : string) : bool :=
  match String.index 0 "{sec}" template with
  | Some _ => true
  | None => false
  end.

(** [task_cb] up to its wait for the proof. *)
Definition task_cb (board_msg : nat) (ctx_author : Z) (b : button)
    (user channel now : Z) (choice : nat) : handler unit :=
  if negb (bool_decide (user = ctx_author)) then send OnlyCaller
  else
    let! banned := is_banned user in
    if (banned : bool) then send YouAreBanned
    else
      let key := (user, b_tid b) in
      let! last := read_last_click key in
      match cooldown_remaining last now with
      | Some remaining =>
          send (Cooldown (pick_message choice) user (b_title b) (remaining `quot` SECOND))
      | None =>
          write_last_click key now ;;;
          let! done_count := query (count_done (b_tid b)) in
          if b_max_subs b <=? done_count then
            send (QuestFull (b_title b)) ;;;
            execute (archive_q (b_tid b)) ;;;
            refresh_task_board board_msg
          else
            let! existing := query (existing_q user (b_tid b)) in
            match existing with
            | Some s => send (AlreadySubmitted (b_title b) (s_status s))
            | None =>
                send (QuestIntro (b_title b)) ;;;
                send (ProofPrompt (b_title b)) ;;;
                suspend (AwaitProof user channel board_msg b done_count)
            end
      end.

Section Bot.

(** Python's [int(str)] and [str.strip()], taken as they are. *)
Variable py_int : string → option Z.
Variable py_strip : string → string.

(** [task_cb] from the proof message on, up to the sends that precede the
    board refresh. *)
Definition task_cb_record (user : Z) (board_msg : nat) (b : button) (done_count : Z)
    (content : string) (now : Z) : handler unit :=
  let proof := py_strip content in
  ensure_user user ;;;
  execute_checked (insert_submission_q user (b_tid b) proof now) ;;;
  send (SlotsUpdate (b_title b) (b_max_subs b - (done_count + 1))) ;;;
  send (SubmissionSent (b_title b)) ;;;
  suspend (Recorded board_msg).

(** ** Quest administration *)

(** [addtask] up to its wait for the link. *)
Definition addtask (author channel : Z) (title : string) (points max_subs : Z)
    (ttype : string) (role : option Z) : handler unit :=
  if negb (bool_decide (ttype ∈ ["like"; "rt"; "link"]%string)) then send BadTaskType
  else
    let! tid := statement (λ d, Some (tasks_seq d, insert_task_q title points max_subs role ttype d)) in
    if bool_decide (tid = 0) then send AddFailed
    else
      send (TaskAdded tid) ;;;
      suspend (AwaitLink author channel tid title points).

(** [addtask] from the link message on; the announcement and the statement
    that stores its id are under a [try]. *)
Definition addtask_link (tid : Z) (title : string) (points : Z) (content : string)
    : handler unit :=
  let link := py_strip content in
  execute (set_link_q link tid) ;;;
  send (LinkSaved link) ;;;
  send (Announcement title points) ;;;
  let! posted := sent_message_id in
  attempt (execute (set_announcement_q posted tid)) ;;;
  ret tt.

(** [ManageTaskView.remove_task_button] *)
Definition remove_task_button (task_id : Z) : handler unit :=
  execute (delete_submissions_q task_id) ;;;
  execute (delete_task_q task_id) ;;;
  send (QuestRemoved task_id).

(** [ManageTaskView.archive_task_button] *)
Definition archive_task_button (task_id : Z) : handler unit :=
  execute (archive_q task_id) ;;;
  send (QuestArchived task_id).

(** [BanUserModal.on_submit] *)
Definition ban_user_modal (user_id_input : string) : handler unit :=
  match py_int user_id_input with
  | None => send BadUserId
  | Some user_id =>
      let! r := attempt (execute (ban_q user_id)) in
      match r with
      | Some _ => send (UserBanned user_id)
      | None => send ErrorOccurred
      end
  end.

(** ** Review pipeline *)

(** [review_cmd] *)
Definition review_cmd : handler unit :=
  let! subs := query pending_q in
  match subs with
  | [] => send NoPending
  | _ => send PickSubmission ;;; post_view (Menu subs) ;;; ret tt
  end.

(** [PendingSelect.callback] *)
Definition select_callback (sid : Z) : handler unit :=
  let! row := query (review_select_q sid) in
  match row with
  | None => send NoLongerPending
  | Some r =>
      if bool_decide (s_status (r_sub r) ≠ pending) then send NoLongerPending
      else post_view (Review sid r) ;;; ret tt
  end.

(** [approve_cb], the callback of the Approve button of message [msg]. *)
Definition approve_cb (msg : nat) (sid : Z) (row : review_row_t) (now : Z) : handler unit :=
  let task_points := r_task_points row in
  let user_id := s_user_id (r_sub row) in
  execute (review_q sid approved now) ;;;
  execute (add_points_q task_points user_id) ;;;
  attempt (let! task_title := task_title_by_id (s_task_id (r_sub row)) in
           send (ApprovedNotice user_id task_title task_points)) ;;;
  edit_view msg Closed.

(** [reject_cb] *)
Definition reject_cb (msg : nat) (sid : Z) (row : review_row_t) (now : Z) : handler unit :=
  let user_id := s_user_id (r_sub row) in
  execute (review_q sid rejected now) ;;;
  attempt (let! task_title := task_title_by_id (s_task_id (r_sub row)) in
           send (RejectedNotice user_id task_title)) ;;;
  edit_view msg Closed.

(** ** Profile and withdrawal *)

Definition count_of (user_id : Z) (sts : list status) (d : db) : Z :=
  Z.of_nat (length (filter (λ s, s_user_id s = user_id ∧ s_status s ∈ sts) (submissions d))).

(** [profile_cmd]; the withdraw button is there when the caller looks at
    their own profile. *)
Definition profile_cmd (author member : Z) : handler unit :=
  ensure_user member ;;;
  let! pts := get_user_points member in
  let! total := query (count_of member [pending; approved; rejected]) in
  let! approved_n := query (count_of member [approved]) in
  let! rejected_n := query (count_of member [rejected]) in
  let! _ := query (count_of member [approved; rejected]) in
  send (ProfileEmbed pts (get_rank pts) total approved_n rejected_n) ;;;
  post_view (Profile member (bool_decide (author = member))) ;;;
  ret tt.

(** [withdraw_cb] up to its first wait. *)
Definition withdraw_cb (user channel : Z) : handler unit :=
  let! current_points := get_user_points user in
  if current_points <? 1000 then send NeedThousand
  else
    send AskBankName ;;;
    suspend (AwaitBankName user channel current_points).

(** [withdraw_cb] after the four answers: the checks on the amount, then the
    debit and the request. *)
Definition withdraw_cb_commit (user current_points : Z) (bank number name : string)
    (content : string) (now : Z) : handler unit :=
  match py_int content with
  | None => send InvalidNumber
  | Some points_to_withdraw =>
      if points_to_withdraw <=? 0 then send InvalidNumber
      else if points_to_withdraw <? 1000 then send MinimumWithdrawal
      else if current_points <? points_to_withdraw then send (OnlyHave current_points)
      else
        execute (sub_points_q points_to_withdraw user) ;;;
        let! withdrawal_id :=
          statement (λ d, Some (withdrawals_seq d,
                                insert_withdrawal_q user bank number name points_to_withdraw now d)) in
        send (WithdrawalSent points_to_withdraw (current_points - points_to_withdraw)) ;;;
        post_view (Payout withdrawal_id points_to_withdraw) ;;;
        ret tt
  end.

(** [approve_withdrawal_cb] *)
Definition approve_withdrawal_cb (msg : nat) (withdrawal_id points : Z)
    (administrator : bool) : handler unit :=
  if negb administrator then send MustBeAdministrator
  else
    execute (complete_q withdrawal_id) ;;;
    send (WithdrawalApproved withdrawal_id points) ;;;
    edit_view msg Closed.

(** ** Events *)

(** The [check] of each [bot.wait_for]: same author, same channel, and for a
    proof a content that starts with [http]. *)
Definition check (c : coroutine) (author channel : Z) (content : string) : bool :=
  match c with
  | AwaitLink a ch _ _ _ => bool_decide (author = a) && bool_decide (channel = ch)
  | AwaitProof u ch _ _ _ =>
      bool_decide (author = u) && String.prefix "http" content && bool_decide (channel = ch)
  | Recorded _ => false
  | AwaitBankName u ch _ | AwaitAccountNumber u ch _ _
  | AwaitAccountName u ch _ _ _ | AwaitPoints u ch _ _ _ _ =>
      bool_decide (author = u) && bool_decide (channel = ch)
  end.

(** What a coroutine does with the message its wait returned. *)
Definition resume (c : coroutine) (content : string) (now : Z) : handler unit :=
  match c with
  | AwaitLink _ _ tid title points => addtask_link tid title points content
  | AwaitProof user _ board_msg b done_count =>
      task_cb_record user board_msg b done_count content now
  | Recorded _ => ret tt
  | AwaitBankName user channel cp =>
      send AskAccountNumber ;;; suspend (AwaitAccountNumber user channel cp content)
  | AwaitAccountNumber user channel cp bank =>
      send AskAccountName ;;; suspend (AwaitAccountName user channel cp bank content)
  | AwaitAccountName user channel cp bank number =>
      send AskPoints ;;; suspend (AwaitPoints user channel cp bank number content)
  | AwaitPoints user _ cp bank number name =>
      withdraw_cb_commit user cp bank number name content now
  end.

(** What a coroutine does when its wait raises [asyncio.TimeoutError]. *)
Definition expire (c : coroutine) : handler unit :=
  match c with
  | AwaitLink _ _ _ _ _ => send LinkTimedOut
  | AwaitProof _ _ _ _ _ => send TimesUp
  | Recorded _ => ret tt
  | AwaitBankName _ _ _ | AwaitAccountNumber _ _ _ _
  | AwaitAccountName _ _ _ _ _ | AwaitPoints _ _ _ _ _ _ => send WithdrawTimedOut
  end.

Inductive event :=
| AddTask (author channel : Z) (title : string) (points max_subs : Z) (ttype : string)
    (role : option Z)
| RemoveTask (task_id : Z)
| ArchiveTask (task_id : Z)
| BanUser (user_id_input : string)
| TasksCmd (author : Z) (guild_owner : option Z)
| Click (board_msg btn : nat) (user channel now : Z) (choice : nat)
| Message (i : nat) (author channel : Z) (content : string) (now : Z)
| TimedOut (i : nat)
| Completed (i : nat)
| ReviewCmd
| Select (menu opt : nat)
| Approve (msg : nat) (now : Z)
| Reject (msg : nat) (now : Z)
| ProfileCmd (author member : Z)
| WithdrawClick (msg : nat) (user channel : Z)
| ApproveWithdrawal (msg : nat) (administrator : bool).

(** The callback an event starts or resumes, with the state it starts from
    (a resumed coroutine has left the waiting list).  An event with no
    addressee does nothing. *)
Definition dispatch (e : event) (w : world) : handler unit * world :=
  match e with
  | AddTask author channel title points max_subs ttype role =>
      (addtask author channel title points max_subs ttype role, w)
  | RemoveTask task_id => (remove_task_button task_id, w)
  | ArchiveTask task_id => (archive_task_button task_id, w)
  | BanUser s => (ban_user_modal s, w)
  | TasksCmd author guild_owner => (tasks_cmd author guild_owner, w)
  | Click board_msg btn user channel now choice =>
      match views w !! board_msg with
      | Some (Board ctx_author _ buttons) =>
          match buttons !! btn with
          | Some b => (task_cb board_msg ctx_author b user channel now choice, w)
          | None => (ret tt, w)
          end
      | _ => (ret tt, w)
      end
  | Message i author channel content now =>
      match suspended w !! i with
      | Some c =>
          if check c author channel content then (resume c content now, unpark i w)
          else (ret tt, w)
      | None => (ret tt, w)
      end
  | TimedOut i =>
      match suspended w !! i with
      | Some c =>
          match wait_timeout c with
          | Some _ => (expire c, unpark i w)
          | None => (ret tt, w)
          end
      | None => (ret tt, w)
      end
  | Completed i =>
      match suspended w !! i with
      | Some (Recorded board_msg) => (refresh_task_board board_msg, unpark i w)
      | _ => (ret tt, w)
      end
  | ReviewCmd => (review_cmd, w)
  | Select menu opt =>
      match views w !! menu with
      | Some (Menu options) =>
          match options !! opt with
          | Some sid => (select_callback sid, w)
          | None => (ret tt, w)
          end
      | _ => (ret tt, w)
      end
  | Approve msg now =>
      match views w !! msg with
      | Some (Review sid row) => (approve_cb msg sid row now, w)
      | _ => (ret tt, w)
      end
  | Reject msg now =>
      match views w !! msg with
      | Some (Review sid row) => (reject_cb msg sid row now, w)
      | _ => (ret tt, w)
      end
  | ProfileCmd author member => (profile_cmd author member, w)
  | WithdrawClick msg user channel =>
      match views w !! msg with
      | Some (Profile _ true) => (withdraw_cb user channel, w)
      | _ => (ret tt, w)
      end
  | ApproveWithdrawal msg administrator =>
      match views w !! msg with
      | Some (Payout withdrawal_id points) =>
          (approve_withdrawal_cb msg withdrawal_id points administrator, w)
      | _ => (ret tt, w)
      end
  end.

(** One event, handled to its next wait; [fault] is the statement at which
    the store raises during it, if any. *)
Definition step_with (fault : option nat) (w : world) (e : event) : world :=
  let '(m, w0) := dispatch e w in after m fault w0.

Definition step : world → event → world := step_with None.

Definition run (trace : list event) (w : world) : world := foldl step w trace.

End Bot.

(** ** ASCII stand-ins for the two builtins, to run scenarios *)

Definition is_space (a : ascii) : bool :=
  let n := nat_of_ascii a in ((9 <=? n) && (n <=? 13) || (n =? 32))%nat.

Fixpoint lstrip (s : string) : string :=
  match s with
  | String a s' => if is_space a then lstrip s' else s
  | EmptyString => EmptyString
  end.

(** [str.strip()] on ASCII blanks. *)
Definition ascii_strip (s : string) : string :=
  String.rev (lstrip (String.rev (lstrip s))).

Fixpoint digits (s : string) (acc : Z) : option Z :=
  match s with
  | EmptyString => Some acc
  | String a s' =>
      let n := nat_of_ascii a in
      if ((48 <=? n) && (n <=? 57))%nat
      then digits s' (10 * acc + Z.of_nat (n - 48))
      else None
  end.

(** [int(str)] on a signed run of ASCII digits between blanks. *)
Definition ascii_int (s : string) : option Z :=
  match ascii_strip s with
  | EmptyString => None
  | String "-" EmptyString | String "+" EmptyString => None
  | String "-" s' => Z.opp <$> digits s' 0
  | String "+" s' => digits s' 0
  | s' => digits s' 0
  end.

Definition play : list event → world → world := run ascii_int ascii_strip.

(** An administrator (user 1, channel 100) adds a quest worth [points] with
    room for [max_subs] and answers with its link. *)
Definition quest_posted (points max_subs : Z) : list event :=
  [ AddTask 1 100 "Follow us" points max_subs "link" None;
    Message 0 1 100 "https://example.org/quest" (5 * SECOND) ].

(** User 7 opens the board in a guild owned by user 1, clicks the quest and
    posts a proof; the board refresh follows. *)
Definition proof_sent : list event :=
  [ TasksCmd 7 (Some 1);
    Click 0 0 7 200 (10 * SECOND) 0;
    Message 0 7 200 "http://example.org/proof" (20 * SECOND);
    Completed 0 ].

(** Two review messages are opened on submission 1 while it is pending
    (views 2 and 3), as when two administrators pick it from the menu. *)
Definition opened_twice : list event :=
  [ ReviewCmd; Select 1 0; Select 1 0 ].

Definition status_of (sid : Z) (w : world) : list status :=
  s_status <$> filter (λ s, s_id s = sid) (submissions (store w)).

Definition reviewed_at_of (sid : Z) (w : world) : list (option Z) :=
  s_reviewed_at <$> filter (λ s, s_id s = sid) (submissions (store w)).

Definition points_of (user_id : Z) (w : world) : option Z := users (store w) !! user_id.

(** The rows of a (user, task) pair. *)
Definition rows_of (user_id tid : Z) (w : world) : list submission :=
  filter (λ s, s_user_id s = user_id ∧ s_task_id s = tid) (submissions (store w)).

(** ** The board loop, read off as functions of the store *)

(** A row the loop finds full: [done >= max_subs]. *)
Definition is_full (d : db) (r : task) : Prop :=
  t_max_submissions r ≤ count_done (t_id r) d.

#[global] Instance is_full_dec d r : Decision (is_full d r).
Proof. unfold is_full. apply _. Defined.

Definition archive_all (ids : list Z) (d : db) : db :=
  foldl (λ d id, archive_q id d) d ids.

(** The rows a drawing looks at: [rows[:10]] of the open tasks. *)
Definition examined (d : db) : list task := take 10 (open_tasks_q d).

(** The buttons a drawing makes, and the store it leaves. *)
Definition drawn (d : db) : list button :=
  button_of <$> filter (λ r, ¬ is_full d r) (examined d).

Definition swept (d : db) : db :=
  archive_all (t_id <$> filter (is_full d) (examined d)) d.

(** ** Withdrawal: what is asked of the amount *)

Section Amount.

Variable py_int : string → option Z.

(** The entered amount fails a check of [withdraw_cb] against the balance
    [current_points] that the callback read when the button was pressed. *)
Definition bad_amount (current_points : Z) (content : string) : Prop :=
  match py_int content with
  | None => True
  | Some p => p ≤ 0 ∨ p < 1000 ∨ current_points < p
  end.

End Amount.

(** One negotiation, uninterrupted: the button, then the four answers, each
    delivered to the coroutine parked at position [n]. *)
Definition negotiation (msg n : nat) (user channel : Z)
    (bank number name amount : string) (t1 t2 t3 t4 : Z) : list event :=
  [ WithdrawClick msg user channel;
    Message n user channel bank t1;
    Message n user channel number t2;
    Message n user channel name t3;
    Message n user channel amount t4 ].

(** A negotiation that stops answering: the button, some answers, then the
    timeout of the wait at position [n]. *)
Definition abandoned (msg n : nat) (user channel : Z) (answers : list (string * Z))
    : list event :=
  WithdrawClick msg user channel
    :: ((λ a, Message n user channel a.1 a.2) <$> answers) ++ [TimedOut n].

(** The waits for user input of the intake and of the withdrawal. *)
Definition user_wait (c : coroutine) : bool :=
  match c with
  | AwaitLink _ _ _ _ _ | Recorded _ => false
  | _ => true
  end.

(** ** The cooldown gate of [task_cb] *)

(** A click reaches the gate and passes it: the key and the time it records. *)
Definition passes_gate (w : world) (e : event) : option (Z * Z * Z) :=
  match e with
  | Click board_msg btn user _ now _ =>
      match views w !! board_msg with
      | Some (Board ctx_author _ buttons) =>
          match buttons !! btn with
          | Some b =>
              if bool_decide (user = ctx_author) && negb (is_banned_q user (store w))
              then
                match cooldown_remaining (last_click w !! (user, b_tid b)) now with
                | None => Some (user, b_tid b, now)
                | Some _ => None
                end
              else None
          | None => None
          end
      | _ => None
      end
  | _ => None
  end.

(** The times at which clicks of [key] passed, oldest first. *)
Definition times_of (key : Z * Z) (log : list (Z * Z * Z)) : list Z :=
  snd <$> filter (λ p, p.1 = key) log.

(** Each time is a full window after the one before it, the first one after
    [last] when there is one. *)
Fixpoint spaced (last : option Z) (times : list Z) : Prop :=
  match times with
  | [] => True
  | t :: times' =>
      match last with
      | Some l => l + BUTTON_COOLDOWN * SECOND ≤ t
      | None => True
      end ∧ spaced (Some t) times'
  end.

Section Gate.

Variable py_int : string → option Z.
Variable py_strip : string → string.

(** The clicks that passed the gate along a run. *)
Fixpoint gate_log (trace : list event) (w : world) : list (Z * Z * Z) :=
  match trace with
  | [] => []
  | e :: trace' =>
      match passes_gate w e with
      | Some p => [p]
      | None => []
      end ++ gate_log trace' (step py_int py_strip w e)
  end.

(** The cooldown as the specification words it: whenever the caller of a
    board, not banned, clicks a quest and clicks it again less than the window
    later, the second click is denied with a cooldown message and neither
    writes a row nor enters the wait for a proof. *)
Definition cooldown_as_claimed : Prop :=
  ∀ trace board_msg btn user channel owner buttons b t1 t2 c1 c2,
    let w := run py_int py_strip trace init in
    views w !! board_msg = Some (Board user owner buttons) →
    buttons !! btn = Some b →
    is_banned_q user (store w) = false →
    0 ≤ t2 - t1 < BUTTON_COOLDOWN * SECOND →
    let w1 := step py_int py_strip w (Click board_msg btn user channel t1 c1) in
    let w2 := step py_int py_strip w1 (Click board_msg btn user channel t2 c2) in
    (∃ sec, outbox w2 = outbox w1 ++ [Cooldown (pick_message c2) user (b_title b) sec])
    ∧ submissions (store w2) = submissions (store w1)
    ∧ suspended w2 = suspended w1.

End Gate.

(** ** The ledger and the capacity, as the specification states them *)

Definition Zsum (l : list Z) : Z := foldr Z.add 0 l.

(** The reward of a task: [t.points] of the task a submission joins with. *)
Definition reward (d : db) (tid : Z) : Z :=
  match task_by_id tid d with
  | Some t => t_points t
  | None => 0
  end.

(** The sum of the rewards of a user's approved submissions. *)
Definition approved_rewards (user_id : Z) (d : db) : Z :=
  Zsum ((λ s, reward d (s_task_id s)) <$>
        filter (λ s, s_user_id s = user_id ∧ s_status s = approved) (submissions d)).

(** The sum of a user's withdrawal amounts. *)
Definition withdrawn (user_id : Z) (d : db) : Z :=
  Zsum (w_points <$> filter (λ x, w_user_id x = user_id) (withdrawals d)).

Definition ledger_balanced (d : db) : Prop :=
  ∀ u p, users d !! u = Some p → p = approved_rewards u d - withdrawn u d ∧ 0 ≤ p.

Definition within_capacity (d : db) : Prop :=
  ∀ t, t ∈ tasks d → count_done (t_id t) d ≤ t_max_submissions t.

Definition full_is_archived (d : db) : Prop :=
  ∀ t, t ∈ tasks d → count_done (t_id t) d = t_max_submissions t → t_archived t = 1.

(** The task a coroutine collects a proof for. *)
Definition collects (c : coroutine) : option Z :=
  match c with
  | AwaitProof _ _ _ b _ => Some (b_tid b)
  | _ => None
  end.

(** How many clicks on task [tid] are waiting for their proof. *)
Definition collecting (tid : Z) (w : world) : nat :=
  length (filter (λ c, collects c = Some tid) (suspended w)).

(** ** Orderly runs *)

(** What keeps the ledger in step with the tables: a quest is created with a
    reward that is not negative and is removed only while none of its
    submissions is approved; Approve or Reject is pressed on a review message
    only while its submission is there and pending; the amount of a
    withdrawal is answered while the balance is still the one the callback
    read. *)
Definition ledger_guard (w : world) (e : event) : bool :=
  match e with
  | AddTask _ _ _ points _ _ _ => bool_decide (0 ≤ points)
  | RemoveTask task_id =>
      bool_decide (Forall (λ s, s_task_id s = task_id → s_status s ≠ approved)
                          (submissions (store w)))
  | Approve msg _ | Reject msg _ =>
      match views w !! msg with
      | Some (Review sid _) => bool_decide (status_of sid w = [pending])
      | _ => true
      end
  | Message i _ _ _ _ =>
      match suspended w !! i with
      | Some (AwaitPoints user _ cp _ _ _) =>
          bool_decide (cp = get_user_points_q user (store w))
      | _ => true
      end
  | _ => true
  end.

(** What keeps a quest within its capacity: a quest is created with a
    capacity that is not negative; a quest is clicked only while no other
    click on it waits for its proof; Approve is not pressed on a submission
    that was rejected in the meantime. *)
Definition capacity_guard (w : world) (e : event) : bool :=
  match e with
  | AddTask _ _ _ _ max_subs _ _ => bool_decide (0 ≤ max_subs)
  | Click board_msg btn _ _ _ _ =>
      match views w !! board_msg with
      | Some (Board _ _ buttons) =>
          match buttons !! btn with
          | Some b => bool_decide (collecting (b_tid b) w = 0%nat)
          | None => true
          end
      | _ => true
      end
  | Approve msg _ =>
      match views w !! msg with
      | Some (Review sid _) => bool_decide (rejected ∉ status_of sid w)
      | _ => true
      end
  | _ => true
  end.

Section Orderly.

Variable py_int : string → option Z.
Variable py_strip : string → string.

(** Every event of the run meets the guard in the state it arrives in. *)
Fixpoint orderly (guard : world → event → bool) (trace : list event) (w : world) : bool :=
  match trace with
  | [] => true
  | e :: trace' => guard w e && orderly guard trace' (step py_int py_strip w e)
  end.

(** The two invariants as the specification states them, over every run. *)
Definition ledger_as_claimed : Prop :=
  ∀ trace, ledger_balanced (store (run py_int py_strip trace init)).

Definition capacity_as_claimed : Prop :=
  ∀ trace,
    within_capacity (store (run py_int py_strip trace init))
    ∧ full_is_archived (store (run py_int py_strip trace init)).

End Orderly.

(** ** What every state of a run satisfies *)

Definition fresh_ids (d : db) : Prop :=
  NoDup (t_id <$> tasks d)
  ∧ (∀ t, t ∈ tasks d → t_id t < tasks_seq d)
  ∧ NoDup (s_id <$> submissions d)
  ∧ (∀ s, s ∈ submissions d → s_id s < submissions_seq d).

Definition references_kept (d : db) : Prop :=
  ∀ s, s ∈ submissions d →
       is_Some (users d !! s_user_id s) ∧ ∃ t, t ∈ tasks d ∧ t_id t = s_task_id s.

(** A button still shows the capacity of its task, if the task is there. *)
Definition button_current (d : db) (b : button) : Prop :=
  b_tid b < tasks_seq d
  ∧ ∀ t, t ∈ tasks d → t_id t = b_tid b → t_max_submissions t = b_max_subs b.

(** A review message still shows whose submission it is and what its task is
    worth, if the submission is there. *)
Definition row_current (d : db) (sid : Z) (row : review_row_t) : Prop :=
  sid < submissions_seq d
  ∧ ∀ s, s ∈ submissions d → s_id s = sid →
         s_user_id s = s_user_id (r_sub row)
         ∧ s_task_id s = s_task_id (r_sub row)
         ∧ reward d (s_task_id s) = r_task_points row.

Definition view_current (d : db) (v : view) : Prop :=
  match v with
  | Board _ _ buttons => Forall (button_current d) buttons
  | Review sid row => row_current d sid row
  | _ => True
  end.

Definition coroutine_current (d : db) (c : coroutine) : Prop :=
  match c with
  | AwaitProof _ _ _ b _ => button_current d b
  | _ => True
  end.

Definition wf (w : world) : Prop :=
  fresh_ids (store w) ∧ references_kept (store w)
  ∧ Forall (view_current (store w)) (views w)
  ∧ Forall (coroutine_current (store w)) (suspended w).

(** What the ledger needs besides the balance: rewards are not negative and
    who withdrew has a row. *)
Definition ledger_ok (d : db) : Prop :=
  (∀ t, t ∈ tasks d → 0 ≤ t_points t)
  ∧ (∀ x, x ∈ withdrawals d → is_Some (users d !! w_user_id x))
  ∧ ledger_balanced d.

(** ** Vocabulary of the proofs *)

(** What a click leaves, branch by branch. *)
Definition clicked (board_msg : nat) (ctx_author : Z) (b : button)
    (user channel now : Z) (choice : nat) (w : world) : world :=
  let 'World d lc vs cs out := w in
  if negb (bool_decide (user = ctx_author)) then World d lc vs cs (out ++ [OnlyCaller])
  else if is_banned_q user d then World d lc vs cs (out ++ [YouAreBanned])
  else
    match cooldown_remaining (lc !! (user, b_tid b)) now with
    | Some remaining =>
        World d lc vs cs
          (out ++ [Cooldown (pick_message choice) user (b_title b) (remaining `quot` SECOND)])
    | None =>
        let lc' := <[(user, b_tid b) := now]> lc in
        if b_max_subs b <=? count_done (b_tid b) d then
          after (refresh_task_board board_msg) None
            (World (archive_q (b_tid b) d) lc' vs cs (out ++ [QuestFull (b_title b)]))
        else
          match existing_q user (b_tid b) d with
          | Some s => World d lc' vs cs (out ++ [AlreadySubmitted (b_title b) (s_status s)])
          | None =>
              World d lc' vs (cs ++ [AwaitProof user channel board_msg b (count_done (b_tid b) d)])
                    ((out ++ [QuestIntro (b_title b)]) ++ [ProofPrompt (b_title b)])
          end
    end.

(** [wp m Q E w]: run from [w], [m] returns [a] in a state with [Q a], or is
    refused by the store in a state with [E]. *)
Definition wp {A} (m : handler A) (Q : A → world → Prop) (E : world → Prop)
    (w : world) : Prop :=
  match m None w with
  | (Returned a, None, w') => Q a w'
  | (Raised, None, w') => E w'
  | _ => False
  end.

(** An update of task rows that leaves id, points and capacity alone. *)
Definition keeps_key (f : task → task) : Prop :=
  ∀ t, t_id (f t) = t_id t ∧ t_points (f t) = t_points t
       ∧ t_max_submissions (f t) = t_max_submissions t.

Definition store_wf (d : db) : Prop := fresh_ids d ∧ references_kept d.

(** From [d] to [d'] the store stays well formed and what buttons and review
    messages captured stays current. *)
Definition advances (d d' : db) : Prop :=
  store_wf d →
  store_wf d'
  ∧ (∀ b, button_current d b → button_current d' b)
  ∧ (∀ sid row, row_current d sid row → row_current d' sid row).

(** The rewards [g] of the approved submissions of [u] among [l]. *)
Definition ar (g : Z → Z) (u : Z) (l : list submission) : Z :=
  Zsum ((λ s, g (s_task_id s)) <$>
        filter (λ s, s_user_id s = u ∧ s_status s = approved) l).

(** The amounts withdrawn by [u] among [l]. *)
Definition wd (u : Z) (l : list withdrawal) : Z :=
  Zsum (w_points <$> filter (λ x, w_user_id x = u) l).

(** The clicks on task [tid] that wait for their proof among [cs]. *)
Definition waiting (tid : Z) (cs : list coroutine) : nat :=
  length (filter (λ c, collects c = Some tid) cs).

(** Every task has room for its submissions that count and for the clicks
    that wait for their proof. *)
Definition roomy (d : db) (cs : list coroutine) : Prop :=
  ∀ t, t ∈ tasks d → count_done (t_id t) d + Z.of_nat (waiting (t_id t) cs) ≤ t_max_submissions t.

(** The tasks of [d'] are tasks of [d], with the capacity they had. *)
Definition tasks_within (d d' : db) : Prop :=
  ∀ t', t' ∈ tasks d' →
        ∃ t, t ∈ tasks d ∧ t_id t = t_id t' ∧ t_max_submissions t = t_max_submissions t'.

(** ** Scenarios *)

(** The submission of user 7 is approved (review message 2). *)
Definition approved_once : list event :=
  [ ReviewCmd; Select 1 0; Approve 2 (30 * SECOND) ].

(** A quest worth 200 is done and approved, then removed by an administrator. *)
Definition quest_removed : list event :=
  quest_posted 200 1 ++ proof_sent ++ approved_once ++ [ RemoveTask 1 ].

(** The one slot of a quest is taken; the board has not been drawn again yet. *)
Definition slot_taken : list event :=
  quest_posted 200 1 ++
  [ TasksCmd 7 (Some 1);
    Click 0 0 7 200 (10 * SECOND) 0;
    Message 0 7 200 "http://example.org/proof" (20 * SECOND) ].

(** Users 7 and 8 each open a board and click the quest that has one slot
    left, then each posts a proof. *)
Definition two_claim_last_slot : list event :=
  quest_posted 200 1 ++
  [ TasksCmd 7 (Some 1);
    TasksCmd 8 (Some 1);
    Click 0 0 7 200 (10 * SECOND) 0;
    Click 1 0 8 201 (11 * SECOND) 0;
    Message 0 7 200 "http://example.org/proof7" (20 * SECOND);
    Message 0 8 201 "http://example.org/proof8" (21 * SECOND) ].

(** User 7 has opened a board on a quest with five slots and clicked it at
    ten seconds. *)
Definition clicked_once : list event :=
  quest_posted 200 5 ++ [ TasksCmd 7 (Some 1); Click 0 0 7 200 (10 * SECOND) 0 ].

(** User 7 earns 1200 points and opens the profile (message 3). *)
Definition earned_1200 : list event :=
  quest_posted 1200 1 ++ proof_sent ++ approved_once ++ [ ProfileCmd 7 7 ].

(** User 7 then withdraws [amount]. *)
Definition withdraws (amount : string) : list event :=
  negotiation 3 0 7 200 "Bank" "0123456789" "A. User" amount
    (40 * SECOND) (41 * SECOND) (42 * SECOND) (43 * SECOND).

(** User 7 presses the withdraw button twice before answering; each answer
    is then read by both negotiations (a coroutine that parks again goes to
    the end of the list, so both are met at position 0 in turn). *)
Definition withdraws_twice (amount : string) : list event :=
  [ WithdrawClick 3 7 200; WithdrawClick 3 7 200 ] ++
  flat_map (λ a, [ Message 0 7 200 a.1 a.2; Message 0 7 200 a.1 a.2 ])
    [ ("Bank", 40 * SECOND); ("0123456789", 41 * SECOND);
      ("A. User", 42 * SECOND); (amount, 43 * SECOND) ].


(** * The rest of the bot: dashboards, history, leaderboard, the admin panel *)

(** ** Ranks *)

(** The place of a rank on the ladder, from the newcomer up. *)
Definition rank_step (r : rank) : nat :=
  match r with
  | Newbie => 0
  | Explorer => 1
  | Adventurer => 2
  | Pro => 3
  | Master => 4
  end.

(** ** Progress bars *)

(** A bar is a row of cells: ["▰"] and ["▱"] in the review dashboard. *)
Inductive cell := Filled | Hollow.

#[global] Instance cell_eq_dec : EqDecision cell.
Proof. solve_decision. Defined.

(** [progress_bar(current, total, length=10)].  A string repeated a negative
    number of times is empty.  [int(length * current / max(1, total))]
    truncates the float quotient of two integers; with [length * current]
    below 2^52 that is their integer quotient truncated towards zero, and
    the counts of a table are far below. *)
Definition progress_bar (current total length : Z) : list cell :=
  if bool_decide (total = 0) then replicate (Z.to_nat length) Hollow
  else
    let filled := (length * current) `quot` Z.max 1 total in
    replicate (Z.to_nat filled) Filled ++ replicate (Z.to_nat (length - filled)) Hollow.

(** ** Orders *)

(** Each number is at least those after it. *)
Fixpoint descending (l : list Z) : Prop :=
  match l with
  | [] => True
  | x :: l' => Forall (λ y, y ≤ x) l' ∧ descending l'
  end.

(** ** Python's [sorted(..., reverse=True)] *)

(** The sort is stable: rows with equal keys keep their order. *)
Fixpoint insert_desc {A} (key : A → Z) (x : A) (l : list A) : list A :=
  match l with
  | [] => [x]
  | y :: l' => if key y <=? key x then x :: l else y :: insert_desc key x l'
  end.

Definition sorted_desc {A} (key : A → Z) (l : list A) : list A :=
  foldr (insert_desc key) [] l.

(** ** The review dashboard *)

Inductive medal := Gold | Silver | Bronze.

Definition MEDALS : list medal := [Gold; Silver; Bronze].

(** [COUNT(s.id)] of the join with the pending submissions of a task. *)
Definition pending_count (tid : Z) (d : db) : Z :=
  Z.of_nat (length (filter (λ s, s_task_id s = tid ∧ s_status s = pending) (submissions d))).

(** [SELECT COUNT( * ) AS cnt FROM submissions WHERE task_id=$1] *)
Definition total_count (tid : Z) (d : db) : Z :=
  Z.of_nat (length (filter (λ s, s_task_id s = tid) (submissions d))).

(** [SELECT t.title, t.id, COUNT(s.id) AS pending_count FROM tasks t
     LEFT JOIN submissions s ON s.task_id = t.id AND s.status='pending'
     GROUP BY t.id HAVING COUNT(s.id) > 0]: one row for each task with a
    pending submission, here in the order of the table. *)
Definition review_queue_q (d : db) : list (string * Z * Z) :=
  (λ t, (t_title t, t_id t, pending_count (t_id t) d))
    <$> filter (λ t, 0 < pending_count (t_id t) d) (tasks d).

Record review_line := ReviewLine {
  rl_emoji : option medal;
  rl_title : string;
  rl_task_id : Z;
  rl_pending : Z;
  rl_total : Z;
  rl_bar : list cell
}.

(** The loop [for i, r in enumerate(sorted_rows)] of [build_review_embed];
    [None] as emoji is the small diamond of the lines after the third. *)
Fixpoint review_lines (i : nat) (rows : list (string * Z * Z)) : handler (list review_line) :=
  match rows with
  | [] => ret []
  | (title, tid, pending_n) :: rows' =>
      let! total := query (total_count tid) in
      let bar := progress_bar pending_n total 10 in
      let! lines := review_lines (S i) rows' in
      ret (ReviewLine (MEDALS !! i) title tid pending_n total bar :: lines)
  end.

(** [build_review_embed]: [None] is the embed that says all is clear. *)
Definition build_review_embed : handler (option (list review_line)) :=
  let! rows := query review_queue_q in
  match rows with
  | [] => ret None
  | _ =>
      let! lines := review_lines 0 (sorted_desc (λ r, r.2) rows) in
      ret (Some lines)
  end.

(** ** The leaderboard *)

(** The badge of a line: a medal for the first three, the number after. *)
Inductive badge := Medal (m : medal) | Numbered (i : nat).

(** [medals[i - 1] if i <= len(medals) else f"#{i}"], for [i] from 1. *)
Definition badge_of (i : nat) : badge :=
  if (i <=? length MEDALS)%nat
  then match MEDALS !! (i - 1)%nat with
       | Some m => Medal m
       | None => Numbered i
       end
  else Numbered i.

Record leaderboard_embed := LeaderboardEmbed {
  lb_lines : list (badge * Z * Z);
  lb_rank : option (nat * Z)
}.

(** [SELECT user_id, points FROM users ORDER BY points DESC]: the rows of
    the table, the more points first; the order among equal points is the
    store's choice, so the result is any list that meets this. *)
Definition by_points_desc (d : db) (rows : list (Z * Z)) : Prop :=
  rows ≡ₚ map_to_list (users d) ∧ descending rows.*2.

(** [... ORDER BY points DESC LIMIT $1]; a negative limit is refused. *)
Definition by_points_desc_limit (d : db) (limit : Z) (rows : list (Z * Z)) : Prop :=
  0 ≤ limit ∧ ∃ all, by_points_desc d all ∧ rows = take (Z.to_nat limit) all.

(** [leaderboard], from the results of its two queries: [rows] for the lines,
    [user_rows] for the caller's rank.  [None] is the answer that there are
    no users yet.  The rank is [i + 1] for the first row of the caller, the
    points those of that row. *)
Definition leaderboard (rows user_rows : list (Z * Z)) (author : Z)
    : option leaderboard_embed :=
  match rows with
  | [] => None
  | _ =>
      Some (LeaderboardEmbed
              (imap (λ i r, (badge_of (S i), r.1, r.2)) rows)
              ((λ f, (S f.1, f.2.2)) <$> list_find (λ rr, rr.1 = author) user_rows))
  end.

(** A table of three users, two of them level. *)
Definition three_users : db :=
  Db (list_to_map [(1, 500); (2, 300); (3, 500)]) [] 1 [] 1 [] 1 ∅.

(** ** The quest history of a profile *)

(** [TaskHistoryView]: the member, the count taken when the profile was
    shown, the page, and the two page buttons as last drawn. *)
Record history_view := HistoryView {
  hv_member : Z;
  hv_total_submissions : Z;
  hv_page : Z;
  hv_previous_disabled : bool;
  hv_next_disabled : bool
}.

Definition submissions_per_page : Z := 10.

(** [(total_submissions + submissions_per_page - 1) // submissions_per_page] *)
Definition total_pages (total_submissions : Z) : Z :=
  (total_submissions + submissions_per_page - 1) `div` submissions_per_page.

(** [TaskHistoryView.__init__], with [page=0] as [next_cb] calls it. *)
Definition history_view_init (member total_submissions page : Z) : history_view :=
  HistoryView member total_submissions page
    (bool_decide (page ≤ 0))
    (bool_decide (total_pages total_submissions - 1 ≤ page)).

(** The page buttons are part of the view only when there is more than one
    page. *)
Definition has_page_buttons (hv : history_view) : bool :=
  bool_decide (1 < total_pages (hv_total_submissions hv)).

(** [update_view]: the buttons are drawn again for the page. *)
Definition update_view (hv : history_view) : history_view :=
  HistoryView (hv_member hv) (hv_total_submissions hv) (hv_page hv)
    (bool_decide (hv_page hv ≤ 0))
    (bool_decide (total_pages (hv_total_submissions hv) - 1 ≤ hv_page hv)).

Definition with_page (page : Z) (hv : history_view) : history_view :=
  HistoryView (hv_member hv) (hv_total_submissions hv) page
    (hv_previous_disabled hv) (hv_next_disabled hv).

(** [on_previous_page_click] and [on_next_page_click] *)
Definition on_previous_page_click (hv : history_view) : history_view :=
  update_view (with_page (hv_page hv - 1) hv).

Definition on_next_page_click (hv : history_view) : history_view :=
  update_view (with_page (hv_page hv + 1) hv).

Inductive page_click := PreviousPage | NextPage.

(** A click reaches its callback only from a button that is in the view and
    enabled. *)
Definition history_click (hv : history_view) (c : page_click) : history_view :=
  if has_page_buttons hv then
    match c with
    | PreviousPage => if hv_previous_disabled hv then hv else on_previous_page_click hv
    | NextPage => if hv_next_disabled hv then hv else on_next_page_click hv
    end
  else hv.

Record history_row := HistoryRow {
  h_status : status;
  h_title : string;
  h_points : Z;
  h_reviewed_at : option Z
}.

(** The reviewed submissions of a member joined with their tasks, the latest
    first: the query of [build_history_embed] before LIMIT and OFFSET. *)
Definition history_of (member : Z) (d : db) : list history_row :=
  (λ st, HistoryRow (s_status st.1) (t_title st.2) (t_points st.2) (s_reviewed_at st.1))
    <$> sorted_desc (λ st, s_id st.1)
          (omap (λ s, pair s <$> task_by_id (s_task_id s) d)
                (filter (λ s, s_user_id s = member ∧ s_status s ∈ [approved; rejected])
                        (submissions d))).

(** [... ORDER BY s.id DESC LIMIT $2 OFFSET $3]; a negative limit or offset
    is refused. *)
Definition history_q (member limit offset : Z) (d : db) : option (list history_row) :=
  if (limit <? 0) || (offset <? 0) then None
  else Some (take (Z.to_nat limit) (drop (Z.to_nat offset) (history_of member d))).

Record history_embed := HistoryEmbed {
  he_lines : list history_row;
  he_page : Z;
  he_total_pages : Z
}.

(** [build_history_embed]; with no line the description says that there is
    no approved or rejected task yet.  The footer is
    [Page {page + 1}/{total_pages}]. *)
Definition build_history_embed (hv : history_view) : handler history_embed :=
  let offset := hv_page hv * submissions_per_page in
  let! rows :=
    statement (λ d, (λ r, (r, d)) <$> history_q (hv_member hv) submissions_per_page offset d) in
  ret (HistoryEmbed rows (hv_page hv + 1) (total_pages (hv_total_submissions hv))).

(** ** The profile, with its last lines as they are written *)

Definition raise {A} : handler A := λ k w, (Raised, k, w).

(** In [profile_cmd] the two lines that give the withdraw button its
    callback and add it to the view stand after the [if], not in it.  On
    another member's profile [withdraw_button] was never bound, so the command
    dies there, before [ctx.send]: the row of the member was made, nothing is
    shown. *)
Definition profile_cmd_as_written (author member : Z) : handler unit :=
  ensure_user member ;;;
  let! pts := get_user_points member in
  let! total := query (count_of member [pending; approved; rejected]) in
  let! approved_n := query (count_of member [approved]) in
  let! rejected_n := query (count_of member [rejected]) in
  let! _ := query (count_of member [approved; rejected]) in
  if bool_decide (author = member) then
    send (ProfileEmbed pts (get_rank pts) total approved_n rejected_n) ;;;
    post_view (Profile member true) ;;;
    ret tt
  else raise.

(** ** The admin panel *)

(** What an interaction of the panel is answered with. *)
Inductive panel_response :=
| QuestAdded
| InvalidQuestInput
| PanelError
| QuestUpdated (task_id : Z)
| TaskNotFound
| EditForm (t : task).

(** [INSERT INTO tasks (title, points, max_submissions, type, task_link)
    VALUES (...) RETURNING id] *)
Definition insert_task_modal_q (title : string) (points max_subs : Z) (ttype link : string)
    (d : db) : db :=
  Db (users d)
     (tasks d ++ [Task (tasks_seq d) title points max_subs 0 None 0 ttype (Some link) None])
     (tasks_seq d + 1) (submissions d) (submissions_seq d)
     (withdrawals d) (withdrawals_seq d) (banned_users d).

(** [UPDATE tasks SET title=$1, points=$2, max_submissions=$3, type=$4,
    task_link=$5 WHERE id=$6] *)
Definition edit_row (title : string) (points max_subs : Z) (ttype link : string) (tid : Z)
    (t : task) : task :=
  if decide (t_id t = tid)
  then Task (t_id t) title points max_subs (t_archived t) (t_role_reward_id t)
            (t_daily_flag t) ttype (Some link) (t_announcement_message_id t)
  else t.

Definition edit_q (title : string) (points max_subs : Z) (ttype link : string) (tid : Z)
    : db → db :=
  set_tasks (fmap (edit_row title points max_subs ttype link tid)).

(** [ManageTaskView.edit_task_button]: the form with the task's values, or
    the answer that the task is not there. *)
Definition edit_task_button (task_id : Z) : handler panel_response :=
  let! task := query (task_by_id task_id) in
  match task with
  | Some t => ret (EditForm t)
  | None => ret TaskNotFound
  end.

Section Panel.

(** Python's [int(str)], [str.strip()] and [str.lower()], taken as they are. *)
Variable py_int : string → option Z.
Variable py_strip : string → string.
Variable py_lower : string → string.

(** The three fields both forms read, in the order they are read; a
    [ValueError] at any of them is answered the same way. *)
Definition quest_fields (points_input max_subs_input type_input : string)
    : option (Z * Z * string) :=
  match py_int points_input with
  | None => None
  | Some points =>
      match py_int max_subs_input with
      | None => None
      | Some max_subs =>
          let ttype := py_lower type_input in
          if bool_decide (ttype ∈ ["link"; "like"; "rt"]%string)
          then Some (points, max_subs, ttype)
          else None
      end
  end.

(** [AddTaskModal.on_submit].  The whole body is under one [try]: when the
    store refuses the INSERT the form answers with the error; when something
    fails after the answer was sent, it is only printed.  The announcement
    channel is there, as for [addtask]. *)
Definition add_task_modal (title points_input max_subs_input type_input link_input : string)
    : handler panel_response :=
  match quest_fields points_input max_subs_input type_input with
  | None => ret InvalidQuestInput
  | Some (points, max_subs, ttype) =>
      let! r := attempt (statement (λ d, Some (tasks_seq d,
                           insert_task_modal_q title points max_subs ttype link_input d))) in
      match r with
      | None => ret PanelError
      | Some tid =>
          attempt (send (Announcement title points) ;;;
                   let! posted := sent_message_id in
                   execute (set_announcement_q posted tid)) ;;;
          ret QuestAdded
      end
  end.

(** [EditTaskModal.on_submit] *)
Definition edit_task_modal (task_id : Z)
    (title points_input max_subs_input type_input link_input : string)
    : handler panel_response :=
  match quest_fields points_input max_subs_input type_input with
  | None => ret InvalidQuestInput
  | Some (points, max_subs, ttype) =>
      let! r := attempt (execute (edit_q title points max_subs ttype link_input task_id)) in
      match r with
      | None => ret PanelError
      | Some _ => ret (QuestUpdated task_id)
      end
  end.

(** ** The bot with its panel *)

Inductive panel_event :=
| Bot (e : event)
| AddTaskForm (title points_input max_subs_input type_input link_input : string)
| EditTaskForm (task_id : Z)
    (title points_input max_subs_input type_input link_input : string).

Definition panel_step (w : world) (e : panel_event) : world :=
  match e with
  | Bot e => step py_int py_strip w e
  | AddTaskForm title points_input max_subs_input type_input link_input =>
      after (add_task_modal title points_input max_subs_input type_input link_input) None w
  | EditTaskForm task_id title points_input max_subs_input type_input link_input =>
      after (edit_task_modal task_id title points_input max_subs_input type_input link_input)
            None w
  end.

Definition panel_run (trace : list panel_event) (w : world) : world :=
  foldl panel_step w trace.

End Panel.

(** ** The events that move points *)

(** An event that reaches [approve_cb], or the answer that gives the amount
    of a withdrawal. *)
Definition moves_points (w : world) (e : panel_event) : bool :=
  match e with
  | Bot (Approve msg _) =>
      match views w !! msg with
      | Some (Review _ _) => true
      | _ => false
      end
  | Bot (Message i _ _ _ _) =>
      match suspended w !! i with
      | Some (AwaitPoints _ _ _ _ _ _) => true
      | _ => false
      end
  | _ => false
  end.

(** Every user reads the same points in [d'] as in [d]. *)
Definition same_points (d d' : db) : Prop :=
  ∀ u, get_user_points_q u d' = get_user_points_q u d.

(** ** What the store keeps from one state to a later one *)

(** Nothing of what was recorded is taken back: bans, user rows and
    withdrawal requests stay; the sequences do not go back, so an id is used
    once; a task that is still there keeps its archived flag once it is set;
    a submission that is still there is of the same user for the same task
    with the same proof; a withdrawal keeps all but its status, which only
    goes from pending to completed. *)
Record kept (d d' : db) : Prop := Kept {
  kept_banned : banned_users d ⊆ banned_users d';
  kept_users : ∀ u, is_Some (users d !! u) → is_Some (users d' !! u);
  kept_tasks_seq : tasks_seq d ≤ tasks_seq d';
  kept_submissions_seq : submissions_seq d ≤ submissions_seq d';
  kept_withdrawals_seq : withdrawals_seq d ≤ withdrawals_seq d';
  kept_tasks : ∀ t', t' ∈ tasks d' → t_id t' < tasks_seq d →
      ∃ t, t ∈ tasks d ∧ t_id t = t_id t' ∧ (t_archived t = 1 → t_archived t' = 1);
  kept_submissions : ∀ s', s' ∈ submissions d' → s_id s' < submissions_seq d →
      ∃ s, s ∈ submissions d ∧ s_id s = s_id s' ∧ s_user_id s = s_user_id s'
           ∧ s_task_id s = s_task_id s' ∧ s_proof s = s_proof s'
           ∧ s_created_at s = s_created_at s';
  kept_withdrawals : ∀ x, x ∈ withdrawals d →
      ∃ x', x' ∈ withdrawals d' ∧ w_id x' = w_id x ∧ w_user_id x' = w_user_id x
            ∧ w_bank_name x' = w_bank_name x ∧ w_account_number x' = w_account_number x
            ∧ w_account_name x' = w_account_name x ∧ w_points x' = w_points x
            ∧ w_created_at x' = w_created_at x
            ∧ (w_status x = w_completed → w_status x' = w_completed)
}.

(** ** Scenarios of the bot with its panel *)

(** [str.lower()] on ASCII letters. *)
Fixpoint ascii_lower (s : string) : string :=
  match s with
  | EmptyString => EmptyString
  | String a s' =>
      let n := nat_of_ascii a in
      String (if ((65 <=? n) && (n <=? 90))%nat then ascii_of_nat (n + 32) else a)
             (ascii_lower s')
  end.

Definition panel_play : list panel_event → world → world :=
  panel_run ascii_int ascii_strip ascii_lower.

(** A quest with one slot is posted and archived by hand. *)
Definition quest_archived : list event :=
  quest_posted 200 1 ++ [ ArchiveTask 1 ].

(** Later the board is asked for, the quest is given five slots by the edit
    form, and a second quest is added by the form. *)
Definition panel_goes_on : list panel_event :=
  [ Bot (TasksCmd 7 (Some 1));
    EditTaskForm 1 "Follow us" "200" "5" "LINK" "https://example.org/quest";
    AddTaskForm "Like our post" "50" "3" "like" "https://example.org/post" ].

(** User 7 has posted a proof for a quest with five slots; the board has
    not been drawn again yet. *)
Definition proof_posted : list event :=
  clicked_once ++ [ Message 0 7 200 "http://example.org/proof" (20 * SECOND) ].

(** User 7 has a pending submission and is then banned. *)
Definition submitted_then_banned : list event :=
  quest_posted 200 5 ++ proof_sent ++ [ BanUser "7" ].

(** The submission of user 7 is up for review (review message 2). *)
Definition under_review : list event :=
  quest_posted 200 1 ++ proof_sent ++ [ ReviewCmd; Select 1 0 ].

(** User 7 has earned 1200 points, withdrawn 1000 and the request is posted
    (message 4). *)
Definition withdrawal_posted : list event :=
  earned_1200 ++ withdraws "1000".
(** * Theorems *)

(** ** Milestones *)

Lemma next_milestones_reached_elem (old_pts new_pts m : Z) (milestones : list Z) :
  m ∈ next_milestones_reached old_pts new_pts milestones ↔
  m ∈ milestones ∧ old_pts < m ≤ new_pts.
Proof. unfold next_milestones_reached. rewrite list_elem_of_filter. tauto. Qed.

Lemma next_milestones_reached_count (old_pts new_pts m : Z) (milestones : list Z) :
  old_pts < m ≤ new_pts →
  count_occ Z.eq_dec (next_milestones_reached old_pts new_pts milestones) m =
  count_occ Z.eq_dec milestones m.
Proof.
  intros Hm. unfold next_milestones_reached.
  induction milestones as [|x l IH]; [done|].
  rewrite filter_cons. destruct (decide (old_pts < x ≤ new_pts)) as [Hx|Hx].
  - simpl. rewrite IH. done.
  - simpl. destruct (Z.eq_dec x m) as [->|_]; [tauto|done].
Qed.

(** C6. [next_milestones_reached old new milestones] is exactly the configured
    milestones [m] with [old < m <= new]: the same members, in the order of
    the list and as often as the list has them, so a credit that crosses
    several reports all of them; with the configured list, 480 to 1600 gives
    500, 1000, 1500 and 500 to 500 gives nothing. *)
Theorem next_milestones_reached_exact (old_pts new_pts : Z) (milestones : list Z) :
  (∀ m, m ∈ next_milestones_reached old_pts new_pts milestones ↔
        m ∈ milestones ∧ old_pts < m ≤ new_pts)
  ∧ next_milestones_reached old_pts new_pts milestones `sublist_of` milestones
  ∧ (∀ m, old_pts < m ≤ new_pts →
          count_occ Z.eq_dec (next_milestones_reached old_pts new_pts milestones) m =
          count_occ Z.eq_dec milestones m)
  ∧ next_milestones_reached 480 1600 MILESTONES = [500; 1000; 1500]
  ∧ next_milestones_reached 500 500 MILESTONES = [].
Proof.
  split; [intros m; apply next_milestones_reached_elem|].
  split; [apply sublist_filter|].
  split; [intros m; apply next_milestones_reached_count|].
  split; reflexivity.
Qed.

(** ** Points lookup *)

(** C10. For a user id with no row in [users], the lookup returns 0 and
    leaves everything as it was; the rank computed from it is the lowest one
    and the withdrawal button answers with the denial for fewer than 1000
    points, without writing. *)
Theorem get_user_points_no_row (w : world) (user_id channel : Z) :
  users (store w) !! user_id = None →
  get_user_points user_id None w = (Returned 0, None, w)
  ∧ get_rank 0 = Newbie
  ∧ after (withdraw_cb user_id channel) None w =
    World (store w) (last_click w) (views w) (suspended w) (outbox w ++ [NeedThousand]).
Proof.
  intros Hrow.
  assert (Hq : get_user_points user_id None w = (Returned 0, None, w)).
  { unfold get_user_points, query, statement, get_user_points_q. rewrite Hrow.
    destruct w; reflexivity. }
  split; [exact Hq|]. split; [reflexivity|].
  unfold after, withdraw_cb, bind. rewrite Hq. reflexivity.
Qed.

Lemma get_user_points_no_row_witness :
  users (store init) !! 7 = None
  ∧ get_user_points 7 None init = (Returned 0, None, init)
  ∧ get_rank 0 = Newbie
  ∧ after (withdraw_cb 7 200) None init =
    World (store init) (last_click init) (views init) (suspended init)
          (outbox init ++ [NeedThousand]).
Proof.
  split; [reflexivity|]. apply (get_user_points_no_row init 7 200). reflexivity.
Defined.

(** ** Review: what the code does on a submission that was already reviewed *)

(** C1 (the code departs from it). Two review messages are opened on the
    pending submission 1 of user 7, worth 200 points.  The first Approve marks
    it approved and credits 200; the second Approve, on the submission that is
    now approved, is not refused: it stamps [reviewed_at] again and credits
    200 more.  A Reject in its place turns the credited submission to
    rejected. *)
Theorem approve_cb_again_credits_again :
  let w0 := play (quest_posted 200 1 ++ proof_sent ++ opened_twice) init in
  let w1 := step ascii_int ascii_strip w0 (Approve 2 (30 * SECOND)) in
  let w2 := step ascii_int ascii_strip w1 (Approve 3 (31 * SECOND)) in
  let w2' := step ascii_int ascii_strip w1 (Reject 3 (31 * SECOND)) in
  status_of 1 w0 = [pending] ∧ points_of 7 w0 = Some 0
  ∧ status_of 1 w1 = [approved] ∧ points_of 7 w1 = Some 200
  ∧ reviewed_at_of 1 w1 = [Some (30 * SECOND)]
  ∧ status_of 1 w2 = [approved] ∧ points_of 7 w2 = Some 400
  ∧ reviewed_at_of 1 w2 = [Some (31 * SECOND)]
  ∧ status_of 1 w2' = [rejected] ∧ points_of 7 w2' = Some 200.
Proof. vm_compute. repeat split; reflexivity. Qed.

(** C2 (the code departs from it). [approve_cb] sends its two UPDATEs one
    after the other on a plain connection.  When the store raises at the
    second one, the submission stays approved and the points stay as they
    were. *)
Theorem approve_cb_interrupted :
  let w0 := play (quest_posted 200 1 ++ proof_sent ++ opened_twice) init in
  let w1 := step_with ascii_int ascii_strip (Some 1%nat) w0 (Approve 2 (30 * SECOND)) in
  status_of 1 w0 = [pending] ∧ points_of 7 w0 = Some 0
  ∧ status_of 1 w1 = [approved]
  ∧ reviewed_at_of 1 w1 = [Some (30 * SECOND)]
  ∧ points_of 7 w1 = Some 0.
Proof. vm_compute. repeat split; reflexivity. Qed.

(** ** Intake: two clicks of one user on one quest *)

(** ** Running callbacks with a store that does not fail *)

Ltac eval_handler :=
  repeat (unfold bind, ret, query, execute, execute_checked, statement, attempt, send, suspend,
            read_last_click, write_last_click, read_view, post_view, edit_view,
            ensure_user, get_user_points, is_banned, task_title_by_id,
            with_store, after;
          cbn [fst snd store last_click views suspended outbox
               fmap option_fmap option_map]).

Lemma draw_buttons_run rows d lc vs cs out :
  draw_buttons rows None (World d lc vs cs out) =
  (Returned (button_of <$> filter (λ r, ¬ is_full d r) rows), None,
   World (archive_all (t_id <$> filter (is_full d) rows) d) lc vs cs out).
Proof.
  revert d. induction rows as [|r rows IH]; intros d; [reflexivity|].
  cbn [draw_buttons]. rewrite !filter_cons.
  destruct (decide (is_full d r)) as [Hf|Hf].
  - rewrite decide_False by tauto.
    unfold bind at 1. unfold query at 1, statement at 1. cbn [store].
    replace (t_max_submissions r <=? count_done (t_id r) d) with true
      by (symmetry; apply Z.leb_le; exact Hf).
    unfold bind at 1. unfold execute at 1, statement at 1. unfold with_store.
    cbn [store last_click views suspended outbox fmap option_fmap option_map].
    rewrite (IH (archive_q (t_id r) d)). reflexivity.
  - rewrite decide_True by tauto.
    unfold bind at 1. unfold query at 1, statement at 1. unfold with_store.
    cbn [store last_click views suspended outbox fmap option_fmap option_map].
    replace (t_max_submissions r <=? count_done (t_id r) d) with false
      by (symmetry; apply Z.leb_gt; unfold is_full in Hf; lia).
    unfold bind. rewrite IH. reflexivity.
Qed.

Lemma refresh_task_board_run message d lc vs cs out :
  after (refresh_task_board message) None (World d lc vs cs out) =
  match vs !! message with
  | Some (Board _ (Some owner) _) =>
      World (swept d) lc (<[message := Board owner (Some owner) (drawn d)]> vs) cs
            (match drawn d with [] => out ++ [NoActiveQuests] | _ => out end)
  | _ => World d lc vs cs out
  end.
Proof.
  unfold refresh_task_board.
  unfold after, bind at 1. unfold query at 1, statement at 1, with_store.
  cbn [store last_click views suspended outbox fmap option_fmap option_map].
  unfold bind at 1, read_view at 1. cbn [views].
  destruct (vs !! message) as [[a [owner|] bs0| | | | |]|]; try reflexivity.
  unfold bind at 1. rewrite draw_buttons_run. fold (examined d). fold (drawn d) (swept d).
  destruct (drawn d); reflexivity.
Qed.

Lemma tasks_cmd_run author guild_owner d lc vs cs out :
  after (tasks_cmd author guild_owner) None (World d lc vs cs out) =
  match open_tasks_q d with
  | [] => World d lc vs cs (out ++ [NoActiveQuests])
  | _ => World (swept d) lc (vs ++ [Board author guild_owner (drawn d)]) cs out
  end.
Proof.
  unfold tasks_cmd, after, bind at 1. unfold query at 1, statement at 1, with_store.
  cbn [store last_click views suspended outbox fmap option_fmap option_map].
  unfold drawn, swept, examined.
  destruct (open_tasks_q d) as [|r rows] eqn:Hrows; [reflexivity|].
  unfold bind at 1, post_view at 1. cbn [store last_click views suspended outbox].
  unfold bind at 1. rewrite draw_buttons_run. unfold edit_view.
  cbn [snd store last_click views suspended outbox].
  rewrite insert_app_r_alt by done. rewrite Nat.sub_diag. reflexivity.
Qed.

Lemma task_cb_run board_msg ctx_author b user channel now choice w :
  after (task_cb board_msg ctx_author b user channel now choice) None w =
  clicked board_msg ctx_author b user channel now choice w.
Proof.
  destruct w as [d lc vs cs out]. unfold task_cb, clicked.
  destruct (negb (bool_decide (user = ctx_author))); [reflexivity|].
  eval_handler. destruct (is_banned_q user d); [reflexivity|].
  eval_handler. destruct (cooldown_remaining (lc !! (user, b_tid b)) now); [reflexivity|].
  eval_handler. destruct (b_max_subs b <=? count_done (b_tid b) d); [reflexivity|].
  eval_handler. destruct (existing_q user (b_tid b) d); reflexivity.
Qed.

Section Runs.

Variable py_int : string → option Z.
Variable py_strip : string → string.

Abbreviation step' := (step py_int py_strip).
Abbreviation run' := (run py_int py_strip).

Lemma run_cons e t w : run' (e :: t) w = run' t (step' w e).
Proof. reflexivity. Qed.

Lemma run_app t1 t2 w : run' (t1 ++ t2) w = run' t2 (run' t1 w).
Proof. apply foldl_app. Qed.

Lemma run_snoc t e w : run' (t ++ [e]) w = step' (run' t w) e.
Proof. apply run_app. Qed.

Lemma step_click w board_msg btn user channel now choice ctx_author owner buttons b :
  views w !! board_msg = Some (Board ctx_author owner buttons) →
  buttons !! btn = Some b →
  step' w (Click board_msg btn user channel now choice) =
  clicked board_msg ctx_author b user channel now choice w.
Proof.
  intros Hv Hb. unfold step, step_with, dispatch. rewrite Hv, Hb.
  apply task_cb_run.
Qed.

Lemma step_message_parked d lc vs cs out c author channel content now :
  check c author channel content = true →
  step' (World d lc vs (cs ++ [c]) out) (Message (length cs) author channel content now)
  = after (resume py_int py_strip c content now) None (World d lc vs cs out).
Proof.
  intros Hc. unfold step, step_with, dispatch. cbn [suspended].
  rewrite list_lookup_middle by done. rewrite Hc. unfold unpark.
  cbn [store last_click views suspended outbox].
  rewrite delete_middle, app_nil_r. done.
Qed.

Lemma step_message_absent w i author channel content now :
  suspended w !! i = None →
  step' w (Message i author channel content now) = w.
Proof. intros H. unfold step, step_with, dispatch. rewrite H. reflexivity. Qed.

Lemma step_timed_out w i c :
  suspended w !! i = Some c →
  is_Some (wait_timeout c) →
  step' w (TimedOut i) = after (expire c) None (unpark i w).
Proof.
  intros Hc [t Ht]. unfold step, step_with, dispatch. rewrite Hc, Ht. reflexivity.
Qed.

Lemma step_withdraw_click d lc vs cs out msg member user channel :
  vs !! msg = Some (Profile member true) →
  step' (World d lc vs cs out) (WithdrawClick msg user channel) =
    if get_user_points_q user d <? 1000 then World d lc vs cs (out ++ [NeedThousand])
    else World d lc vs (cs ++ [AwaitBankName user channel (get_user_points_q user d)])
               (out ++ [AskBankName]).
Proof.
  intros Hv. unfold step, step_with, dispatch. cbn [views]. rewrite Hv.
  unfold withdraw_cb. eval_handler.
  destruct (get_user_points_q user d <? 1000); reflexivity.
Qed.

Lemma check_same (user channel : Z) :
  bool_decide (user = user) && bool_decide (channel = channel) = true.
Proof. rewrite !bool_decide_eq_true_2; done. Qed.


(** ** A weakest precondition for callbacks, the store not failing *)

Lemma wp_after {A} (m : handler A) (P : world → Prop) w :
  wp m (λ _, P) P w → P (after m None w).
Proof.
  unfold wp, after. destruct (m None w) as [[[a|] [n|]] w']; simpl; tauto.
Qed.

Lemma wp_mono {A} (m : handler A) (Q Q' : A → world → Prop) (E E' : world → Prop) w :
  wp m Q E w → (∀ a w', Q a w' → Q' a w') → (∀ w', E w' → E' w') → wp m Q' E' w.
Proof.
  unfold wp. destruct (m None w) as [[[a|] [n|]] w']; simpl; auto.
Qed.

Lemma wp_ret {A} (a : A) Q E w : Q a w → wp (ret a) Q E w.
Proof. done. Qed.

Lemma wp_bind {A B} (m : handler A) (f : A → handler B) Q E w :
  wp m (λ a w', wp (f a) Q E w') E w → wp (bind m f) Q E w.
Proof.
  unfold wp, bind. destruct (m None w) as [[[a|] [n|]] w']; simpl; tauto.
Qed.

Lemma wp_statement {A} (u : db → option (A * db)) Q E d lc vs cs out :
  match u d with
  | Some (a, d') => Q a (World d' lc vs cs out)
  | None => E (World d lc vs cs out)
  end →
  wp (statement u) Q E (World d lc vs cs out).
Proof. unfold wp, statement. cbn. destruct (u d) as [[a d']|]; done. Qed.

Lemma wp_query {A} (q : db → A) Q E d lc vs cs out :
  Q (q d) (World d lc vs cs out) → wp (query q) Q E (World d lc vs cs out).
Proof. intros H. apply wp_statement. exact H. Qed.

Lemma wp_execute (u : db → db) Q E d lc vs cs out :
  Q tt (World (u d) lc vs cs out) → wp (execute u) Q E (World d lc vs cs out).
Proof. intros H. apply wp_statement. exact H. Qed.

Lemma wp_execute_checked (u : db → option db) Q E d lc vs cs out :
  match u d with
  | Some d' => Q tt (World d' lc vs cs out)
  | None => E (World d lc vs cs out)
  end →
  wp (execute_checked u) Q E (World d lc vs cs out).
Proof. intros H. apply wp_statement. destruct (u d); exact H. Qed.

Lemma wp_attempt {A} (m : handler A) Q E w :
  wp m (λ a, Q (Some a)) (Q None) w → wp (attempt m) Q E w.
Proof.
  unfold wp, attempt. destruct (m None w) as [[[a|] [n|]] w']; simpl; tauto.
Qed.

Lemma wp_send r Q E d lc vs cs out :
  Q tt (World d lc vs cs (out ++ [r])) → wp (send r) Q E (World d lc vs cs out).
Proof. done. Qed.

Lemma wp_suspend c Q E d lc vs cs out :
  Q tt (World d lc vs (cs ++ [c]) out) → wp (suspend c) Q E (World d lc vs cs out).
Proof. done. Qed.

Lemma wp_read_last_click key Q E d lc vs cs out :
  Q (lc !! key) (World d lc vs cs out) → wp (read_last_click key) Q E (World d lc vs cs out).
Proof. done. Qed.

Lemma wp_write_last_click key now Q E d lc vs cs out :
  Q tt (World d (<[key := now]> lc) vs cs out) →
  wp (write_last_click key now) Q E (World d lc vs cs out).
Proof. done. Qed.

Lemma wp_read_view i Q E d lc vs cs out :
  Q (vs !! i) (World d lc vs cs out) → wp (read_view i) Q E (World d lc vs cs out).
Proof. done. Qed.

Lemma wp_post_view v Q E d lc vs cs out :
  Q (length vs) (World d lc (vs ++ [v]) cs out) →
  wp (post_view v) Q E (World d lc vs cs out).
Proof. done. Qed.

Lemma wp_edit_view i v Q E d lc vs cs out :
  Q tt (World d lc (<[i := v]> vs) cs out) → wp (edit_view i v) Q E (World d lc vs cs out).
Proof. done. Qed.

Lemma wp_sent_message_id Q E d lc vs cs out :
  Q (Z.of_nat (length out)) (World d lc vs cs out) →
  wp sent_message_id Q E (World d lc vs cs out).
Proof. done. Qed.

Lemma wp_draw_buttons rows Q E d lc vs cs out :
  Q (button_of <$> filter (λ r, ¬ is_full d r) rows)
    (World (archive_all (t_id <$> filter (is_full d) rows) d) lc vs cs out) →
  wp (draw_buttons rows) Q E (World d lc vs cs out).
Proof. unfold wp. rewrite draw_buttons_run. done. Qed.

Ltac head_of t :=
  lazymatch t with
  | ?f _ => head_of f
  | _ => t
  end.

(** One step through a callback: a rule for the construct at hand, a case
    split at a branch, or the unfolding of a callback's name. *)
Ltac wp_step :=
  lazymatch goal with
  | |- wp (bind _ _) _ _ _ => apply wp_bind
  | |- wp (ret _) _ _ _ => apply wp_ret
  | |- wp (query _) _ _ _ => apply wp_query
  | |- wp (execute _) _ _ _ => apply wp_execute
  | |- wp (execute_checked _) _ _ _ => apply wp_execute_checked
  | |- wp (statement _) _ _ _ => apply wp_statement
  | |- wp (attempt _) _ _ _ => apply wp_attempt
  | |- wp (send _) _ _ _ => apply wp_send
  | |- wp (suspend _) _ _ _ => apply wp_suspend
  | |- wp (read_last_click _) _ _ _ => apply wp_read_last_click
  | |- wp (write_last_click _ _) _ _ _ => apply wp_write_last_click
  | |- wp (read_view _) _ _ _ => apply wp_read_view
  | |- wp (post_view _) _ _ _ => apply wp_post_view
  | |- wp (edit_view _ _) _ _ _ => apply wp_edit_view
  | |- wp sent_message_id _ _ _ => apply wp_sent_message_id
  | |- wp (draw_buttons _) _ _ _ => apply wp_draw_buttons
  | |- wp (if ?b then _ else _) _ _ _ => destruct b eqn:?
  | |- wp (match ?x with _ => _ end) _ _ _ => destruct x eqn:?
  | |- wp (let _ := _ in _) _ _ _ => cbv zeta
  | |- match ?x with _ => _ end => destruct x eqn:?
  | |- wp ?m _ _ _ => let h := head_of m in unfold h
  end.

Ltac wp_run := repeat wp_step.

(** ** Withdrawal: validation *)

Lemma withdraw_cb_commit_aborts user cp bank number name content now fault w :
  bad_amount py_int cp content →
  ∃ r, after (withdraw_cb_commit py_int user cp bank number name content now) fault w
       = World (store w) (last_click w) (views w) (suspended w) (outbox w ++ [r])
     ∧ r ∈ [InvalidNumber; MinimumWithdrawal; OnlyHave cp].
Proof.
  unfold bad_amount, withdraw_cb_commit. intros Hbad.
  destruct (py_int content) as [p|].
  - destruct (Z.leb_spec p 0) as [?|?]; [eexists; split; [reflexivity|repeat constructor]|].
    destruct (Z.ltb_spec p 1000) as [?|?]; [eexists; split; [reflexivity|repeat constructor]|].
    destruct (Z.ltb_spec cp p) as [?|?]; [eexists; split; [reflexivity|repeat constructor]|].
    lia.
  - eexists; split; [reflexivity|repeat constructor].
Qed.

Lemma answers_reach_commit d lc vs cs out user channel cp bank number name content t1 t2 t3 t4 :
  run'
    [ Message (length cs) user channel bank t1; Message (length cs) user channel number t2;
      Message (length cs) user channel name t3; Message (length cs) user channel content t4 ]
    (World d lc vs (cs ++ [AwaitBankName user channel cp]) out)
  = after (withdraw_cb_commit py_int user cp bank number name content t4) None
      (World d lc vs cs (((out ++ [AskAccountNumber]) ++ [AskAccountName]) ++ [AskPoints])).
Proof.
  do 3 (rewrite run_cons, step_message_parked by apply check_same;
        cbn [resume]; eval_handler).
  rewrite run_cons, step_message_parked by apply check_same. reflexivity.
Qed.


(** ** Waits and their timeouts *)

Lemma step_timed_out_absent w i :
  suspended w !! i = None → step' w (TimedOut i) = w.
Proof. intros H. unfold step, step_with, dispatch. rewrite H. reflexivity. Qed.

Lemma step_withdraw_click_other w msg user channel :
  (∀ member, views w !! msg ≠ Some (Profile member true)) →
  step' w (WithdrawClick msg user channel) = w.
Proof.
  intros H. unfold step, step_with, dispatch.
  destruct (views w !! msg) as [[| | |member [|]| |]|] eqn:E; try reflexivity.
  destruct (H member). reflexivity.
Qed.

Lemma user_wait_bounded c : user_wait c = true → is_Some (wait_timeout c).
Proof. destruct c; intros H; try discriminate; eexists; reflexivity. Qed.

Lemma timed_out_writes_nothing w i c :
  suspended w !! i = Some c →
  user_wait c = true →
  ∃ r, step' w (TimedOut i) =
       World (store w) (last_click w) (views w) (delete i (suspended w)) (outbox w ++ [r])
     ∧ r ∈ [TimesUp; WithdrawTimedOut].
Proof.
  intros Hc Hu. rewrite (step_timed_out w i c Hc) by (apply user_wait_bounded, Hu).
  destruct c; try discriminate; (eexists; split; [reflexivity|repeat constructor]).
Qed.

Lemma clicked_parks board_msg ctx_author b user channel now choice w :
  let w1 := clicked board_msg ctx_author b user channel now choice w in
  suspended w1 = suspended w
  ∨ (store w1 = store w ∧ views w1 = views w
     ∧ suspended w1 =
       suspended w ++ [AwaitProof user channel board_msg b (count_done (b_tid b) (store w))]).
Proof.
  destruct w as [d lc vs cs out]. unfold clicked.
  destruct (negb (bool_decide (user = ctx_author))); [left; reflexivity|].
  destruct (is_banned_q user d); [left; reflexivity|].
  destruct (cooldown_remaining (lc !! (user, b_tid b)) now); [left; reflexivity|].
  cbv zeta. destruct (b_max_subs b <=? count_done (b_tid b) d).
  - left. rewrite refresh_task_board_run.
    destruct (vs !! board_msg) as [[a [owner|] bs0| | | | |]|]; reflexivity.
  - destruct (existing_q user (b_tid b) d); [left; reflexivity|]. right. done.
Qed.

Lemma messages_absent w n user channel (answers : list (string * Z)) :
  suspended w !! n = None →
  run' ((λ a, Message n user channel a.1 a.2) <$> answers) w = w.
Proof.
  intros H. induction answers as [|a answers IH]; [reflexivity|].
  rewrite fmap_cons, run_cons, step_message_absent by exact H. exact IH.
Qed.

Lemma abandoned_absent w msg n user channel answers :
  suspended w !! n = None →
  step' w (WithdrawClick msg user channel) = w
  ∨ (∃ r, step' w (WithdrawClick msg user channel) =
          World (store w) (last_click w) (views w) (suspended w) (outbox w ++ [r])) →
  let w' := run' (abandoned msg n user channel answers) w in
  store w' = store w ∧ suspended w' = suspended w ∧ views w' = views w
  ∧ last_click w' = last_click w.
Proof.
  intros Hn Hclick w'. subst w'. unfold abandoned. rewrite run_cons, run_app.
  destruct Hclick as [->|[r ->]].
  - rewrite messages_absent by exact Hn.
    rewrite run_cons, step_timed_out_absent by exact Hn. done.
  - rewrite messages_absent by exact Hn.
    rewrite run_cons, step_timed_out_absent by exact Hn. done.
Qed.

Lemma abandoned_writes_nothing w msg user channel answers :
  (length answers ≤ 3)%nat →
  let w' := run' (abandoned msg (length (suspended w)) user channel answers) w in
  store w' = store w ∧ suspended w' = suspended w ∧ views w' = views w
  ∧ last_click w' = last_click w.
Proof.
  intros Hlen.
  assert (Hn : suspended w !! length (suspended w) = None)
    by (apply lookup_ge_None_2; lia).
  destruct (views w !! msg) as [v|] eqn:Hv.
  2:{ apply abandoned_absent; [exact Hn|]. left.
      apply step_withdraw_click_other. intros m. rewrite Hv. done. }
  assert (Hcase : (∃ member, v = Profile member true) ∨ ∀ member, v ≠ Profile member true).
  { destruct v as [| | |member [|]| |]; try (right; intros m; discriminate).
    left. eexists; reflexivity. }
  destruct Hcase as [[member ->]|Hnot].
  2:{ apply abandoned_absent; [exact Hn|]. left.
      apply step_withdraw_click_other. intros m. rewrite Hv. intros [= ->].
      destruct (Hnot m). reflexivity. }
  destruct w as [d lc vs cs out]. cbn [views store suspended last_click] in *.
  destruct (get_user_points_q user d <? 1000) eqn:Hlow.
  { apply (abandoned_absent (World d lc vs cs out)); [exact Hn|]. right.
    rewrite (step_withdraw_click _ _ _ _ _ _ _ _ _ Hv), Hlow. eexists; reflexivity. }
  cbv zeta. unfold abandoned.
  rewrite run_cons, (step_withdraw_click _ _ _ _ _ _ _ _ _ Hv), Hlow.
  destruct answers as [|a1 [|a2 [|a3 [|a4 answers]]]]; cbn [fmap list_fmap app].
  - rewrite run_cons.
    erewrite step_timed_out; [|apply list_lookup_middle; reflexivity|eexists; reflexivity].
    unfold unpark. cbn [suspended]. rewrite delete_middle, app_nil_r. done.
  - rewrite run_cons, step_message_parked by apply check_same. cbn [resume]. eval_handler.
    rewrite run_cons.
    erewrite step_timed_out; [|apply list_lookup_middle; reflexivity|eexists; reflexivity].
    unfold unpark. cbn [suspended]. rewrite delete_middle, app_nil_r. done.
  - do 2 (rewrite run_cons, step_message_parked by apply check_same;
          cbn [resume]; eval_handler).
    rewrite run_cons.
    erewrite step_timed_out; [|apply list_lookup_middle; reflexivity|eexists; reflexivity].
    unfold unpark. cbn [suspended]. rewrite delete_middle, app_nil_r. done.
  - do 3 (rewrite run_cons, step_message_parked by apply check_same;
          cbn [resume]; eval_handler).
    rewrite run_cons.
    erewrite step_timed_out; [|apply list_lookup_middle; reflexivity|eexists; reflexivity].
    unfold unpark. cbn [suspended]. rewrite delete_middle, app_nil_r. done.
  - cbn [length] in Hlen. lia.
Qed.

Lemma click_then_timeout w board_msg btn user channel now choice :
  let w1 := step' w (Click board_msg btn user channel now choice) in
  let w2 := step' w1 (TimedOut (length (suspended w))) in
  suspended w1 ≠ suspended w →
  store w1 = store w ∧ store w2 = store w ∧ suspended w2 = suspended w
  ∧ views w2 = views w ∧ outbox w2 = outbox w1 ++ [TimesUp].
Proof.
  intros w1 w2 Hpark.
  assert (∃ ctx_author b, w1 = clicked board_msg ctx_author b user channel now choice w)
    as (ctx_author & b & Hw1).
  { subst w1 w2. unfold step, step_with, dispatch in *.
    destruct (views w !! board_msg) as [[a o bs| | | | |]|]; try (destruct Hpark; reflexivity).
    destruct (bs !! btn) as [b|]; [|destruct Hpark; reflexivity].
    exists a, b. apply task_cb_run. }
  destruct (clicked_parks board_msg ctx_author b user channel now choice w)
    as [Hsame|(Hst & Hvs & Hcs)]; rewrite <- Hw1 in *; [contradiction|].
  subst w2. destruct w1 as [d1 lc1 vs1 cs1 out1]. cbn [store views suspended] in *.
  erewrite step_timed_out;
    [|cbn [suspended]; rewrite Hcs; apply list_lookup_middle; reflexivity
     |eexists; reflexivity].
  unfold unpark. cbn [expire suspended]. eval_handler. rewrite Hcs.
  rewrite delete_middle, app_nil_r. done.
Qed.

(** C8. The wait for the proof has a timeout of 180 seconds and each wait of
    the withdrawal one of 60.  When one of these waits times out, wherever the
    process stands, the coroutine leaves the waiting list and only a notice
    is sent: the store, the click records and the posted messages stay.  And
    the part of each callback that runs before such a wait has written
    nothing to the store either: a click that reaches the wait and then times
    out, and a withdrawal abandoned after none to three answers, leave the
    store as it was at the start (no submission row, no debit, no withdrawal
    row, no status changed). *)
Theorem waits_time_out_without_writes :
  (∀ user channel board_msg b done_count,
     wait_timeout (AwaitProof user channel board_msg b done_count) = Some 180)
  ∧ (∀ user channel cp bank number name,
       wait_timeout (AwaitBankName user channel cp) = Some 60
       ∧ wait_timeout (AwaitAccountNumber user channel cp bank) = Some 60
       ∧ wait_timeout (AwaitAccountName user channel cp bank number) = Some 60
       ∧ wait_timeout (AwaitPoints user channel cp bank number name) = Some 60)
  ∧ (∀ w i c,
       suspended w !! i = Some c → user_wait c = true →
       ∃ r, step' w (TimedOut i) =
            World (store w) (last_click w) (views w) (delete i (suspended w))
                  (outbox w ++ [r])
          ∧ r ∈ [TimesUp; WithdrawTimedOut])
  ∧ (∀ w board_msg btn user channel now choice,
       let w1 := step' w (Click board_msg btn user channel now choice) in
       let w2 := step' w1 (TimedOut (length (suspended w))) in
       suspended w1 ≠ suspended w →
       store w1 = store w ∧ store w2 = store w ∧ suspended w2 = suspended w
       ∧ views w2 = views w ∧ outbox w2 = outbox w1 ++ [TimesUp])
  ∧ (∀ w msg user channel answers,
       (length answers ≤ 3)%nat →
       let w' := run' (abandoned msg (length (suspended w)) user channel answers) w in
       store w' = store w ∧ suspended w' = suspended w ∧ views w' = views w
       ∧ last_click w' = last_click w).
Proof.
  split; [reflexivity|]. split; [intros; repeat split|].
  split; [apply timed_out_writes_nothing|].
  split; [apply click_then_timeout|apply abandoned_writes_nothing].
Qed.

(** ** The cooldown gate *)

Lemma unpark_last_click i w : last_click (unpark i w) = last_click w.
Proof. reflexivity. Qed.

Lemma step_keeps_last_click w e :
  (∀ board_msg btn user channel now choice,
     e ≠ Click board_msg btn user channel now choice) →
  last_click (step' w e) = last_click w.
Proof.
  intros Hne. unfold step, step_with.
  destruct (dispatch py_int py_strip e w) as [m w0] eqn:Hd.
  assert (Hw0 : last_click w0 = last_click w ∧
                wp m (λ _ w', last_click w' = last_click w0)
                     (λ w', last_click w' = last_click w0) w0).
  { destruct w as [d lc vs cs out].
    destruct e; cbn [dispatch] in Hd;
      repeat match type of Hd with
             | context [match ?x with _ => _ end] => destruct x eqn:?
             end;
      injection Hd as Hm Hw; subst m w0; (split; [reflexivity|]);
      try (edestruct Hne; reflexivity);
      unfold unpark; cbn [store last_click views suspended outbox];
      wp_run; reflexivity. }
  destruct Hw0 as [<- Hwp]. apply (wp_after m (λ w', last_click w' = last_click w0)), Hwp.
Qed.

Lemma clicked_last_click board_msg ctx_author b user channel now choice w :
  last_click (clicked board_msg ctx_author b user channel now choice w) =
  if bool_decide (user = ctx_author) && negb (is_banned_q user (store w))
  then
    match cooldown_remaining (last_click w !! (user, b_tid b)) now with
    | None => <[(user, b_tid b) := now]> (last_click w)
    | Some _ => last_click w
    end
  else last_click w.
Proof.
  destruct w as [d lc vs cs out]. unfold clicked. cbn [store last_click].
  destruct (bool_decide (user = ctx_author)); [|reflexivity]. cbn [negb andb].
  destruct (is_banned_q user d); [reflexivity|]. cbn [negb].
  destruct (cooldown_remaining (lc !! (user, b_tid b)) now); [reflexivity|].
  cbv zeta. destruct (b_max_subs b <=? count_done (b_tid b) d).
  - rewrite refresh_task_board_run.
    destruct (vs !! board_msg) as [[a [owner|] bs0| | | | |]|]; reflexivity.
  - destruct (existing_q user (b_tid b) d); reflexivity.
Qed.

Lemma step_last_click w e :
  last_click (step' w e) =
  match passes_gate w e with
  | Some (key, now) => <[key := now]> (last_click w)
  | None => last_click w
  end.
Proof.
  destruct e; try (rewrite step_keeps_last_click by (intros; discriminate); reflexivity).
  cbn [passes_gate].
  destruct (views w !! board_msg) as [v|] eqn:Hv.
  2:{ unfold step, step_with, dispatch. rewrite Hv. reflexivity. }
  destruct v as [ctx_author owner buttons| | | | |];
    try (unfold step, step_with, dispatch; rewrite Hv; reflexivity).
  destruct (buttons !! btn) as [b|] eqn:Hb.
  2:{ unfold step, step_with, dispatch. rewrite Hv, Hb. reflexivity. }
  rewrite (step_click _ _ _ _ _ _ _ _ _ _ _ Hv Hb), clicked_last_click.
  destruct (bool_decide (user = ctx_author) && negb (is_banned_q user (store w)));
    [|reflexivity].
  destruct (cooldown_remaining _ now); reflexivity.
Qed.

Lemma passes_gate_window w e key now :
  passes_gate w e = Some (key, now) →
  match last_click w !! key with
  | Some l => l + BUTTON_COOLDOWN * SECOND ≤ now
  | None => True
  end.
Proof.
  destruct e; try discriminate. cbn [passes_gate].
  destruct (views w !! board_msg) as [[ctx_author owner buttons| | | | |]|]; try discriminate.
  destruct (buttons !! btn) as [b|]; try discriminate.
  destruct (bool_decide _ && negb _); try discriminate.
  unfold cooldown_remaining.
  destruct (last_click w !! (user, b_tid b)) as [l|] eqn:Hl.
  - destruct (Z.ltb_spec (now0 - l) (BUTTON_COOLDOWN * SECOND)); [discriminate|].
    intros [= <- <-]. rewrite Hl. lia.
  - intros [= <- <-]. rewrite Hl. done.
Qed.

Lemma gate_log_spaced trace w key :
  spaced (last_click w !! key) (times_of key (gate_log py_int py_strip trace w)).
Proof.
  revert w. induction trace as [|e trace IH]; intros w; [done|].
  cbn [gate_log]. specialize (IH (step' w e)). rewrite step_last_click in IH.
  destruct (passes_gate w e) as [[key' now]|] eqn:Hg; [|exact IH].
  unfold times_of in *. cbn [app]. rewrite filter_cons. cbn [fst].
  destruct (decide (key' = key)) as [->|Hne].
  - cbn [fmap list_fmap snd spaced]. rewrite lookup_insert_eq in IH.
    split; [|exact IH]. apply (passes_gate_window w e key now Hg).
  - rewrite lookup_insert_ne in IH by done. exact IH.
Qed.

Lemma spaced_ordered last times i j t1 t2 :
  spaced last times → (i < j)%nat →
  times !! i = Some t1 → times !! j = Some t2 →
  t1 + BUTTON_COOLDOWN * SECOND ≤ t2.
Proof.
  assert (Hfirst : ∀ times l j t, spaced (Some l) times → times !! j = Some t →
                                  l + BUTTON_COOLDOWN * SECOND ≤ t).
  { clear. induction times as [|x times IH]; intros l j t Hs Hj; [done|].
    destruct Hs as [Hx Hs]. destruct j as [|j]; [injection Hj as ->; exact Hx|].
    specialize (IH x j t Hs Hj). unfold BUTTON_COOLDOWN, SECOND in *. lia. }
  revert last i j. induction times as [|x times IH]; intros last i j Hs Hij Hi Hj; [done|].
  destruct Hs as [_ Hs]. destruct j as [|j]; [lia|]. destruct i as [|i].
  - injection Hi as ->. exact (Hfirst times t1 j t2 Hs Hj).
  - apply (IH (Some x) i j Hs); [lia|exact Hi|exact Hj].
Qed.

Lemma click_in_window_denied w board_msg btn user channel now choice owner buttons b last :
  views w !! board_msg = Some (Board user owner buttons) →
  buttons !! btn = Some b →
  is_banned_q user (store w) = false →
  last_click w !! (user, b_tid b) = Some last →
  now - last < BUTTON_COOLDOWN * SECOND →
  step' w (Click board_msg btn user channel now choice) =
  World (store w) (last_click w) (views w) (suspended w)
        (outbox w ++ [Cooldown (pick_message choice) user (b_title b)
                        ((BUTTON_COOLDOWN * SECOND - (now - last)) `quot` SECOND)]).
Proof.
  intros Hv Hb Hban Hlast Hnow. rewrite (step_click _ _ _ _ _ _ _ _ _ _ _ Hv Hb).
  destruct w as [d lc vs cs out]. cbn [store last_click views suspended outbox] in *.
  unfold clicked. rewrite bool_decide_eq_true_2 by done. cbn [negb]. rewrite Hban, Hlast.
  unfold cooldown_remaining.
  destruct (Z.ltb_spec (now - last) (BUTTON_COOLDOWN * SECOND)); [reflexivity|lia].
Qed.

(** C9, amended. A click of the board's caller, not banned, that comes less
    than ten seconds after the time recorded for (user, task) is denied: one
    of the six cooldown messages goes out, filled with the whole seconds
    left, and nothing else changes (no row, no wait entered, the record
    kept).  The record is the time of the last click of that pair that passed
    the gate, and a click that passes writes its own time in the step in
    which it was checked.  So along any run, from any state, the clicks of
    one pair that pass the gate are each at least ten seconds after the one
    before. *)
Theorem cooldown_gate_fixed_window :
  (∀ w board_msg btn user channel now choice owner buttons b last,
     views w !! board_msg = Some (Board user owner buttons) →
     buttons !! btn = Some b →
     is_banned_q user (store w) = false →
     last_click w !! (user, b_tid b) = Some last →
     now - last < BUTTON_COOLDOWN * SECOND →
     step' w (Click board_msg btn user channel now choice) =
     World (store w) (last_click w) (views w) (suspended w)
           (outbox w ++ [Cooldown (pick_message choice) user (b_title b)
                           ((BUTTON_COOLDOWN * SECOND - (now - last)) `quot` SECOND)])
     ∧ pick_message choice ∈ COOLDOWN_MESSAGES)
  ∧ (∀ w e key now,
       passes_gate w e = Some (key, now) →
       last_click (step' w e) !! key = Some now)
  ∧ (∀ w e, passes_gate w e = None → last_click (step' w e) = last_click w)
  ∧ (∀ trace w key i j t1 t2,
       (i < j)%nat →
       times_of key (gate_log py_int py_strip trace w) !! i = Some t1 →
       times_of key (gate_log py_int py_strip trace w) !! j = Some t2 →
       t1 + BUTTON_COOLDOWN * SECOND ≤ t2).
Proof.
  split; [|split; [|split]].
  - intros. split; [by eapply click_in_window_denied|].
    unfold pick_message. apply list_elem_of_In, nth_In.
    apply Nat.mod_upper_bound. discriminate.
  - intros w e key now Hg. rewrite step_last_click, Hg. apply lookup_insert_eq.
  - intros w e Hg. rewrite step_last_click, Hg. reflexivity.
  - intros trace w key i j t1 t2 Hij Hi Hj.
    exact (spaced_ordered _ _ i j t1 t2 (gate_log_spaced trace w key) Hij Hi Hj).
Qed.

(** ** Well-formedness of the states of a run *)

Lemma task_by_id_Some tid d t :
  task_by_id tid d = Some t → t ∈ tasks d ∧ t_id t = tid.
Proof.
  unfold task_by_id. intros H. apply head_Some_elem_of in H.
  apply list_elem_of_filter in H. tauto.
Qed.

Lemma task_by_id_None tid d :
  task_by_id tid d = None → ∀ t, t ∈ tasks d → t_id t ≠ tid.
Proof.
  unfold task_by_id. intros H t Ht Hid.
  assert (Hin : t ∈ filter (λ t, t_id t = tid) (tasks d))
    by (apply list_elem_of_filter; done).
  destruct (filter _ (tasks d)); [inversion Hin|discriminate].
Qed.

Lemma task_by_id_is_Some tid d t :
  t ∈ tasks d → t_id t = tid → is_Some (task_by_id tid d).
Proof.
  intros Ht Hid. destruct (task_by_id tid d) eqn:E; [by eexists|].
  destruct (task_by_id_None tid d E t Ht Hid).
Qed.

Lemma archive_row_keeps_key tid : keeps_key (archive_row tid).
Proof. intros t. unfold archive_row. destruct (decide _); done. Qed.

Lemma set_link_row_keeps_key link tid : keeps_key (set_link_row link tid).
Proof. intros t. unfold set_link_row. destruct (decide _); done. Qed.

Lemma set_announcement_row_keeps_key mid tid : keeps_key (set_announcement_row mid tid).
Proof. intros t. unfold set_announcement_row. destruct (decide _); done. Qed.

Lemma task_by_id_map f tid d :
  keeps_key f →
  task_by_id tid (set_tasks (fmap f) d) = f <$> task_by_id tid d.
Proof.
  intros Hf. unfold task_by_id. cbn [tasks set_tasks].
  induction (tasks d) as [|t ts IH]; [done|].
  rewrite fmap_cons, !filter_cons. destruct (Hf t) as (Hid & _).
  destruct (decide (t_id (f t) = tid)) as [H1|H1], (decide (t_id t = tid)) as [H2|H2].
  - reflexivity.
  - congruence.
  - congruence.
  - exact IH.
Qed.

Lemma reward_map f tid d :
  keeps_key f → reward (set_tasks (fmap f) d) tid = reward d tid.
Proof.
  intros Hf. unfold reward. rewrite task_by_id_map by done.
  destruct (task_by_id tid d) as [t|]; [|done]. apply Hf.
Qed.

Lemma ids_map f (ts : list task) : keeps_key f → t_id <$> (f <$> ts) = t_id <$> ts.
Proof.
  intros Hf. induction ts as [|t ts IH]; [done|]. cbn. rewrite IH. f_equal. apply Hf.
Qed.

Lemma elem_of_map_task (f : task → task) (ts : list task) (t' : task) :
  t' ∈ f <$> ts → ∃ t, t ∈ ts ∧ t' = f t.
Proof. intros H. apply (list_elem_of_fmap_1 f) in H as (t & -> & Ht). eauto. Qed.

Section FlagUpdate.

Variable f : task → task.
Hypothesis Hf : keeps_key f.

Lemma fresh_ids_map d : fresh_ids d → fresh_ids (set_tasks (fmap f) d).
Proof.
  intros (Hn & Hlt & Hs). split; [|split; [|exact Hs]]; cbn [tasks set_tasks tasks_seq].
  - rewrite ids_map by done. exact Hn.
  - intros t' (t & Ht & ->)%elem_of_map_task. destruct (Hf t) as (-> & _). auto.
Qed.

Lemma references_kept_map d : references_kept d → references_kept (set_tasks (fmap f) d).
Proof.
  intros H s Hs. destruct (H s Hs) as (Hu & t & Ht & Hid). split; [exact Hu|].
  exists (f t). split; [apply list_elem_of_fmap_2, Ht|].
  destruct (Hf t) as (-> & _). exact Hid.
Qed.

Lemma button_current_map d b : button_current d b → button_current (set_tasks (fmap f) d) b.
Proof.
  intros (Hlt & H). split; [exact Hlt|].
  intros t' (t & Ht & ->)%elem_of_map_task. destruct (Hf t) as (-> & _ & ->). auto.
Qed.

Lemma row_current_map d sid row :
  row_current d sid row → row_current (set_tasks (fmap f) d) sid row.
Proof.
  intros (Hlt & H). split; [exact Hlt|].
  intros s Hs Hid. rewrite reward_map by done. auto.
Qed.

End FlagUpdate.

Lemma advances_refl d : advances d d.
Proof. intros H. auto. Qed.

Lemma advances_trans d1 d2 d3 : advances d1 d2 → advances d2 d3 → advances d1 d3.
Proof.
  intros H12 H23 H1. destruct (H12 H1) as (H2 & Hb & Hr).
  destruct (H23 H2) as (H3 & Hb' & Hr'). auto.
Qed.

Lemma advances_flags f d0 d : keeps_key f → advances d0 d → advances d0 (set_tasks (fmap f) d).
Proof.
  intros Hf H0. eapply advances_trans; [exact H0|]. intros [Hi Hk]. split; [split|split].
  - by apply fresh_ids_map.
  - by apply references_kept_map.
  - intros b. by apply button_current_map.
  - intros sid row. by apply row_current_map.
Qed.

Lemma advances_archive tid d0 d : advances d0 d → advances d0 (archive_q tid d).
Proof. apply advances_flags, archive_row_keeps_key. Qed.

Lemma advances_archive_all ids d0 d : advances d0 d → advances d0 (archive_all ids d).
Proof.
  revert d. induction ids as [|i ids IH]; intros d H; [exact H|].
  cbn. apply IH, advances_archive, H.
Qed.

Lemma advances_swept d0 d : advances d0 d → advances d0 (swept d).
Proof. apply advances_archive_all. Qed.

Lemma advances_set_link link tid d0 d : advances d0 d → advances d0 (set_link_q link tid d).
Proof. apply advances_flags, set_link_row_keeps_key. Qed.

Lemma advances_set_announcement mid tid d0 d :
  advances d0 d → advances d0 (set_announcement_q mid tid d).
Proof. apply advances_flags, set_announcement_row_keeps_key. Qed.

Lemma advances_ban u d0 d : advances d0 d → advances d0 (ban_q u d).
Proof. intros H. eapply advances_trans; [exact H|]. intros Hd. auto. Qed.

Lemma advances_insert_withdrawal u bank number name p now d0 d :
  advances d0 d → advances d0 (insert_withdrawal_q u bank number name p now d).
Proof. intros H. eapply advances_trans; [exact H|]. intros Hd. auto. Qed.

Lemma advances_complete wid d0 d : advances d0 d → advances d0 (complete_q wid d).
Proof. intros H. eapply advances_trans; [exact H|]. intros Hd. auto. Qed.

Lemma advances_users g d0 d :
  (∀ u, is_Some (users d !! u) → is_Some (g (users d) !! u)) →
  advances d0 d → advances d0 (set_users g d).
Proof.
  intros Hg H. eapply advances_trans; [exact H|]. intros [Hi Hk].
  split; [split; [exact Hi|]|split; [auto|auto]].
  intros s Hs. destruct (Hk s Hs) as [Hu Ht]. split; [apply Hg, Hu|exact Ht].
Qed.

Lemma advances_add_points a u d0 d : advances d0 d → advances d0 (add_points_q a u d).
Proof.
  apply advances_users. intros v [p Hp]. destruct (decide (u = v)) as [->|Hne].
  - rewrite lookup_alter_eq, Hp. by eexists.
  - rewrite lookup_alter_ne, Hp by done. by eexists.
Qed.

Lemma advances_sub_points a u d0 d : advances d0 d → advances d0 (sub_points_q a u d).
Proof.
  apply advances_users. intros v [p Hp]. destruct (decide (u = v)) as [->|Hne].
  - rewrite lookup_alter_eq, Hp. by eexists.
  - rewrite lookup_alter_ne, Hp by done. by eexists.
Qed.

Lemma advances_ensure_user u d0 d : advances d0 d → advances d0 (ensure_user_q u d).
Proof.
  intros H. unfold ensure_user_q. destruct (users d !! u) eqn:E; [exact H|].
  apply advances_users; [|exact H]. intros v [p Hp].
  destruct (decide (u = v)) as [->|Hne]; [congruence|].
  rewrite lookup_insert_ne, Hp by done. by eexists.
Qed.

Lemma ensure_user_has u d : is_Some (users (ensure_user_q u d) !! u).
Proof.
  unfold ensure_user_q. destruct (users d !! u) eqn:E; [by eexists|].
  cbn. rewrite lookup_insert_eq. by eexists.
Qed.

Lemma review_row_same sid st now s :
  s_id (review_row sid st now s) = s_id s
  ∧ s_user_id (review_row sid st now s) = s_user_id s
  ∧ s_task_id (review_row sid st now s) = s_task_id s.
Proof. unfold review_row. destruct (decide _); done. Qed.

Lemma advances_review sid st now d0 d : advances d0 d → advances d0 (review_q sid st now d).
Proof.
  intros H. eapply advances_trans; [exact H|]. clear H. intros [(Hn & Hlt & Hsn & Hslt) Hk].
  assert (Hin : ∀ s', s' ∈ submissions (review_q sid st now d) →
                      ∃ s, s ∈ submissions d ∧ s' = review_row sid st now s).
  { intros s' Hs'. apply list_elem_of_fmap_1 in Hs' as (s & -> & Hs). eauto. }
  split; [split; [split; [exact Hn|split; [exact Hlt|split]]|]|split].
  - cbn [submissions review_q set_submissions]. rewrite <- list_fmap_compose.
    erewrite list_fmap_ext; [exact Hsn|]. intros i s _. apply review_row_same.
  - intros s' (s & Hs & ->)%Hin. destruct (review_row_same sid st now s) as (-> & _). auto.
  - intros s' (s & Hs & ->)%Hin.
    destruct (review_row_same sid st now s) as (_ & -> & ->). apply Hk, Hs.
  - auto.
  - intros sid' row (Hlt' & Hrow). split; [exact Hlt'|].
    intros s' (s & Hs & ->)%Hin.
    destruct (review_row_same sid st now s) as (-> & -> & ->). apply Hrow, Hs.
Qed.

Lemma reward_insert_task title points max_subs role ttype d tid t :
  t ∈ tasks d → t_id t = tid →
  reward (insert_task_q title points max_subs role ttype d) tid = reward d tid.
Proof.
  intros Ht Hid. unfold reward, task_by_id. cbn [tasks insert_task_q].
  rewrite filter_app.
  assert (Hin : t ∈ filter (λ t, t_id t = tid) (tasks d))
    by (apply list_elem_of_filter; done).
  destruct (filter (λ t, t_id t = tid) (tasks d)); [inversion Hin|reflexivity].
Qed.

Lemma advances_insert_task title points max_subs role ttype d0 d :
  advances d0 d → advances d0 (insert_task_q title points max_subs role ttype d).
Proof.
  intros H. eapply advances_trans; [exact H|]. clear H. intros [(Hn & Hlt & Hsn & Hslt) Hk].
  split; [split; [split; [|split; [|split; [exact Hsn|exact Hslt]]]|]|split].
  - cbn [tasks insert_task_q]. rewrite fmap_app. apply NoDup_app. split; [exact Hn|].
    split; [|apply NoDup_singleton].
    intros i (t & -> & Ht)%list_elem_of_fmap_1 Hi. cbn in Hi.
    apply list_elem_of_singleton in Hi. specialize (Hlt t Ht). lia.
  - cbn [tasks tasks_seq insert_task_q]. intros t [Ht|Ht]%elem_of_app.
    + specialize (Hlt t Ht). lia.
    + apply list_elem_of_singleton in Ht as ->. cbn. lia.
  - intros s Hs. destruct (Hk s Hs) as (Hu & t & Ht & Hid). split; [exact Hu|].
    exists t. split; [|exact Hid]. cbn [tasks insert_task_q]. apply elem_of_app. by left.
  - intros b (Hb & Hmax). split; [cbn [tasks_seq insert_task_q]; lia|].
    cbn [tasks insert_task_q]. intros t [Ht|Ht]%elem_of_app Hid; [by apply Hmax|].
    apply list_elem_of_singleton in Ht as ->. cbn in Hid. lia.
  - intros sid row (Hlt' & Hrow). split; [exact Hlt'|].
    intros s Hs Hid. destruct (Hrow s Hs Hid) as (Hu & Ht & Hr).
    split; [exact Hu|split; [exact Ht|]].
    destruct (Hk s Hs) as (_ & t & Hin & Htid).
    rewrite (reward_insert_task _ _ _ _ _ _ _ t Hin Htid). exact Hr.
Qed.

Lemma advances_insert_submission u tid proof now d0 d d' :
  is_Some (users d !! u) →
  insert_submission_q u tid proof now d = Some d' →
  advances d0 d → advances d0 d'.
Proof.
  intros Hu Hins H. eapply advances_trans; [exact H|]. clear H.
  unfold insert_submission_q in Hins.
  destruct (task_by_id tid d) as [t|] eqn:Et; [|discriminate]. injection Hins as <-.
  apply task_by_id_Some in Et as [Ht Htid].
  intros [(Hn & Hlt & Hsn & Hslt) Hk].
  split; [split; [split; [exact Hn|split; [exact Hlt|split]]|]|split].
  - cbn [submissions]. rewrite fmap_app. apply NoDup_app. split; [exact Hsn|].
    split; [|apply NoDup_singleton].
    intros i (s & -> & Hs)%list_elem_of_fmap_1 Hi. cbn in Hi.
    apply list_elem_of_singleton in Hi. specialize (Hslt s Hs). lia.
  - cbn [submissions submissions_seq]. intros s [Hs|Hs]%elem_of_app.
    + specialize (Hslt s Hs). lia.
    + apply list_elem_of_singleton in Hs as ->. cbn. lia.
  - cbn [submissions users tasks]. intros s [Hs|Hs]%elem_of_app; [by apply Hk|].
    apply list_elem_of_singleton in Hs as ->. cbn. split; [exact Hu|eauto].
  - auto.
  - intros sid row (Hlt' & Hrow). split; [cbn [submissions_seq]; lia|].
    cbn [submissions]. intros s [Hs|Hs]%elem_of_app Hid; [by apply Hrow|].
    apply list_elem_of_singleton in Hs as ->. cbn in Hid. lia.
Qed.

Lemma reward_delete_task tid x d :
  x ≠ tid → reward (delete_task_q tid (delete_submissions_q tid d)) x = reward d x.
Proof.
  intros Hne. unfold reward, task_by_id.
  cbn [tasks delete_task_q delete_submissions_q set_tasks set_submissions].
  rewrite list_filter_filter.
  assert (Heq : filter (λ t, t_id t = x ∧ t_id t ≠ tid) (tasks d)
                = filter (λ t, t_id t = x) (tasks d)).
  { apply list_filter_iff. intros t. split; [tauto|]. intros ->. done. }
  rewrite Heq. reflexivity.
Qed.

Lemma advances_remove tid d0 d :
  advances d0 d → advances d0 (delete_task_q tid (delete_submissions_q tid d)).
Proof.
  intros H. eapply advances_trans; [exact H|]. clear H. intros [(Hn & Hlt & Hsn & Hslt) Hk].
  split; [split; [split; [|split; [|split]]|]|split];
    cbn [tasks tasks_seq submissions submissions_seq users
         delete_task_q delete_submissions_q set_tasks set_submissions].
  - eapply sublist_NoDup; [exact Hn|]. apply fmap_sublist, sublist_filter.
  - intros t [_ Ht]%list_elem_of_filter. auto.
  - eapply sublist_NoDup; [exact Hsn|]. apply fmap_sublist, sublist_filter.
  - intros s [_ Hs]%list_elem_of_filter. auto.
  - intros s [Hne Hs]%list_elem_of_filter. destruct (Hk s Hs) as (Hu & t & Ht & Hid).
    split; [exact Hu|]. exists t. split; [|exact Hid].
    apply list_elem_of_filter. split; [congruence|exact Ht].
  - intros b (Hb & Hmax). split; [exact Hb|].
    intros t [_ Ht]%list_elem_of_filter. auto.
  - intros sid row (Hlt' & Hrow). split; [exact Hlt'|].
    intros s [Hne Hs]%list_elem_of_filter Hid.
    rewrite reward_delete_task by exact Hne. auto.
Qed.

Create HintDb advance.

#[local] Hint Resolve advances_refl advances_archive advances_archive_all advances_swept
  advances_set_link advances_set_announcement advances_ban advances_insert_withdrawal
  advances_complete advances_add_points advances_sub_points advances_ensure_user
  advances_review advances_insert_task advances_remove : advance.

Lemma NoDup_fmap_same {A B} (f : A → B) (l : list A) x y :
  NoDup (f <$> l) → x ∈ l → y ∈ l → f x = f y → x = y.
Proof.
  induction l as [|a l IH]; intros Hn Hx Hy Hf; [inversion Hx|].
  rewrite fmap_cons in Hn. apply NoDup_cons in Hn as [Ha Hn].
  apply elem_of_cons in Hx as [->|Hx], Hy as [->|Hy]; [done| | |by apply IH].
  - destruct Ha. rewrite Hf. by apply list_elem_of_fmap_2.
  - destruct Ha. rewrite <- Hf. by apply list_elem_of_fmap_2.
Qed.

Lemma button_of_current d r :
  fresh_ids d → r ∈ tasks d → button_current d (button_of r).
Proof.
  intros (Hn & Hlt & _) Hr. split; [apply Hlt, Hr|].
  intros t Ht Hid. cbn in *. by rewrite (NoDup_fmap_same t_id (tasks d) t r Hn Ht Hr Hid).
Qed.

Lemma drawn_current d :
  store_wf d → Forall (button_current (swept d)) (drawn d).
Proof.
  intros Hd. apply Forall_forall. intros b (r & -> & Hr)%list_elem_of_fmap_1.
  destruct (advances_swept d d (advances_refl d) Hd) as (_ & Hb & _). apply Hb.
  apply button_of_current; [apply Hd|].
  apply list_elem_of_filter in Hr as [_ Hr]. unfold examined in Hr.
  apply subseteq_take in Hr.
  apply list_elem_of_filter in Hr. tauto.
Qed.

Lemma review_select_current sid d r :
  store_wf d → review_select_q sid d = Some r → row_current d sid r.
Proof.
  intros [(_ & _ & Hsn & Hslt) _] Hsel. unfold review_select_q in Hsel.
  destruct (head (filter (λ s, s_id s = sid) (submissions d))) as [s|] eqn:Es; [|discriminate].
  cbn in Hsel. destruct (task_by_id (s_task_id s) d) as [t|] eqn:Et; [|discriminate].
  injection Hsel as <-. apply head_Some_elem_of, list_elem_of_filter in Es as [Hid Hs].
  split; [rewrite <- Hid; apply Hslt, Hs|].
  intros s' Hs' Hid'. cbn.
  assert (s' = s) as -> by (apply (NoDup_fmap_same s_id (submissions d)); congruence).
  unfold reward. rewrite Et. done.
Qed.

Lemma views_current_advance d d' vs :
  (∀ b, button_current d b → button_current d' b) →
  (∀ sid row, row_current d sid row → row_current d' sid row) →
  Forall (view_current d) vs → Forall (view_current d') vs.
Proof.
  intros Hb Hr H. eapply Forall_impl; [exact H|].
  intros [a o bs|?|sid row|? ?|? ?|]; cbn; auto.
  intros Hbs. eapply Forall_impl; [exact Hbs|exact Hb].
Qed.

Lemma coroutines_current_advance d d' cs :
  (∀ b, button_current d b → button_current d' b) →
  Forall (coroutine_current d) cs → Forall (coroutine_current d') cs.
Proof. intros Hb H. eapply Forall_impl; [exact H|]. intros []; cbn; auto. Qed.

Lemma wf_advance d lc vs cs out d' lc' vs' cs' out' :
  wf (World d lc vs cs out) →
  advances d d' →
  (store_wf d' → Forall (view_current d') vs → Forall (view_current d') vs') →
  (store_wf d' → Forall (coroutine_current d') cs → Forall (coroutine_current d') cs') →
  wf (World d' lc' vs' cs' out').
Proof.
  intros (Hi & Hk & Hvs & Hcs) Hadv Hv' Hc'. cbn [store views suspended] in *.
  destruct (Hadv (conj Hi Hk)) as ((Hi' & Hk') & Hb & Hr).
  split; [exact Hi'|split; [exact Hk'|split]]; cbn [store views suspended].
  - apply Hv'; [done|]. by apply (views_current_advance d).
  - apply Hc'; [done|]. by apply (coroutines_current_advance d).
Qed.

Lemma wf_unpark i w : wf w → wf (unpark i w).
Proof.
  intros (Hi & Hk & Hvs & Hcs). split; [exact Hi|split; [exact Hk|split; [exact Hvs|]]].
  apply Forall_delete, Hcs.
Qed.

Lemma wf_init : wf init.
Proof.
  split; [|split; [|split]]; cbn.
  - split; [apply NoDup_nil_2|split; [intros t Ht; inversion Ht|
      split; [apply NoDup_nil_2|intros s Hs; inversion Hs]]].
  - intros s Hs. inversion Hs.
  - constructor.
  - constructor.
Qed.

Ltac wf_list_shape :=
  lazymatch goal with
  | |- Forall _ (_ ++ _) => apply Forall_app; split
  | |- Forall _ (<[_ := _]> _) => apply Forall_insert
  | |- Forall _ (delete _ _) => apply Forall_delete
  | |- Forall _ [_] => apply Forall_singleton
  | |- Forall _ [] => apply Forall_nil_2
  | |- True => exact I
  | |- view_current _ _ => progress cbn [view_current]
  | |- coroutine_current _ _ => progress cbn [coroutine_current]
  end.

Ltac wf_list_step H :=
  first [ exact H | wf_list_shape ].

Ltac wf_lists :=
  let Hd := fresh "Hd" in
  let H := fresh "H" in
  intros Hd H; repeat wf_list_step H.

Lemma examined_in_tasks d r : r ∈ take 10 (open_tasks_q d) → r ∈ tasks d.
Proof.
  intros Hr. apply subseteq_take in Hr. apply list_elem_of_filter in Hr. tauto.
Qed.

Lemma board_current d d0 ids (P : task → Prop) `{∀ r, Decision (P r)} :
  store_wf d → advances d d0 →
  Forall (button_current (archive_all ids d0))
         (button_of <$> filter P (take 10 (open_tasks_q d0))).
Proof.
  intros Hd Hadv. destruct (Hadv Hd) as (Hd0 & _).
  apply Forall_forall. intros b (r & -> & Hr)%list_elem_of_fmap_1.
  destruct (advances_archive_all ids d0 d0 (advances_refl d0) Hd0) as (_ & Hb & _).
  apply Hb. apply button_of_current; [apply Hd0|].
  apply list_elem_of_filter in Hr as [_ Hr]. apply examined_in_tasks, Hr.
Qed.

Lemma board_button_current d vs board_msg a o bs btn b :
  Forall (view_current d) vs →
  vs !! board_msg = Some (Board a o bs) → bs !! btn = Some b →
  button_current d b.
Proof.
  intros Hvs Hv Hb. pose proof (Forall_lookup_1 _ _ _ _ Hvs Hv) as Hbs. cbn in Hbs.
  exact (Forall_lookup_1 _ _ _ _ Hbs Hb).
Qed.

Lemma wf_store d lc vs cs out : wf (World d lc vs cs out) → store_wf d.
Proof. intros (Hi & Hk & _). split; assumption. Qed.

Lemma step_wf w e : wf w → wf (step' w e).
Proof.
  intros Hwf. unfold step, step_with.
  destruct (dispatch py_int py_strip e w) as [m w0] eqn:Hd.
  assert (Hw0 : wf w0 ∧ (wf w0 → wp m (λ _, wf) wf w0)).
  2:{ destruct Hw0 as [Hw0 Hwp]. apply (wp_after m wf), Hwp, Hw0. }
  destruct e; cbn [dispatch] in Hd;
    repeat match type of Hd with
           | context [match ?x with _ => _ end] => destruct x eqn:?
           end;
    injection Hd as Hm Hw; subst m w0;
    (split; [first [exact Hwf|apply wf_unpark, Hwf]|]);
    intros Hwf0;
    try (destruct w as [d lc vs cs out]; unfold unpark in *;
         cbn [store last_click views suspended outbox] in *;
         wp_run;
         try (eapply (wf_advance _ _ _ _ _ _ _ _ _ _ Hwf0);
              [eauto 10 with advance| |]);
         try (wf_lists; fail)).
  - (* tasks_cmd: the new board *)
    rewrite <- Heql. wf_lists.
    apply (board_current d d); [exact (wf_store _ _ _ _ _ Hwf)|apply advances_refl].
  - (* a click on a full quest, the board drawn again *)
    rewrite <- Heql. wf_lists.
    apply (board_current d); [exact (wf_store _ _ _ _ _ Hwf)|auto with advance].
  - (* a click that enters the wait *)
    wf_lists. destruct Hwf as (_ & _ & Hvs & _).
    exact (board_button_current _ _ _ _ _ _ _ _ Hvs Heqo Heqo0).
  - (* the row of a proof *)
    eapply advances_insert_submission; [apply ensure_user_has|eassumption|].
    auto with advance.
  - (* the board drawn again after a submission *)
    rewrite <- Heql. wf_lists.
    apply (board_current d d); [exact (wf_store _ _ _ _ _ Hwf)|apply advances_refl].
  - (* a review message *)
    wf_lists. eapply review_select_current; [exact (wf_store _ _ _ _ _ Hwf)|eassumption].
Qed.

Lemma run_wf trace w : wf w → wf (run' trace w).
Proof.
  revert w. induction trace as [|e trace IH]; intros w Hwf; [exact Hwf|].
  rewrite run_cons. apply IH, step_wf, Hwf.
Qed.

(** ** The ledger along orderly runs *)

Lemma Zsum_cons x l : Zsum (x :: l) = x + Zsum l.
Proof. reflexivity. Qed.

Lemma Zsum_app l1 l2 : Zsum (l1 ++ l2) = Zsum l1 + Zsum l2.
Proof.
  induction l1 as [|x l1 IH]; [reflexivity|].
  rewrite <- app_comm_cons, !Zsum_cons, IH. lia.
Qed.

Lemma ar_nil g u : ar g u [] = 0.
Proof. reflexivity. Qed.

Lemma ar_cons g u s l :
  ar g u (s :: l) =
  (if decide (s_user_id s = u ∧ s_status s = approved) then g (s_task_id s) else 0)
  + ar g u l.
Proof.
  unfold ar. rewrite filter_cons. destruct (decide _); [reflexivity|]. lia.
Qed.

Lemma ar_app g u l1 l2 : ar g u (l1 ++ l2) = ar g u l1 + ar g u l2.
Proof. unfold ar. rewrite filter_app, fmap_app. apply Zsum_app. Qed.

Lemma ar_ext g g' u l :
  (∀ s, s ∈ l → s_status s = approved → g (s_task_id s) = g' (s_task_id s)) →
  ar g u l = ar g' u l.
Proof.
  induction l as [|s l IH]; intros H; [done|]. rewrite !ar_cons.
  rewrite IH by (intros s' Hs'; apply H; by right).
  destruct (decide _) as [[_ Hs]|_]; [|done]. rewrite (H s); [done|by left|done].
Qed.

Lemma ar_none g u l : (∀ s, s ∈ l → s_user_id s ≠ u) → ar g u l = 0.
Proof.
  induction l as [|s l IH]; intros H; [done|]. rewrite ar_cons.
  rewrite IH by (intros s' Hs'; apply H; by right).
  rewrite decide_False; [done|]. intros [Hu _]. by apply (H s); [left|].
Qed.

Lemma review_row_other sid st now s : s_id s ≠ sid → review_row sid st now s = s.
Proof. intros H. unfold review_row. by rewrite decide_False. Qed.

Lemma review_row_hit sid st now s :
  s_id s = sid →
  review_row sid st now s =
  Submission (s_id s) (s_user_id s) (s_task_id s) (s_proof s) st (s_created_at s) (Some now).
Proof. intros H. unfold review_row. by rewrite decide_True. Qed.

Lemma ar_review_other g u sid st now l :
  (∀ s, s ∈ l → s_id s ≠ sid) →
  ar g u (review_row sid st now <$> l) = ar g u l.
Proof.
  induction l as [|s l IH]; intros H; [done|]. rewrite fmap_cons, !ar_cons.
  rewrite IH by (intros s' Hs'; apply H; by right).
  rewrite review_row_other by (apply H; by left). done.
Qed.

Lemma ar_review_approve g u sid now l s0 :
  NoDup (s_id <$> l) → s0 ∈ l → s_id s0 = sid → s_status s0 = pending →
  ar g u (review_row sid approved now <$> l) =
  ar g u l + (if decide (s_user_id s0 = u) then g (s_task_id s0) else 0).
Proof.
  induction l as [|s l IH]; intros Hn Hin Hid Hst; [inversion Hin|].
  rewrite fmap_cons in Hn. apply NoDup_cons in Hn as [Hs Hn].
  rewrite fmap_cons, !ar_cons. apply elem_of_cons in Hin as [<-|Hin].
  - rewrite ar_review_other.
    2:{ intros s' Hs' Heq. apply Hs. rewrite Hid, <- Heq. by apply list_elem_of_fmap_2. }
    rewrite review_row_hit by done. cbn [s_user_id s_status s_task_id].
    rewrite (decide_False (P := s_user_id s0 = u ∧ s_status s0 = approved))
      by (rewrite Hst; intros [_ ?]; done).
    destruct (decide (s_user_id s0 = u)) as [Hu|Hu].
    + rewrite decide_True by done. lia.
    + rewrite decide_False by tauto. lia.
  - rewrite IH by done.
    assert (s_id s ≠ sid).
    { intros Heq. apply Hs. rewrite Heq, <- Hid. by apply list_elem_of_fmap_2. }
    rewrite review_row_other by done. lia.
Qed.

Lemma ar_review_reject g u sid now l :
  (∀ s, s ∈ l → s_id s = sid → s_status s = pending) →
  ar g u (review_row sid rejected now <$> l) = ar g u l.
Proof.
  induction l as [|s l IH]; intros H; [done|]. rewrite fmap_cons, !ar_cons.
  rewrite IH by (intros s' Hs'; apply H; by right).
  destruct (decide (s_id s = sid)) as [Hid|Hid]; [|by rewrite review_row_other].
  rewrite review_row_hit by done. cbn [s_user_id s_status s_task_id].
  rewrite decide_False by (intros [_ ?]; done).
  rewrite decide_False; [done|]. rewrite (H s); [intros [_ ?]; done|by left|done].
Qed.

Lemma ar_delete g u tid l :
  (∀ s, s ∈ l → s_task_id s = tid → s_status s ≠ approved) →
  ar g u (filter (λ s, s_task_id s ≠ tid) l) = ar g u l.
Proof.
  induction l as [|s l IH]; intros H; [done|]. rewrite filter_cons, ar_cons.
  specialize (IH (λ s' Hs', H s' (list_elem_of_further _ _ _ Hs'))).
  destruct (decide (s_task_id s ≠ tid)) as [Hne|Heq].
  - rewrite ar_cons, IH. done.
  - rewrite IH. apply dec_stable in Heq.
    rewrite decide_False; [done|]. intros [_ Hst]. by apply (H s); [left| |].
Qed.

Lemma approved_rewards_ar u d : approved_rewards u d = ar (reward d) u (submissions d).
Proof. reflexivity. Qed.

Lemma withdrawn_wd u d : withdrawn u d = wd u (withdrawals d).
Proof. reflexivity. Qed.

Lemma wd_none u l : (∀ x, x ∈ l → w_user_id x ≠ u) → wd u l = 0.
Proof.
  unfold wd. induction l as [|x l IH]; intros H; [done|]. rewrite filter_cons.
  rewrite decide_False by (apply H; by left). apply IH. intros x' Hx'. apply H. by right.
Qed.

Lemma wd_complete u wid l : wd u (complete_row wid <$> l) = wd u l.
Proof.
  unfold wd. induction l as [|x l IH]; [done|]. rewrite fmap_cons, !filter_cons.
  assert (Hx : w_user_id (complete_row wid x) = w_user_id x
               ∧ w_points (complete_row wid x) = w_points x)
    by (unfold complete_row; destruct (decide _); done).
  destruct Hx as [Hu Hp]. rewrite Hu.
  destruct (decide (w_user_id x = u)); [|exact IH]. cbn. rewrite Hp. f_equal. exact IH.
Qed.

Lemma wd_snoc u l x :
  wd u (l ++ [x]) = wd u l + (if decide (w_user_id x = u) then w_points x else 0).
Proof.
  unfold wd. rewrite filter_app, fmap_app, Zsum_app. f_equal.
  rewrite filter_cons. destruct (decide _); cbn; lia.
Qed.

Lemma balanced_same d d' :
  users d' = users d →
  (∀ u, approved_rewards u d' = approved_rewards u d) →
  (∀ u, withdrawn u d' = withdrawn u d) →
  ledger_balanced d → ledger_balanced d'.
Proof.
  intros Hu Ha Hw H u p Hp. rewrite Hu in Hp. rewrite Ha, Hw. by apply H.
Qed.

Lemma ledger_ok_flags f d :
  keeps_key f → ledger_ok d → ledger_ok (set_tasks (fmap f) d).
Proof.
  intros Hf (Hnn & Hwk & Hb). split; [|split; [exact Hwk|]].
  - intros t' (t & Ht & ->)%elem_of_map_task. destruct (Hf t) as (_ & -> & _). auto.
  - apply (balanced_same d); [done| |done|exact Hb].
    intros u. rewrite !approved_rewards_ar. apply ar_ext.
    intros s _ _. by apply reward_map.
Qed.

Lemma ledger_ok_archive_all ids d : ledger_ok d → ledger_ok (archive_all ids d).
Proof.
  revert d. induction ids as [|i ids IH]; intros d H; [exact H|].
  cbn. apply IH, ledger_ok_flags; [apply archive_row_keeps_key|exact H].
Qed.

Lemma ledger_ok_complete wid d : ledger_ok d → ledger_ok (complete_q wid d).
Proof.
  intros (Hnn & Hwk & Hb). split; [exact Hnn|split].
  - cbn [withdrawals users complete_q set_withdrawals].
    intros x' (x & -> & Hx)%list_elem_of_fmap_1.
    replace (w_user_id (complete_row wid x)) with (w_user_id x)
      by (unfold complete_row; destruct (decide _); done).
    auto.
  - apply (balanced_same d); [done|done| |exact Hb].
    intros u. apply wd_complete.
Qed.

Lemma ledger_ok_ensure_user u d :
  store_wf d → ledger_ok d → ledger_ok (ensure_user_q u d).
Proof.
  intros [_ Hk] (Hnn & Hwk & Hb). unfold ensure_user_q.
  destruct (users d !! u) eqn:E; [done|]. split; [exact Hnn|split].
  - cbn [withdrawals users set_users]. intros x Hx. destruct (Hwk x Hx) as [p Hp].
    destruct (decide (u = w_user_id x)) as [->|Hne]; [congruence|].
    rewrite lookup_insert_ne by done. by eexists.
  - intros v p. cbn [users set_users]. destruct (decide (u = v)) as [<-|Hne].
    + rewrite lookup_insert_eq. intros [= <-].
      change (approved_rewards u (set_users (insert u 0) d)) with (approved_rewards u d).
      change (withdrawn u (set_users (insert u 0) d)) with (withdrawn u d).
      rewrite approved_rewards_ar, ar_none.
      2:{ intros s Hs Hu. destruct (Hk s Hs) as [[q Hq] _]. congruence. }
      rewrite withdrawn_wd, wd_none; [done|].
      intros x Hx Hu. destruct (Hwk x Hx) as [q Hq]. congruence.
    + rewrite lookup_insert_ne by done. apply Hb.
Qed.

Lemma ledger_ok_insert_task title points max_subs role ttype d :
  0 ≤ points → store_wf d → ledger_ok d →
  ledger_ok (insert_task_q title points max_subs role ttype d).
Proof.
  intros Hp [_ Hk] (Hnn & Hwk & Hb). split; [|split; [exact Hwk|]].
  - cbn [tasks insert_task_q]. intros t [Ht|Ht]%elem_of_app; [auto|].
    apply list_elem_of_singleton in Ht as ->. exact Hp.
  - apply (balanced_same d); [done| |done|exact Hb].
    intros u. rewrite !approved_rewards_ar. apply ar_ext. intros s Hs _.
    destruct (Hk s Hs) as (_ & t & Ht & Hid). by apply (reward_insert_task _ _ _ _ _ _ _ t).
Qed.

Lemma ledger_ok_insert_submission u tid proof now d d' :
  insert_submission_q u tid proof now d = Some d' → ledger_ok d → ledger_ok d'.
Proof.
  unfold insert_submission_q. destruct (task_by_id tid d); [|discriminate].
  intros [= <-] (Hnn & Hwk & Hb). split; [exact Hnn|split; [exact Hwk|]].
  apply (balanced_same d); [done| |done|exact Hb].
  intros v. rewrite !approved_rewards_ar. cbn [submissions]. rewrite ar_app.
  change (reward _) with (reward d). rewrite ar_cons, ar_nil. cbn [s_status].
  rewrite decide_False by (intros [_ ?]; done). lia.
Qed.

Lemma ledger_ok_reject sid now d :
  (∀ s, s ∈ submissions d → s_id s = sid → s_status s = pending) →
  ledger_ok d → ledger_ok (review_q sid rejected now d).
Proof.
  intros Hp (Hnn & Hwk & Hb). split; [exact Hnn|split; [exact Hwk|]].
  apply (balanced_same d); [done| |done|exact Hb].
  intros u. rewrite !approved_rewards_ar. cbn [submissions review_q set_submissions].
  change (reward _) with (reward d). by apply ar_review_reject.
Qed.

Lemma ledger_ok_approve sid now d row s0 :
  store_wf d → row_current d sid row →
  s0 ∈ submissions d → s_id s0 = sid → s_status s0 = pending →
  ledger_ok d →
  ledger_ok (add_points_q (r_task_points row) (s_user_id (r_sub row))
               (review_q sid approved now d)).
Proof.
  intros [(_ & _ & Hsn & _) Hk] (_ & Hrow) Hs0 Hid Hst (Hnn & Hwk & Hb).
  destruct (Hrow s0 Hs0 Hid) as (Hu & Ht & Hr). rewrite <- Hu.
  split; [exact Hnn|split].
  - cbn [withdrawals users add_points_q review_q set_users set_submissions].
    intros x Hx. destruct (Hwk x Hx) as [p Hp].
    destruct (decide (s_user_id s0 = w_user_id x)) as [He|Hne].
    + rewrite He, lookup_alter_eq, Hp. by eexists.
    + rewrite lookup_alter_ne, Hp by done. by eexists.
  - intros v p. cbn [users add_points_q review_q set_users set_submissions].
    rewrite approved_rewards_ar.
    cbn [submissions add_points_q review_q set_users set_submissions].
    change (reward _) with (reward d).
    change (withdrawn v _) with (withdrawn v d).
    rewrite (ar_review_approve _ _ _ _ _ s0 Hsn Hs0 Hid Hst), <- approved_rewards_ar.
    destruct (Hk s0 Hs0) as ([q Hq] & t & Htin & Htid).
    assert (0 ≤ reward d (s_task_id s0)).
    { unfold reward. destruct (task_by_id _ d) as [t'|] eqn:Et; [|done].
      apply task_by_id_Some in Et as [Ht' _]. auto. }
    destruct (decide (s_user_id s0 = v)) as [<-|Hne].
    + rewrite lookup_alter_eq, Hq. intros [= <-].
      destruct (Hb _ _ Hq) as [-> ?]. rewrite Hr. lia.
    + rewrite lookup_alter_ne by done. intros Hp.
      destruct (Hb _ _ Hp) as [-> ?]. lia.
Qed.

Lemma ledger_ok_commit user p bank number name now d :
  1000 ≤ p → p ≤ get_user_points_q user d →
  ledger_ok d →
  ledger_ok (insert_withdrawal_q user bank number name p now (sub_points_q p user d)).
Proof.
  intros Hmin Hmax (Hnn & Hwk & Hb). unfold get_user_points_q in Hmax.
  destruct (users d !! user) as [cp|] eqn:Ecp; [|lia].
  split; [exact Hnn|split].
  - cbn [withdrawals users insert_withdrawal_q sub_points_q set_users].
    intros x [Hx|Hx]%elem_of_app.
    + destruct (Hwk x Hx) as [q Hq].
      destruct (decide (user = w_user_id x)) as [He|Hne].
      * rewrite <- He, lookup_alter_eq, Ecp. by eexists.
      * rewrite lookup_alter_ne, Hq by done. by eexists.
    + apply list_elem_of_singleton in Hx as ->. cbn.
      rewrite lookup_alter_eq, Ecp. by eexists.
  - intros v q. cbn [users insert_withdrawal_q sub_points_q set_users].
    change (approved_rewards v _) with (approved_rewards v d).
    rewrite withdrawn_wd. cbn [withdrawals insert_withdrawal_q sub_points_q set_users].
    rewrite wd_snoc, <- withdrawn_wd. cbn [w_user_id w_points].
    destruct (decide (user = v)) as [<-|Hne].
    + rewrite lookup_alter_eq, Ecp. intros [= <-].
      destruct (Hb _ _ Ecp) as [-> ?]. lia.
    + rewrite lookup_alter_ne by done. intros Hq.
      destruct (Hb _ _ Hq) as [-> ?]. lia.
Qed.

Lemma ledger_ok_remove tid d :
  (∀ s, s ∈ submissions d → s_task_id s = tid → s_status s ≠ approved) →
  ledger_ok d →
  ledger_ok (delete_task_q tid (delete_submissions_q tid d)).
Proof.
  intros Hg (Hnn & Hwk & Hb). split; [|split; [exact Hwk|]].
  - cbn [tasks delete_task_q delete_submissions_q set_tasks set_submissions].
    intros t [_ Ht]%list_elem_of_filter. auto.
  - apply (balanced_same d); [done| |done|exact Hb].
    intros u. rewrite !approved_rewards_ar.
    cbn [submissions delete_task_q delete_submissions_q set_tasks set_submissions].
    rewrite (ar_ext _ (reward d)).
    + by apply ar_delete.
    + intros s [Hne _]%list_elem_of_filter _. by apply reward_delete_task.
Qed.

Ltac ledger_simple Hwf Hok :=
  repeat first
    [ exact Hok
    | apply ledger_ok_archive_all
    | apply ledger_ok_complete
    | apply ledger_ok_flags;
      [first [apply archive_row_keeps_key | apply set_link_row_keeps_key
             | apply set_announcement_row_keeps_key]|]
    | apply ledger_ok_ensure_user; [exact (wf_store _ _ _ _ _ Hwf)|] ].

Lemma status_of_all sid w st :
  status_of sid w = [st] →
  (∃ s0, s0 ∈ submissions (store w) ∧ s_id s0 = sid ∧ s_status s0 = st)
  ∧ (∀ s, s ∈ submissions (store w) → s_id s = sid → s_status s = st).
Proof.
  unfold status_of. intros H. split.
  - destruct (filter (λ s, s_id s = sid) (submissions (store w))) as [|s0 l] eqn:E;
      [discriminate|].
    assert (Hin : s0 ∈ filter (λ s, s_id s = sid) (submissions (store w)))
      by (rewrite E; by left).
    apply list_elem_of_filter in Hin as [Hid Hin]. injection H as H _. eauto.
  - intros s Hs Hid.
    assert (Hin : s_status s ∈ s_status <$> filter (λ s, s_id s = sid) (submissions (store w))).
    { apply list_elem_of_fmap_2, list_elem_of_filter. done. }
    rewrite H in Hin. by apply list_elem_of_singleton in Hin.
Qed.

Lemma review_view_current d lc vs cs out msg sid row :
  wf (World d lc vs cs out) → vs !! msg = Some (Review sid row) → row_current d sid row.
Proof.
  intros (_ & _ & Hvs & _) Hv. exact (Forall_lookup_1 _ _ _ _ Hvs Hv).
Qed.

Lemma step_ledger w e :
  wf w → ledger_ok (store w) → ledger_guard w e = true →
  ledger_ok (store (step' w e)).
Proof.
  intros Hwf Hok Hg. unfold step, step_with.
  destruct (dispatch py_int py_strip e w) as [m w0] eqn:Hd.
  set (P := λ w' : world, ledger_ok (store w')).
  enough (Hwp : wp m (λ _, P) P w0) by exact (wp_after m P w0 Hwp).
  subst P. destruct w as [d lc vs cs out].
  cbn [store last_click views suspended outbox] in *.
  destruct e; cbn [dispatch ledger_guard] in Hd, Hg;
    cbn [store last_click views suspended outbox] in *;
    repeat match type of Hd with
           | context [match ?x with _ => _ end] =>
               let E := fresh "E" in
               destruct x eqn:E; try rewrite E in Hg
           end;
    injection Hd as Hm Hw; subst m w0;
    unfold unpark; cbn [store last_click views suspended outbox];
    wp_run; cbn [store];
    try (ledger_simple Hwf Hok; fail).
  - apply bool_decide_eq_true in Hg. apply ledger_ok_insert_task;
      [exact Hg|exact (wf_store _ _ _ _ _ Hwf)|exact Hok].
  - apply bool_decide_eq_true in Hg. apply ledger_ok_insert_task;
      [exact Hg|exact (wf_store _ _ _ _ _ Hwf)|exact Hok].
  - apply ledger_ok_remove; [|exact Hok].
    apply bool_decide_eq_true in Hg. intros s Hs. exact (proj1 (Forall_forall _ _) Hg s Hs).
  - eapply ledger_ok_insert_submission; [eassumption|]. ledger_simple Hwf Hok.
  - apply bool_decide_eq_true in Hg. subst current_points.
    apply ledger_ok_commit; [lia|lia|exact Hok].
  - apply bool_decide_eq_true, status_of_all in Hg as [(s0 & Hs0 & Hid & Hst) _].
    eapply ledger_ok_approve; try eassumption.
    + exact (wf_store _ _ _ _ _ Hwf).
    + eapply review_view_current; [exact Hwf|eassumption].
  - apply bool_decide_eq_true, status_of_all in Hg as [_ Hall].
    apply ledger_ok_reject; [exact Hall|exact Hok].
Qed.

Lemma run_ledger trace w :
  wf w → ledger_ok (store w) → orderly py_int py_strip ledger_guard trace w = true →
  ledger_ok (store (run' trace w)).
Proof.
  revert w. induction trace as [|e trace IH]; intros w Hwf Hok Hg; [exact Hok|].
  cbn [orderly] in Hg. apply andb_prop in Hg as [Hg Hrest].
  rewrite run_cons. apply IH; [by apply step_wf|by apply step_ledger|exact Hrest].
Qed.

Lemma ledger_ok_init : ledger_ok (store init).
Proof.
  split; [intros t Ht; inversion Ht|split; [intros x Hx; inversion Hx|]].
  intros u p Hp. cbn in Hp. rewrite lookup_empty in Hp. discriminate.
Qed.


(** ** The capacity along orderly runs *)

Lemma waiting_app tid cs1 cs2 : waiting tid (cs1 ++ cs2) = (waiting tid cs1 + waiting tid cs2)%nat.
Proof. unfold waiting. rewrite filter_app. apply length_app. Qed.

Lemma waiting_one tid c :
  waiting tid [c] = if decide (collects c = Some tid) then 1%nat else 0%nat.
Proof. unfold waiting. rewrite filter_cons. destruct (decide _); reflexivity. Qed.

Lemma waiting_delete tid cs i c :
  cs !! i = Some c →
  waiting tid cs =
  (waiting tid (delete i cs) + if decide (collects c = Some tid) then 1 else 0)%nat.
Proof.
  revert i. induction cs as [|a cs IH]; intros i Hi; [done|].
  destruct i as [|i].
  - injection Hi as ->. change (delete 0%nat (c :: cs)) with cs.
    change (waiting tid (c :: cs)) with (waiting tid ([c] ++ cs)).
    rewrite waiting_app, waiting_one. lia.
  - change (delete (S i) (a :: cs)) with (a :: delete i cs).
    change (waiting tid (a :: cs)) with (waiting tid ([a] ++ cs)).
    change (waiting tid (a :: delete i cs)) with (waiting tid ([a] ++ delete i cs)).
    rewrite !waiting_app, (IH i Hi). lia.
Qed.

Lemma waiting_delete_le tid cs i : (waiting tid (delete i cs) ≤ waiting tid cs)%nat.
Proof.
  revert i. induction cs as [|a cs IH]; intros i; [done|]. destruct i as [|i].
  - change (delete 0%nat (a :: cs)) with cs.
    change (waiting tid (a :: cs)) with (waiting tid ([a] ++ cs)).
    rewrite waiting_app. lia.
  - change (delete (S i) (a :: cs)) with (a :: delete i cs).
    change (waiting tid (a :: cs)) with (waiting tid ([a] ++ cs)).
    change (waiting tid (a :: delete i cs)) with (waiting tid ([a] ++ delete i cs)).
    rewrite !waiting_app. specialize (IH i). lia.
Qed.

Lemma count_done_archive_all ids tid d : count_done tid (archive_all ids d) = count_done tid d.
Proof.
  revert d. induction ids as [|i ids IH]; intros d; [done|].
  change (archive_all (i :: ids) d) with (archive_all ids (archive_q i d)).
  rewrite IH. reflexivity.
Qed.

Lemma length_filter_fmap_le {A} (P : A → Prop) `{∀ x, Decision (P x)} (f : A → A) l :
  (∀ x, P (f x) → P x) → (length (filter P (f <$> l)) ≤ length (filter P l))%nat.
Proof.
  intros Hf. induction l as [|x l IH]; [done|]. rewrite fmap_cons, !filter_cons.
  destruct (decide (P (f x))) as [Hfx|Hfx].
  - rewrite decide_True by auto. cbn [length]. lia.
  - destruct (decide (P x)); cbn [length]; lia.
Qed.

Lemma count_done_review_le tid sid st now d :
  (st ≠ rejected → ∀ s, s ∈ submissions d → s_id s = sid → s_status s ≠ rejected) →
  count_done tid (review_q sid st now d) ≤ count_done tid d.
Proof.
  intros Hst. unfold count_done. cbn [submissions review_q set_submissions].
  apply inj_le. induction (submissions d) as [|s l IH]; [done|].
  rewrite fmap_cons, !filter_cons.
  assert (IH' : (length (filter (λ s, s_task_id s = tid ∧ s_status s ≠ rejected)
                           (review_row sid st now <$> l))
                 ≤ length (filter (λ s, s_task_id s = tid ∧ s_status s ≠ rejected) l))%nat).
  { apply IH. intros Hne s' Hs'. apply Hst; [done|by right]. }
  destruct (decide (s_id s = sid)) as [Hid|Hid].
  - rewrite review_row_hit by done. cbn [s_task_id s_status].
    destruct (decide (s_task_id s = tid ∧ st ≠ rejected)) as [[Ht Hne]|_].
    + rewrite decide_True; [cbn [length]; lia|]. split; [done|].
      apply Hst; [done|by left|done].
    + destruct (decide (s_task_id s = tid ∧ s_status s ≠ rejected)); cbn [length]; lia.
  - rewrite review_row_other by done.
    destruct (decide (s_task_id s = tid ∧ s_status s ≠ rejected)); cbn [length]; lia.
Qed.

Lemma tasks_within_refl d : tasks_within d d.
Proof. intros t Ht. eauto. Qed.

Lemma tasks_within_flags f d0 d :
  keeps_key f → tasks_within d0 d → tasks_within d0 (set_tasks (fmap f) d).
Proof.
  intros Hf H t' (t & Ht & ->)%elem_of_map_task.
  destruct (Hf t) as (-> & _ & ->). auto.
Qed.

Lemma tasks_within_archive tid d0 d : tasks_within d0 d → tasks_within d0 (archive_q tid d).
Proof. apply tasks_within_flags, archive_row_keeps_key. Qed.

Lemma tasks_within_archive_all ids d0 d :
  tasks_within d0 d → tasks_within d0 (archive_all ids d).
Proof.
  revert d. induction ids as [|i ids IH]; intros d H; [exact H|].
  apply IH, tasks_within_archive, H.
Qed.

Lemma tasks_within_set_link link tid d0 d :
  tasks_within d0 d → tasks_within d0 (set_link_q link tid d).
Proof. apply tasks_within_flags, set_link_row_keeps_key. Qed.

Lemma tasks_within_set_announcement mid tid d0 d :
  tasks_within d0 d → tasks_within d0 (set_announcement_q mid tid d).
Proof. apply tasks_within_flags, set_announcement_row_keeps_key. Qed.

Lemma tasks_within_remove tid d0 d :
  tasks_within d0 d → tasks_within d0 (delete_task_q tid (delete_submissions_q tid d)).
Proof. intros H t' [_ Ht']%list_elem_of_filter. auto. Qed.

Lemma tasks_within_same d0 d d' : tasks d' = tasks d → tasks_within d0 d → tasks_within d0 d'.
Proof. intros He H t'. rewrite He. apply H. Qed.

Lemma tasks_within_ensure_user u d0 d :
  tasks_within d0 d → tasks_within d0 (ensure_user_q u d).
Proof.
  apply tasks_within_same. unfold ensure_user_q. destruct (users d !! u); reflexivity.
Qed.

Lemma count_done_ensure_user tid u d : count_done tid (ensure_user_q u d) = count_done tid d.
Proof. unfold ensure_user_q. destruct (users d !! u); reflexivity. Qed.

Lemma count_done_remove_le x tid d :
  count_done x (delete_task_q tid (delete_submissions_q tid d)) ≤ count_done x d.
Proof.
  unfold count_done. cbn [submissions delete_task_q delete_submissions_q set_tasks set_submissions].
  apply inj_le. rewrite list_filter_filter.
  induction (submissions d) as [|s l IH]; [done|]. rewrite !filter_cons.
  destruct (decide ((s_task_id s = x ∧ s_status s ≠ rejected) ∧ s_task_id s ≠ tid)) as [[H _]|_].
  - rewrite decide_True by done. cbn [length]. lia.
  - destruct (decide (s_task_id s = x ∧ s_status s ≠ rejected)); cbn [length]; lia.
Qed.

Lemma count_done_remove_other x tid d :
  x ≠ tid → count_done x (delete_task_q tid (delete_submissions_q tid d)) = count_done x d.
Proof.
  intros Hne. unfold count_done.
  cbn [submissions delete_task_q delete_submissions_q set_tasks set_submissions].
  rewrite list_filter_filter. do 2 f_equal. apply list_filter_iff.
  intros s. split; [tauto|]. intros [-> ?]. done.
Qed.

Lemma count_done_insert x u tid proof now d d' :
  insert_submission_q u tid proof now d = Some d' →
  count_done x d' = count_done x d + (if decide (tid = x) then 1 else 0)
  ∧ tasks d' = tasks d.
Proof.
  unfold insert_submission_q. destruct (task_by_id tid d); [|discriminate].
  intros [= <-]. split; [|reflexivity]. unfold count_done. cbn [submissions].
  rewrite filter_app, length_app, filter_cons. cbn [s_task_id s_status].
  destruct (decide (tid = x)) as [->|Hne].
  - rewrite decide_True by done. cbn. lia.
  - rewrite decide_False by tauto. cbn. lia.
Qed.

Lemma roomy_le d cs d' cs' :
  tasks_within d d' →
  (∀ tid, count_done tid d' ≤ count_done tid d) →
  (∀ tid, (waiting tid cs' ≤ waiting tid cs)%nat) →
  roomy d cs → roomy d' cs'.
Proof.
  intros Ht Hc Hw H t' Ht'. destruct (Ht t' Ht') as (t & Hin & Hid & Hmax).
  specialize (H t Hin). specialize (Hc (t_id t')). specialize (Hw (t_id t')).
  rewrite Hid, Hmax in H. lia.
Qed.

Create HintDb within.

#[local] Hint Resolve tasks_within_refl tasks_within_archive tasks_within_archive_all
  tasks_within_set_link tasks_within_set_announcement tasks_within_remove
  tasks_within_ensure_user : within.

Ltac waiting_le cs i :=
  let tid := fresh "tid" in
  intros tid;
  rewrite ?waiting_app, ?waiting_one; cbn [collects];
  rewrite ?decide_False by discriminate;
  try (pose proof (waiting_delete_le tid cs i)); lia.

Ltac count_le :=
  let tid := fresh "tid" in
  intros tid;
  rewrite ?count_done_archive_all, ?count_done_ensure_user;
  first [apply Z.le_refl | apply count_done_remove_le].

Lemma filter_none {A} (P : A → Prop) `{∀ x, Decision (P x)} (l : list A) :
  Forall (λ x, ¬ P x) l → filter P l = [].
Proof.
  induction 1 as [|x l Hx _ IH]; [done|]. rewrite filter_cons, decide_False by done. exact IH.
Qed.

Lemma submissions_below_seq d s :
  store_wf d → s ∈ submissions d → s_task_id s < tasks_seq d.
Proof.
  intros [(_ & Hlt & _) Hk] Hs. destruct (Hk s Hs) as (_ & t & Ht & <-). auto.
Qed.

Lemma count_done_fresh d :
  store_wf d → count_done (tasks_seq d) d = 0.
Proof.
  intros Hd. unfold count_done.
  rewrite filter_none; [done|].
  apply Forall_forall. intros s Hs [Hid _].
  pose proof (submissions_below_seq d s Hd Hs). lia.
Qed.

Lemma waiting_fresh d cs :
  Forall (coroutine_current d) cs → waiting (tasks_seq d) cs = 0%nat.
Proof.
  intros Hcs. unfold waiting.
  rewrite filter_none; [done|].
  eapply Forall_impl; [exact Hcs|]. intros c Hc Hcol.
  destruct c; try discriminate. injection Hcol as Hcol. destruct Hc as [Hlt _]. lia.
Qed.

Lemma roomy_insert_task title points max_subs role ttype d cs :
  store_wf d → Forall (coroutine_current d) cs → 0 ≤ max_subs →
  roomy d cs → roomy (insert_task_q title points max_subs role ttype d) cs.
Proof.
  intros Hd Hcs Hmax H t. cbn [tasks insert_task_q]. intros [Ht|Ht]%elem_of_app.
  - exact (H t Ht).
  - apply list_elem_of_singleton in Ht as ->. cbn [t_id t_max_submissions].
    change (count_done (tasks_seq d) (insert_task_q title points max_subs role ttype d))
      with (count_done (tasks_seq d) d).
    rewrite (count_done_fresh d Hd), (waiting_fresh d cs Hcs). lia.
Qed.

Lemma wf_coroutines d lc vs cs out :
  wf (World d lc vs cs out) → Forall (coroutine_current d) cs.
Proof. intros (_ & _ & _ & H). exact H. Qed.

Lemma step_roomy w e :
  wf w → roomy (store w) (suspended w) → capacity_guard w e = true →
  roomy (store (step' w e)) (suspended (step' w e)).
Proof.
  intros Hwf Hok Hg. unfold step, step_with.
  destruct (dispatch py_int py_strip e w) as [m w0] eqn:Hd.
  set (P := λ w' : world, roomy (store w') (suspended w')).
  enough (Hwp : wp m (λ _, P) P w0) by exact (wp_after m P w0 Hwp).
  subst P. destruct w as [d lc vs cs out].
  cbn [store last_click views suspended outbox] in *.
  destruct e; cbn [dispatch capacity_guard] in Hd, Hg;
    cbn [store last_click views suspended outbox] in *;
    repeat match type of Hd with
           | context [match ?x with _ => _ end] =>
               let E := fresh "E" in
               destruct x eqn:E; try rewrite E in Hg
           end;
    injection Hd as Hm Hw; subst m w0;
    unfold unpark; cbn [store last_click views suspended outbox];
    wp_run; cbn [store suspended];
    try (exact Hok);
    try (apply (roomy_le d cs);
         [eauto 10 with within
         |count_le
         |first [waiting_le cs 0%nat
                |match goal with
                 | |- context [delete ?i cs] => waiting_le cs i
                 end]
         |exact Hok]; fail).
  - apply bool_decide_eq_true in Hg. apply roomy_insert_task;
      [exact (wf_store _ _ _ _ _ Hwf)|exact (wf_coroutines _ _ _ _ _ Hwf)|exact Hg|exact Hok].
  - apply bool_decide_eq_true in Hg.
    apply (roomy_le (insert_task_q title points max_subs role ttype d) cs);
      [apply tasks_within_refl|count_le|waiting_le cs 0%nat|].
    apply roomy_insert_task;
      [exact (wf_store _ _ _ _ _ Hwf)|exact (wf_coroutines _ _ _ _ _ Hwf)|exact Hg|exact Hok].
  - (* a click that enters the wait *)
    apply bool_decide_eq_true in Hg. unfold collecting in Hg. cbn [suspended] in Hg.
    fold (waiting (b_tid b) cs) in Hg.
    destruct Hwf as (_ & _ & Hvs & _). cbn [store views] in Hvs.
    edestruct (board_button_current d vs) as [_ Hmax]; [exact Hvs|eassumption|eassumption|].
    apply Z.leb_gt in Heqb2.
    intros t Ht. rewrite waiting_app, waiting_one. cbn [collects].
    destruct (decide (Some (b_tid b) = Some (t_id t))) as [[= Hid]|Hne].
    + rewrite <- Hid, Hg. rewrite <- (Hmax t Ht) in Heqb2 by done. lia.
    + specialize (Hok t Ht). lia.
  - (* the row of a proof *)
    destruct (count_done_insert 0 user (b_tid b) (py_strip content) now
                (ensure_user_q user d) d0) as [_ Htasks]; [eassumption|].
    intros t Ht. rewrite Htasks in Ht.
    assert (Ht' : t ∈ tasks d)
      by (unfold ensure_user_q in Ht; destruct (users d !! user); exact Ht).
    destruct (count_done_insert (t_id t) user (b_tid b) (py_strip content) now
                (ensure_user_q user d) d0) as [Hc _]; [eassumption|].
    rewrite Hc, count_done_ensure_user, waiting_app, waiting_one. cbn [collects].
    rewrite (decide_False (P := None = Some (t_id t))) by discriminate.
    specialize (Hok t Ht').
    erewrite (waiting_delete (t_id t) cs i) in Hok by eassumption. cbn [collects] in Hok.
    destruct (decide (b_tid b = t_id t)) as [Hid|Hne].
    + rewrite decide_True in Hok by congruence. lia.
    + rewrite decide_False in Hok by congruence. lia.
  - apply (roomy_le d cs);
      [apply (tasks_within_same d d); [reflexivity|apply tasks_within_refl]|count_le| |exact Hok].
    intros tid. apply waiting_delete_le.
  - apply bool_decide_eq_true in Hg.
    apply (roomy_le d cs);
      [apply (tasks_within_same d d); [reflexivity|apply tasks_within_refl]| |done|exact Hok].
    intros tid.
    change (count_done tid (add_points_q _ _ (review_q sid approved now d)))
      with (count_done tid (review_q sid approved now d)).
    apply count_done_review_le. intros _ s Hs Hid Hst. apply Hg.
    unfold status_of. cbn [store]. rewrite <- Hst.
    apply list_elem_of_fmap_2, list_elem_of_filter. done.
  - apply (roomy_le d cs);
      [apply (tasks_within_same d d); [reflexivity|apply tasks_within_refl]| |done|exact Hok].
    intros tid. apply count_done_review_le. done.
Qed.

Lemma run_roomy trace w :
  wf w → roomy (store w) (suspended w) →
  orderly py_int py_strip capacity_guard trace w = true →
  roomy (store (run' trace w)) (suspended (run' trace w)).
Proof.
  revert w. induction trace as [|e trace IH]; intros w Hwf Hok Hg; [exact Hok|].
  cbn [orderly] in Hg. apply andb_prop in Hg as [Hg Hrest].
  rewrite run_cons. apply IH; [by apply step_wf|by apply step_roomy|exact Hrest].
Qed.

Lemma roomy_within d cs : roomy d cs → within_capacity d.
Proof. intros H t Ht. specialize (H t Ht). lia. Qed.

(** Archiving: a row keeps its id, stays archived once it is, and is
    archived when its id is among those swept. *)
Lemma archive_row_archived tid t :
  t_id (archive_row tid t) = t_id t
  ∧ (t_archived t = 1 ∨ t_id t = tid → t_archived (archive_row tid t) = 1).
Proof.
  unfold archive_row. destruct (decide (t_id t = tid)); cbn; split; try done.
  intros [?|?]; done.
Qed.

Lemma archive_all_archived ids d t' :
  t' ∈ tasks (archive_all ids d) →
  ∃ t, t ∈ tasks d ∧ t_id t' = t_id t
       ∧ (t_archived t = 1 ∨ t_id t ∈ ids → t_archived t' = 1).
Proof.
  revert d. induction ids as [|i ids IH]; intros d Ht'.
  - exists t'. split; [exact Ht'|split; [done|]]. intros [?|Hin]; [done|inversion Hin].
  - change (archive_all (i :: ids) d) with (archive_all ids (archive_q i d)) in Ht'.
    destruct (IH _ Ht') as (t1 & Ht1 & Hid & Harch).
    apply elem_of_map_task in Ht1 as (t & Ht & ->).
    destruct (archive_row_archived i t) as [Hid' Ha].
    exists t. split; [exact Ht|split; [congruence|]].
    intros [H1|Hin]; apply Harch.
    + left. apply Ha. by left.
    + apply elem_of_cons in Hin as [Heq|Hin]; [left; apply Ha; by right|].
      right. by rewrite Hid'.
Qed.

Lemma submissions_archive_all ids d : submissions (archive_all ids d) = submissions d.
Proof.
  revert d. induction ids as [|i ids IH]; intros d; [done|].
  change (archive_all (i :: ids) d) with (archive_all ids (archive_q i d)).
  by rewrite IH.
Qed.

Lemma swept_archives d r t :
  r ∈ examined d → is_full d r →
  t ∈ tasks (swept d) → t_id t = t_id r → t_archived t = 1.
Proof.
  intros Hr Hfull Ht Hid. apply archive_all_archived in Ht as (t0 & Ht0 & Hid0 & Harch).
  apply Harch. right. rewrite <- Hid0, Hid.
  apply list_elem_of_fmap_2, list_elem_of_filter. done.
Qed.

Lemma drawn_not_full d b :
  b ∈ drawn d → count_done (b_tid b) d < b_max_subs b.
Proof.
  intros (r & -> & Hr)%list_elem_of_fmap_1. apply list_elem_of_filter in Hr as [Hnf _].
  unfold is_full in Hnf. cbn. lia.
Qed.

Lemma step_tasks_cmd_store w author owner :
  store (step' w (TasksCmd author owner)) = swept (store w)
  ∧ (open_tasks_q (store w) ≠ [] →
     views (step' w (TasksCmd author owner)) =
     views w ++ [Board author owner (drawn (store w))]).
Proof.
  destruct w as [d lc vs cs out]. unfold step, step_with. cbn [dispatch store views].
  rewrite tasks_cmd_run. destruct (open_tasks_q d) eqn:E; [|done].
  split; [|done]. unfold swept, examined. rewrite E. reflexivity.
Qed.

Lemma click_on_full w board_msg btn user channel now choice owner buttons b :
  views w !! board_msg = Some (Board user owner buttons) →
  buttons !! btn = Some b →
  is_banned_q user (store w) = false →
  cooldown_remaining (last_click w !! (user, b_tid b)) now = None →
  b_max_subs b ≤ count_done (b_tid b) (store w) →
  let w' := step' w (Click board_msg btn user channel now choice) in
  submissions (store w') = submissions (store w)
  ∧ suspended w' = suspended w
  ∧ QuestFull (b_title b) ∈ outbox w'
  ∧ ∀ t, t ∈ tasks (store w') → t_id t = b_tid b → t_archived t = 1.
Proof.
  intros Hv Hb Hban Hcool Hfull. cbv zeta.
  rewrite (step_click _ _ _ _ _ _ _ _ _ _ _ Hv Hb).
  destruct w as [d lc vs cs out]. cbn [store last_click views suspended outbox] in *.
  unfold clicked. rewrite bool_decide_eq_true_2 by done. cbn [negb].
  rewrite Hban, Hcool. cbv zeta.
  replace (b_max_subs b <=? count_done (b_tid b) d) with true
    by (symmetry; by apply Z.leb_le).
  rewrite refresh_task_board_run, Hv.
  assert (Harch : ∀ t, t ∈ tasks (archive_q (b_tid b) d) → t_id t = b_tid b → t_archived t = 1).
  { intros t' (t & Ht & ->)%elem_of_map_task Hid.
    destruct (archive_row_archived (b_tid b) t) as [Hid' Ha]. apply Ha. right. congruence. }
  destruct owner as [o|]; cbn [store suspended outbox].
  - split; [|split; [done|split]].
    + unfold swept. rewrite submissions_archive_all. reflexivity.
    + destruct (drawn _); [apply elem_of_app; left|]; apply elem_of_app; right; by left.
    + intros t Ht Hid. apply archive_all_archived in Ht as (t0 & Ht0 & Hid0 & Ha).
      apply Ha. left. apply Harch; [exact Ht0|congruence].
  - split; [done|split; [done|split; [apply elem_of_app; right; by left|exact Harch]]].
Qed.


(** ** What the statements keep *)

Lemma kept_refl d : kept d d.
Proof.
  split; try done; try lia.
  - intros t' Ht' _. by exists t'.
  - intros s' Hs' _. by exists s'.
  - intros x Hx. by exists x.
Qed.

Lemma kept_trans d1 d2 d3 : kept d1 d2 → kept d2 d3 → kept d1 d3.
Proof.
  intros [Hb1 Hu1 Ht1 Hs1 Hw1 Hts1 Hss1 Hws1] [Hb2 Hu2 Ht2 Hs2 Hw2 Hts2 Hss2 Hws2].
  split.
  - set_solver.
  - auto.
  - lia.
  - lia.
  - lia.
  - intros t3 Hin Hid. destruct (Hts2 t3 Hin) as (t2 & Hin2 & Hid2 & Ha2); [lia|].
    destruct (Hts1 t2 Hin2) as (t1 & Hin1 & Hid1 & Ha1); [lia|].
    exists t1. split; [done|]. split; [congruence|auto].
  - intros s3 Hin Hid. destruct (Hss2 s3 Hin) as (s2 & Hin2 & E2); [lia|].
    destruct (Hss1 s2 Hin2) as (s1 & Hin1 & E1); [lia|].
    exists s1. split; [done|]. destruct E1 as (?&?&?&?&?), E2 as (?&?&?&?&?).
    repeat split; congruence.
  - intros x1 Hin. destruct (Hws1 x1 Hin) as (x2 & Hin2 & E1).
    destruct (Hws2 x2 Hin2) as (x3 & Hin3 & E2).
    exists x3. split; [done|].
    destruct E1 as (?&?&?&?&?&?&?&?), E2 as (?&?&?&?&?&?&?&?).
    repeat split; try congruence. auto.
Qed.

Lemma kept_map_tasks (f : task → task) d :
  (∀ t, t_id (f t) = t_id t ∧ (t_archived t = 1 → t_archived (f t) = 1)) →
  kept d (set_tasks (fmap f) d).
Proof.
  intros Hf. split; cbn; try done; try lia.
  - intros t' (t & -> & Ht)%list_elem_of_fmap _. exists t.
    destruct (Hf t) as [Hid Ha]. done.
  - intros s' Hs' _. by exists s'.
  - intros x Hx. by exists x.
Qed.

Lemma kept_map_submissions (f : submission → submission) d :
  (∀ s, s_id (f s) = s_id s ∧ s_user_id (f s) = s_user_id s ∧ s_task_id (f s) = s_task_id s
        ∧ s_proof (f s) = s_proof s ∧ s_created_at (f s) = s_created_at s) →
  kept d (set_submissions (fmap f) d).
Proof.
  intros Hf. split; cbn; try done; try lia.
  - intros t' Ht' _. by exists t'.
  - intros s' (s & -> & Hs)%list_elem_of_fmap _. exists s.
    destruct (Hf s) as (?&?&?&?&?). done.
  - intros x Hx. by exists x.
Qed.

Lemma kept_map_withdrawals (f : withdrawal → withdrawal) d :
  (∀ x, w_id (f x) = w_id x ∧ w_user_id (f x) = w_user_id x
        ∧ w_bank_name (f x) = w_bank_name x ∧ w_account_number (f x) = w_account_number x
        ∧ w_account_name (f x) = w_account_name x ∧ w_points (f x) = w_points x
        ∧ w_created_at (f x) = w_created_at x
        ∧ (w_status x = w_completed → w_status (f x) = w_completed)) →
  kept d (set_withdrawals (fmap f) d).
Proof.
  intros Hf. split; cbn; try done; try lia.
  - intros t' Ht' _. by exists t'.
  - intros s' Hs' _. by exists s'.
  - intros x Hx. exists (f x). split; [by apply list_elem_of_fmap_2|apply Hf].
Qed.

Lemma kept_set_users (g : gmap Z Z → gmap Z Z) d :
  (∀ u, is_Some (users d !! u) → is_Some (g (users d) !! u)) →
  kept d (set_users g d).
Proof.
  intros Hg. split; cbn; try done; try lia.
  - intros t' Ht' _. by exists t'.
  - intros s' Hs' _. by exists s'.
  - intros x Hx. by exists x.
Qed.

Lemma kept_archive tid d : kept d (archive_q tid d).
Proof.
  apply kept_map_tasks. intros t. unfold archive_row. destruct (decide _); done.
Qed.

Lemma kept_archive_all ids d : kept d (archive_all ids d).
Proof.
  revert d. induction ids as [|i ids IH]; intros d; [apply kept_refl|].
  cbn. eapply kept_trans; [apply (kept_archive i)|apply IH].
Qed.

Lemma kept_swept d : kept d (swept d).
Proof. apply kept_archive_all. Qed.

Lemma kept_set_link link tid d : kept d (set_link_q link tid d).
Proof.
  apply kept_map_tasks. intros t. unfold set_link_row. destruct (decide _); done.
Qed.

Lemma kept_set_announcement mid tid d : kept d (set_announcement_q mid tid d).
Proof.
  apply kept_map_tasks. intros t. unfold set_announcement_row. destruct (decide _); done.
Qed.

Lemma kept_edit title points max_subs ttype link tid d :
  kept d (edit_q title points max_subs ttype link tid d).
Proof.
  apply kept_map_tasks. intros t. unfold edit_row. destruct (decide _); done.
Qed.

Lemma kept_review sid st now d : kept d (review_q sid st now d).
Proof.
  apply kept_map_submissions. intros s. unfold review_row. destruct (decide _); done.
Qed.

Lemma kept_complete wid d : kept d (complete_q wid d).
Proof.
  apply kept_map_withdrawals. intros x. unfold complete_row. destruct (decide _); done.
Qed.

Lemma kept_ensure_user u d : kept d (ensure_user_q u d).
Proof.
  unfold ensure_user_q. destruct (users d !! u) eqn:E; [apply kept_refl|].
  apply kept_set_users. intros u' Hu'. destruct (decide (u' = u)) as [->|Hne].
  - rewrite lookup_insert_eq. by eexists.
  - by rewrite lookup_insert_ne.
Qed.

Lemma kept_add_points a u d : kept d (add_points_q a u d).
Proof.
  apply kept_set_users. intros u' [p Hp]. destruct (decide (u' = u)) as [->|Hne].
  - rewrite lookup_alter_eq, Hp. by eexists.
  - rewrite lookup_alter_ne by done. by eexists.
Qed.

Lemma kept_sub_points a u d : kept d (sub_points_q a u d).
Proof.
  apply kept_set_users. intros u' [p Hp]. destruct (decide (u' = u)) as [->|Hne].
  - rewrite lookup_alter_eq, Hp. by eexists.
  - rewrite lookup_alter_ne by done. by eexists.
Qed.

Lemma kept_ban u d : kept d (ban_q u d).
Proof.
  split; cbn; try done; try lia.
  - set_solver.
  - intros t' Ht' _. by exists t'.
  - intros s' Hs' _. by exists s'.
  - intros x Hx. by exists x.
Qed.

Lemma kept_insert_task title points max_subs role ttype d :
  kept d (insert_task_q title points max_subs role ttype d).
Proof.
  split; cbn; try done; try lia.
  - intros t' [Ht'|Ht']%elem_of_app Hid; [by exists t'|].
    apply list_elem_of_singleton in Ht' as ->. cbn in Hid. lia.
  - intros s' Hs' _. by exists s'.
  - intros x Hx. by exists x.
Qed.

Lemma kept_insert_task_modal title points max_subs ttype link d :
  kept d (insert_task_modal_q title points max_subs ttype link d).
Proof.
  split; cbn; try done; try lia.
  - intros t' [Ht'|Ht']%elem_of_app Hid; [by exists t'|].
    apply list_elem_of_singleton in Ht' as ->. cbn in Hid. lia.
  - intros s' Hs' _. by exists s'.
  - intros x Hx. by exists x.
Qed.

Lemma kept_insert_submission u tid proof now d d' :
  insert_submission_q u tid proof now d = Some d' → kept d d'.
Proof.
  unfold insert_submission_q. destruct (task_by_id tid d); [|done].
  intros [= <-]. split; cbn; try done; try lia.
  - intros t' Ht' _. by exists t'.
  - intros s' [Hs'|Hs']%elem_of_app Hid; [by exists s'|].
    apply list_elem_of_singleton in Hs' as ->. cbn in Hid. lia.
  - intros x Hx. by exists x.
Qed.

Lemma kept_insert_withdrawal u bank number name p now d :
  kept d (insert_withdrawal_q u bank number name p now d).
Proof.
  split; cbn; try done; try lia.
  - intros t' Ht' _. by exists t'.
  - intros s' Hs' _. by exists s'.
  - intros x Hx. exists x. split; [apply elem_of_app; by left|done].
Qed.

Lemma kept_delete_submissions tid d : kept d (delete_submissions_q tid d).
Proof.
  split; cbn; try done; try lia.
  - intros t' Ht' _. by exists t'.
  - intros s' [_ Hs']%list_elem_of_filter _. by exists s'.
  - intros x Hx. by exists x.
Qed.

Lemma kept_delete_task tid d : kept d (delete_task_q tid d).
Proof.
  split; cbn; try done; try lia.
  - intros t' [_ Ht']%list_elem_of_filter _. by exists t'.
  - intros s' Hs' _. by exists s'.
  - intros x Hx. by exists x.
Qed.

Lemma kept_then (f : db → db) d0 d : (∀ d, kept d (f d)) → kept d0 d → kept d0 (f d).
Proof. intros Hf H. eapply kept_trans; [exact H|apply Hf]. Qed.

(** ** The bot with its panel: what every step keeps *)

Variable py_lower : string → string.

Abbreviation panel_step' := (panel_step py_int py_strip py_lower).
Abbreviation panel_run' := (panel_run py_int py_strip py_lower).

Ltac kept_chain :=
  repeat first
    [ apply kept_refl
    | eapply kept_trans;
      [|first [ apply kept_archive | apply kept_archive_all | apply kept_swept
              | apply kept_set_link | apply kept_set_announcement | apply kept_edit
              | apply kept_review | apply kept_complete | apply kept_ensure_user
              | apply kept_add_points | apply kept_sub_points | apply kept_ban
              | apply kept_insert_task | apply kept_insert_task_modal
              | apply kept_insert_withdrawal | apply kept_delete_submissions
              | apply kept_delete_task
              | eapply kept_insert_submission; eassumption ]] ].

Lemma step_kept w e : kept (store w) (store (step' w e)).
Proof.
  unfold step, step_with.
  destruct (dispatch py_int py_strip e w) as [m w0] eqn:Hd.
  assert (Hw0 : store w0 = store w
                ∧ wp m (λ _ w', kept (store w) (store w'))
                       (λ w', kept (store w) (store w')) w0).
  2:{ destruct Hw0 as [_ Hwp]. apply (wp_after m (λ w', kept (store w) (store w'))), Hwp. }
  destruct e; cbn [dispatch] in Hd;
    repeat match type of Hd with
           | context [match ?x with _ => _ end] => destruct x eqn:?
           end;
    injection Hd as Hm Hw; subst m w0;
    (split; [reflexivity|]);
    destruct w as [d lc vs cs out]; unfold unpark;
    cbn [store last_click views suspended outbox];
    wp_run; cbn [store]; kept_chain.
Qed.

Lemma add_task_modal_kept title pi mi ti li w :
  kept (store w) (store (after (add_task_modal py_int py_lower title pi mi ti li) None w)).
Proof.
  apply (wp_after _ (λ w', kept (store w) (store w'))).
  destruct w as [d lc vs cs out]. cbn [store].
  unfold add_task_modal. destruct (quest_fields _ _ _ _ _) as [[[points max_subs] ttype]|];
    wp_run; cbn [store]; kept_chain.
Qed.

Lemma edit_task_modal_kept tid title pi mi ti li w :
  kept (store w) (store (after (edit_task_modal py_int py_lower tid title pi mi ti li) None w)).
Proof.
  apply (wp_after _ (λ w', kept (store w) (store w'))).
  destruct w as [d lc vs cs out]. cbn [store].
  unfold edit_task_modal. destruct (quest_fields _ _ _ _ _) as [[[points max_subs] ttype]|];
    wp_run; cbn [store]; kept_chain.
Qed.

Lemma panel_step_kept w e : kept (store w) (store (panel_step' w e)).
Proof.
  destruct e; cbn [panel_step];
    [apply step_kept|apply add_task_modal_kept|apply edit_task_modal_kept].
Qed.

Lemma panel_run_cons e t w : panel_run' (e :: t) w = panel_run' t (panel_step' w e).
Proof. reflexivity. Qed.

Lemma panel_run_app t1 t2 w : panel_run' (t1 ++ t2) w = panel_run' t2 (panel_run' t1 w).
Proof. apply foldl_app. Qed.

Lemma panel_run_kept trace w : kept (store w) (store (panel_run' trace w)).
Proof.
  revert w. induction trace as [|e trace IH]; intros w; [apply kept_refl|].
  rewrite panel_run_cons. eapply kept_trans; [apply panel_step_kept|apply IH].
Qed.

(** ** The bot with its panel: the store stays well formed *)

Ltac advance_chain :=
  repeat first
    [ apply advances_refl | apply advances_archive | apply advances_archive_all
    | apply advances_swept | apply advances_set_link | apply advances_set_announcement
    | apply advances_ban | apply advances_insert_withdrawal | apply advances_complete
    | apply advances_add_points | apply advances_sub_points | apply advances_ensure_user
    | apply advances_review | apply advances_insert_task | apply advances_remove
    | (eapply advances_insert_submission; [|eassumption|]; [apply ensure_user_has|]) ].

Lemma step_advances w e : advances (store w) (store (step' w e)).
Proof.
  unfold step, step_with.
  destruct (dispatch py_int py_strip e w) as [m w0] eqn:Hd.
  assert (Hw0 : store w0 = store w
                ∧ wp m (λ _ w', advances (store w) (store w'))
                       (λ w', advances (store w) (store w')) w0).
  2:{ destruct Hw0 as [_ Hwp].
      apply (wp_after m (λ w', advances (store w) (store w'))), Hwp. }
  destruct e; cbn [dispatch] in Hd;
    repeat match type of Hd with
           | context [match ?x with _ => _ end] => destruct x eqn:?
           end;
    injection Hd as Hm Hw; subst m w0;
    (split; [reflexivity|]);
    destruct w as [d lc vs cs out]; unfold unpark;
    cbn [store last_click views suspended outbox];
    wp_run; cbn [store]; advance_chain.
Qed.

Lemma store_wf_map_tasks (f : task → task) d :
  (∀ t, t_id (f t) = t_id t) → store_wf d → store_wf (set_tasks (fmap f) d).
Proof.
  intros Hf [(Hn & Hlt & Hs) Hk]. split; [split; [|split; [|exact Hs]]|];
    cbn [tasks set_tasks tasks_seq submissions users].
  - replace (t_id <$> (f <$> tasks d)) with (t_id <$> tasks d); [exact Hn|].
    rewrite <- list_fmap_compose. apply list_fmap_ext. intros i t _. cbn. by rewrite Hf.
  - intros t' (t & Ht & ->)%elem_of_map_task. rewrite Hf. auto.
  - intros s Hs'. destruct (Hk s Hs') as (Hu & t & Ht & Hid). split; [exact Hu|].
    exists (f t). split; [apply list_elem_of_fmap_2, Ht|]. by rewrite Hf.
Qed.

Lemma store_wf_edit title points max_subs ttype link tid d :
  store_wf d → store_wf (edit_q title points max_subs ttype link tid d).
Proof.
  apply store_wf_map_tasks. intros t. unfold edit_row. destruct (decide _); done.
Qed.

Lemma store_wf_set_announcement mid tid d :
  store_wf d → store_wf (set_announcement_q mid tid d).
Proof.
  apply store_wf_map_tasks. intros t. unfold set_announcement_row. destruct (decide _); done.
Qed.

Lemma store_wf_insert_task_modal title points max_subs ttype link d :
  store_wf d → store_wf (insert_task_modal_q title points max_subs ttype link d).
Proof.
  intros [(Hn & Hlt & Hsn & Hslt) Hk].
  split; [split; [|split; [|split; [exact Hsn|exact Hslt]]]|].
  - cbn [tasks insert_task_modal_q]. rewrite fmap_app. apply NoDup_app. split; [exact Hn|].
    split; [|apply NoDup_singleton].
    intros i (t & -> & Ht)%list_elem_of_fmap_1 Hi. cbn in Hi.
    apply list_elem_of_singleton in Hi. specialize (Hlt t Ht). lia.
  - cbn [tasks tasks_seq insert_task_modal_q]. intros t [Ht|Ht]%elem_of_app.
    + specialize (Hlt t Ht). lia.
    + apply list_elem_of_singleton in Ht as ->. cbn. lia.
  - intros s Hs. destruct (Hk s Hs) as (Hu & t & Ht & Hid). split; [exact Hu|].
    exists t. split; [|exact Hid]. cbn [tasks insert_task_modal_q]. apply elem_of_app. by left.
Qed.

Lemma panel_step_store_wf w e : store_wf (store w) → store_wf (store (panel_step' w e)).
Proof.
  intros Hwf. destruct e; cbn [panel_step].
  - by apply (step_advances w e).
  - apply (wp_after _ (λ w', store_wf (store w'))).
    destruct w as [d lc vs cs out]. cbn [store] in *.
    unfold add_task_modal. destruct (quest_fields _ _ _ _ _) as [[[points max_subs] ttype]|];
      wp_run; cbn [store];
      auto using store_wf_insert_task_modal, store_wf_set_announcement.
  - apply (wp_after _ (λ w', store_wf (store w'))).
    destruct w as [d lc vs cs out]. cbn [store] in *.
    unfold edit_task_modal. destruct (quest_fields _ _ _ _ _) as [[[points max_subs] ttype]|];
      wp_run; cbn [store]; auto using store_wf_edit.
Qed.

Lemma panel_run_store_wf trace w :
  store_wf (store w) → store_wf (store (panel_run' trace w)).
Proof.
  revert w. induction trace as [|e trace IH]; intros w Hwf; [exact Hwf|].
  rewrite panel_run_cons. apply IH, panel_step_store_wf, Hwf.
Qed.

Lemma store_wf_init : store_wf (store init).
Proof. destruct wf_init as (Hi & Hk & _). by split. Qed.

(** X1. The keys of the store hold along every run of the bot and its
    panel from the empty store: the ids of the tasks are distinct and below
    the next value of their sequence, so are the ids of the submissions, and
    every submission has a row for its user and a task with its task id (the
    foreign key of the table is never violated, quests being removed with
    their submissions). *)
Theorem panel_run_keys_hold (trace : list panel_event) :
  fresh_ids (store (panel_run' trace init))
  ∧ references_kept (store (panel_run' trace init)).
Proof. apply (panel_run_store_wf trace init store_wf_init). Qed.

Lemma same_task d t1 t2 :
  store_wf d → t1 ∈ tasks d → t2 ∈ tasks d → t_id t1 = t_id t2 → t1 = t2.
Proof. intros [(Hn & _) _] H1 H2 Hid. by apply (NoDup_fmap_same t_id (tasks d)). Qed.

Lemma same_submission d s1 s2 :
  store_wf d → s1 ∈ submissions d → s2 ∈ submissions d → s_id s1 = s_id s2 → s1 = s2.
Proof.
  intros [(_ & _ & Hn & _) _] H1 H2 Hid. by apply (NoDup_fmap_same s_id (submissions d)).
Qed.

(** X2. Archiving is for good and a task id is used once.  From any state
    with distinct task ids, whatever the bot and its panel do next: a task
    that is still in the table with the id of a task that was archived is
    archived, and a task whose id is below the earlier value of the sequence
    was in the table then (the id of a removed quest does not come back). *)
Theorem archived_is_permanent (w : world) (trace : list panel_event) (t' : task) :
  store_wf (store w) →
  t' ∈ tasks (store (panel_run' trace w)) →
  t_id t' < tasks_seq (store w) →
  (∃ t, t ∈ tasks (store w) ∧ t_id t = t_id t')
  ∧ ∀ t, t ∈ tasks (store w) → t_id t = t_id t' → t_archived t = 1 → t_archived t' = 1.
Proof.
  intros Hwf Ht' Hid.
  destruct (kept_tasks _ _ (panel_run_kept trace w) t' Ht' Hid) as (t0 & Ht0 & Hid0 & Ha).
  split; [by exists t0|]. intros t Ht Heq Harch.
  assert (t = t0) as -> by (apply (same_task (store w)); [done..|congruence]).
  auto.
Qed.

(** X3. What a submission says stays.  From any state with distinct
    submission ids, whatever the bot and its panel do next: a submission
    that is in the table later with an id below the earlier value of the
    sequence was in the table then, with the same user, task, proof and
    creation time; only its status and review time can have changed. *)
Theorem submission_facts_stay (w : world) (trace : list panel_event) (s' : submission) :
  store_wf (store w) →
  s' ∈ submissions (store (panel_run' trace w)) →
  s_id s' < submissions_seq (store w) →
  ∃ s, s ∈ submissions (store w)
       ∧ (∀ s0, s0 ∈ submissions (store w) → s_id s0 = s_id s' → s0 = s)
       ∧ s_id s = s_id s' ∧ s_user_id s = s_user_id s' ∧ s_task_id s = s_task_id s'
       ∧ s_proof s = s_proof s' ∧ s_created_at s = s_created_at s'.
Proof.
  intros Hwf Hs' Hid.
  destruct (kept_submissions _ _ (panel_run_kept trace w) s' Hs' Hid) as (s & Hs & Hids & E).
  exists s. split; [done|]. split; [|by split].
  intros s0 Hs0 Heq. apply (same_submission (store w)); [done..|congruence].
Qed.

(** X4. A withdrawal request is never deleted and never altered.
    Whatever the bot and its panel do after a request is in the table, the
    table still has a request with its id, user, bank details, amount and
    creation time, and a completed request stays completed; the sequence of
    the table does not go back. *)
Theorem withdrawal_requests_stay (w : world) (trace : list panel_event) (x : withdrawal) :
  x ∈ withdrawals (store w) →
  withdrawals_seq (store w) ≤ withdrawals_seq (store (panel_run' trace w))
  ∧ ∃ x', x' ∈ withdrawals (store (panel_run' trace w))
          ∧ w_id x' = w_id x ∧ w_user_id x' = w_user_id x
          ∧ w_bank_name x' = w_bank_name x ∧ w_account_number x' = w_account_number x
          ∧ w_account_name x' = w_account_name x ∧ w_points x' = w_points x
          ∧ w_created_at x' = w_created_at x
          ∧ (w_status x = w_completed → w_status x' = w_completed).
Proof.
  intros Hx. pose proof (panel_run_kept trace w) as Hk.
  split; [apply Hk|]. by apply (kept_withdrawals _ _ Hk).
Qed.

(** X5. A ban is for good.  Once a user is in the table of banned users,
    whatever the bot and its panel do next, the user is still banned, and
    every click of that user on a quest button of any board is refused: it
    writes nothing, records no click time and enters no wait; the answer is
    that the user is banned (or, on a board called by someone else, that
    only the caller can use it). *)
Theorem ban_is_permanent (w : world) (trace : list panel_event) (user : Z) :
  is_banned_q user (store w) = true →
  is_banned_q user (store (panel_run' trace w)) = true
  ∧ ∀ board_msg btn channel now choice ctx_author owner buttons b,
      views (panel_run' trace w) !! board_msg = Some (Board ctx_author owner buttons) →
      buttons !! btn = Some b →
      step' (panel_run' trace w) (Click board_msg btn user channel now choice)
      = World (store (panel_run' trace w)) (last_click (panel_run' trace w))
              (views (panel_run' trace w)) (suspended (panel_run' trace w))
              (outbox (panel_run' trace w)
                 ++ [if bool_decide (user = ctx_author) then YouAreBanned else OnlyCaller]).
Proof.
  intros Hb.
  assert (Hb' : is_banned_q user (store (panel_run' trace w)) = true).
  { unfold is_banned_q in *. apply bool_decide_eq_true in Hb.
    apply bool_decide_eq_true. by apply (kept_banned _ _ (panel_run_kept trace w)). }
  split; [exact Hb'|].
  intros board_msg btn channel now choice ctx_author owner buttons b Hv Hbtn.
  rewrite (step_click _ _ _ _ _ _ _ _ _ _ _ Hv Hbtn).
  destruct (panel_run' trace w) as [d lc vs cs out]. cbn [store] in Hb'.
  unfold clicked. cbn [store last_click views suspended outbox].
  case_bool_decide; cbn [negb]; [|reflexivity]. by rewrite Hb'.
Qed.

(** ** The board after a submission *)

Lemma step_completed w i board_msg :
  suspended w !! i = Some (Recorded board_msg) →
  step' w (Completed i) = after (refresh_task_board board_msg) None (unpark i w).
Proof. intros Hc. unfold step, step_with, dispatch. rewrite Hc. reflexivity. Qed.

(** X6. After a submission the board is drawn again and changes hands.
    The refresh finds no interaction on the board message and binds the new
    buttons to the owner of the guild: the board then shows a button for each
    of the first ten open quests with room, full quests among them are
    archived, and from then on a click by anyone but the owner, the member
    who called the board included, is answered that only the caller can use
    the button, and changes nothing.  With no owner known the refresh leaves
    the board and the store as they are. *)
Theorem refreshed_board_answers_to_owner (w : world) (i board_msg : nat) (a : Z)
    (owner : option Z) (bs : list button) :
  suspended w !! i = Some (Recorded board_msg) →
  views w !! board_msg = Some (Board a owner bs) →
  let w' := step' w (Completed i) in
  suspended w' = delete i (suspended w)
  ∧ last_click w' = last_click w
  ∧ match owner with
    | None => store w' = store w ∧ views w' = views w ∧ outbox w' = outbox w
    | Some o =>
        store w' = swept (store w)
        ∧ views w' = <[board_msg := Board o (Some o) (drawn (store w))]> (views w)
        ∧ ∀ btn b user channel now choice,
            drawn (store w) !! btn = Some b → user ≠ o →
            step' w' (Click board_msg btn user channel now choice)
            = World (store w') (last_click w') (views w') (suspended w')
                    (outbox w' ++ [OnlyCaller])
    end.
Proof.
  intros Hc Hv w'. subst w'. rewrite (step_completed w i board_msg Hc).
  destruct w as [d lc vs cs out]. unfold unpark.
  cbn [store last_click views suspended outbox] in *.
  rewrite refresh_task_board_run, Hv.
  destruct owner as [o|]; cbn [store last_click views suspended outbox]; [|done].
  split; [done|]. split; [done|]. split; [done|]. split; [done|].
  intros btn b user channel now choice Hb Hne.
  erewrite step_click; cycle 1.
  - cbn [views]. apply list_lookup_insert_eq. by eapply lookup_lt_Some.
  - exact Hb.
  - unfold clicked. rewrite bool_decide_eq_false_2 by done. reflexivity.
Qed.

(** ** The proof of a submission *)


(** ** A message whose buttons were taken away *)

Ltac closed_views :=
  cbn [views];
  repeat first
    [ assumption
    | rewrite list_lookup_insert_ne by congruence
    | rewrite list_lookup_insert_ne
        by (intros <-;
            match goal with
            | H : ?vs !! length ?vs = Some _ |- _ =>
                apply lookup_lt_Some in H; lia
            end)
    | rewrite lookup_app_l by (eapply lookup_lt_Some; eassumption) ].

Lemma step_closed w e msg :
  views w !! msg = Some Closed → views (step' w e) !! msg = Some Closed.
Proof.
  intros Hclosed. unfold step, step_with.
  destruct (dispatch py_int py_strip e w) as [m w0] eqn:Hd.
  assert (Hw0 : views w0 = views w
                ∧ wp m (λ _ w', views w' !! msg = Some Closed)
                       (λ w', views w' !! msg = Some Closed) w0).
  2:{ destruct Hw0 as [_ Hwp].
      apply (wp_after m (λ w', views w' !! msg = Some Closed)), Hwp. }
  destruct e; cbn [dispatch] in Hd;
    repeat match type of Hd with
           | context [match ?x with _ => _ end] => destruct x eqn:?
           end;
    injection Hd as Hm Hw; subst m w0;
    (split; [reflexivity|]);
    destruct w as [d lc vs cs out]; unfold unpark;
    cbn [store last_click views suspended outbox] in *;
    wp_run; closed_views.
Qed.

Lemma panel_step_closed w e msg :
  views w !! msg = Some Closed → views (panel_step' w e) !! msg = Some Closed.
Proof.
  intros Hclosed. destruct e; cbn [panel_step]; [by apply step_closed| |];
    apply (wp_after _ (λ w', views w' !! msg = Some Closed));
    destruct w as [d lc vs cs out]; cbn [views] in *.
  - unfold add_task_modal. destruct (quest_fields _ _ _ _ _) as [[[points max_subs] ttype]|];
      wp_run; closed_views.
  - unfold edit_task_modal. destruct (quest_fields _ _ _ _ _) as [[[points max_subs] ttype]|];
      wp_run; closed_views.
Qed.

Lemma panel_run_closed trace w msg :
  views w !! msg = Some Closed → views (panel_run' trace w) !! msg = Some Closed.
Proof.
  revert w. induction trace as [|e trace IH]; intros w Hc; [exact Hc|].
  rewrite panel_run_cons. apply IH, panel_step_closed, Hc.
Qed.

Lemma closed_is_inert w msg :
  views w !! msg = Some Closed →
  (∀ now, step' w (Approve msg now) = w ∧ step' w (Reject msg now) = w)
  ∧ (∀ administrator, step' w (ApproveWithdrawal msg administrator) = w)
  ∧ (∀ user channel, step' w (WithdrawClick msg user channel) = w)
  ∧ (∀ btn user channel now choice, step' w (Click msg btn user channel now choice) = w)
  ∧ (∀ opt, step' w (Select msg opt) = w).
Proof.
  intros Hc. unfold step, step_with, dispatch. rewrite Hc.
  destruct w. repeat split.
Qed.

(** ** Approve and Reject *)

Lemma step_approve w msg sid row now :
  views w !! msg = Some (Review sid row) →
  step' w (Approve msg now)
  = World (add_points_q (r_task_points row) (s_user_id (r_sub row))
             (review_q sid approved now (store w)))
          (last_click w) (<[msg := Closed]> (views w)) (suspended w)
          (outbox w ++ [ApprovedNotice (s_user_id (r_sub row))
                          (task_title_q (s_task_id (r_sub row)) (store w))
                          (r_task_points row)]).
Proof.
  intros Hv. unfold step, step_with, dispatch. rewrite Hv.
  destruct w as [d lc vs cs out]. unfold approve_cb. eval_handler. reflexivity.
Qed.

Lemma step_reject w msg sid row now :
  views w !! msg = Some (Review sid row) →
  step' w (Reject msg now)
  = World (review_q sid rejected now (store w))
          (last_click w) (<[msg := Closed]> (views w)) (suspended w)
          (outbox w ++ [RejectedNotice (s_user_id (r_sub row))
                          (task_title_q (s_task_id (r_sub row)) (store w))]).
Proof.
  intros Hv. unfold step, step_with, dispatch. rewrite Hv.
  destruct w as [d lc vs cs out]. unfold reject_cb. eval_handler. reflexivity.
Qed.

(** X8. What Approve does, and that a review message does it once.  The
    button marks every submission with the id of the message approved, with
    the time of the press, and adds to the balance of the user the message
    was opened for the points the task had when the message was opened; no
    other balance and no other submission changes.  The message then loses
    its buttons, for good: after anything the bot and its panel do, Approve
    or Reject on that message does nothing. *)
Theorem approve_cb_credits_once (w : world) (msg : nat) (sid : Z) (row : review_row_t)
    (now : Z) :
  views w !! msg = Some (Review sid row) →
  let user := s_user_id (r_sub row) in
  let w' := step' w (Approve msg now) in
  (∀ p, users (store w) !! user = Some p →
        users (store w') !! user = Some (p + r_task_points row))
  ∧ (∀ u, u ≠ user → users (store w') !! u = users (store w) !! u)
  ∧ submissions (store w') = review_row sid approved now <$> submissions (store w)
  ∧ (∀ s, s ∈ submissions (store w') → s_id s = sid →
          s_status s = approved ∧ s_reviewed_at s = Some now)
  ∧ (∀ s, s ∈ submissions (store w) → s_id s ≠ sid → s ∈ submissions (store w'))
  ∧ tasks (store w') = tasks (store w)
  ∧ withdrawals (store w') = withdrawals (store w)
  ∧ ∀ trace now',
      step' (panel_run' trace w') (Approve msg now') = panel_run' trace w'
      ∧ step' (panel_run' trace w') (Reject msg now') = panel_run' trace w'.
Proof.
  intros Hv user w'. subst user w'. rewrite (step_approve w msg sid row now Hv).
  cbn [store]. unfold add_points_q, review_q. cbn [users submissions tasks withdrawals
    set_users set_submissions].
  split; [|split; [|split; [|split; [|split; [|split; [|split]]]]]]; try reflexivity.
  - intros p Hp. by rewrite lookup_alter_eq, Hp.
  - intros u Hu. by rewrite lookup_alter_ne.
  - intros s' (s & -> & Hs)%list_elem_of_fmap Hid. unfold review_row in *.
    destruct (decide (s_id s = sid)); [done|]. done.
  - intros s Hs Hid. apply list_elem_of_fmap. exists s. split; [|done].
    unfold review_row. by rewrite decide_False.
  - intros trace now'.
    apply (closed_is_inert (panel_run' trace _) msg), panel_run_closed.
    cbn [views]. apply list_lookup_insert_eq. by eapply lookup_lt_Some.
Qed.

(** X9. What Reject does.  The button marks every submission with the id
    of the message rejected, with the time of the press; no balance changes,
    no task and no withdrawal, and the slot the submission held counts no
    more.  The message loses its buttons for good, as after Approve. *)
Theorem reject_cb_takes_no_points (w : world) (msg : nat) (sid : Z) (row : review_row_t)
    (now : Z) :
  views w !! msg = Some (Review sid row) →
  let w' := step' w (Reject msg now) in
  users (store w') = users (store w)
  ∧ submissions (store w') = review_row sid rejected now <$> submissions (store w)
  ∧ (∀ s, s ∈ submissions (store w') → s_id s = sid →
          s_status s = rejected ∧ s_reviewed_at s = Some now)
  ∧ (∀ s, s ∈ submissions (store w) → s_id s ≠ sid → s ∈ submissions (store w'))
  ∧ (∀ tid, count_done tid (store w') ≤ count_done tid (store w))
  ∧ tasks (store w') = tasks (store w)
  ∧ withdrawals (store w') = withdrawals (store w)
  ∧ ∀ trace now',
      step' (panel_run' trace w') (Approve msg now') = panel_run' trace w'
      ∧ step' (panel_run' trace w') (Reject msg now') = panel_run' trace w'.
Proof.
  intros Hv w'. subst w'. rewrite (step_reject w msg sid row now Hv).
  cbn [store]. unfold review_q. cbn [users submissions tasks withdrawals set_submissions].
  split; [|split; [|split; [|split; [|split; [|split; [|split]]]]]]; try reflexivity.
  - intros s' (s & -> & Hs)%list_elem_of_fmap Hid. unfold review_row in *.
    destruct (decide (s_id s = sid)); [done|]. done.
  - intros s Hs Hid. apply list_elem_of_fmap. exists s. split; [|done].
    unfold review_row. by rewrite decide_False.
  - intros tid. apply (count_done_review_le tid sid rejected now (store w)). done.
  - intros trace now'.
    apply (closed_is_inert (panel_run' trace _) msg), panel_run_closed.
    cbn [views]. apply list_lookup_insert_eq. by eapply lookup_lt_Some.
Qed.

(** ** A withdrawal that goes through *)

(** X10. A withdrawal of a valid amount.  When the amount entered parses
    as an integer of at least 1000 and at most the balance read at the click,
    the four answers end with the debit of exactly that amount from the
    user's row and one new request, pending, with the next id and the three
    answers as bank details; the announced balance is the balance read at
    the click minus the amount and is not negative; the request is posted
    with its buttons, no other balance changes, and the negotiation leaves no
    wait behind. *)
Theorem withdraw_cb_debits (w : world) (msg : nat) (member user channel : Z)
    (bank number name content : string) (amount t1 t2 t3 t4 : Z) :
  views w !! msg = Some (Profile member true) →
  py_int content = Some amount →
  1000 ≤ amount ≤ get_user_points_q user (store w) →
  let balance := get_user_points_q user (store w) in
  let w' := run' (negotiation msg (length (suspended w)) user channel
                    bank number name content t1 t2 t3 t4) w in
  users (store w') !! user = Some (balance - amount)
  ∧ 0 ≤ balance - amount
  ∧ (∀ u, u ≠ user → users (store w') !! u = users (store w) !! u)
  ∧ withdrawals (store w')
    = withdrawals (store w)
      ++ [Withdrawal (withdrawals_seq (store w)) user bank number name amount w_pending t4]
  ∧ withdrawals_seq (store w') = withdrawals_seq (store w) + 1
  ∧ tasks (store w') = tasks (store w)
  ∧ submissions (store w') = submissions (store w)
  ∧ views w' = views w ++ [Payout (withdrawals_seq (store w)) amount]
  ∧ suspended w' = suspended w
  ∧ outbox w'
    = outbox w ++ [AskBankName; AskAccountNumber; AskAccountName; AskPoints;
                   WithdrawalSent amount (balance - amount)].
Proof.
  intros Hv Hparse [Hmin Hmax] balance w'. subst balance w'.
  destruct w as [d lc vs cs out]. cbn [store views suspended outbox] in *.
  unfold negotiation. rewrite run_cons, (step_withdraw_click _ _ _ _ _ _ _ _ _ Hv).
  replace (get_user_points_q user d <? 1000) with false by (symmetry; apply Z.ltb_ge; lia).
  rewrite answers_reach_commit. unfold withdraw_cb_commit. rewrite Hparse.
  replace (amount <=? 0) with false by (symmetry; apply Z.leb_gt; lia).
  replace (amount <? 1000) with false by (symmetry; apply Z.ltb_ge; lia).
  replace (get_user_points_q user d <? amount) with false by (symmetry; apply Z.ltb_ge; lia).
  eval_handler. cbn [store views suspended outbox users withdrawals withdrawals_seq tasks
    submissions sub_points_q insert_withdrawal_q set_users].
  assert (Hrow : users d !! user = Some (get_user_points_q user d)).
  { unfold get_user_points_q in *. destruct (users d !! user); [done|lia]. }
  split; [by rewrite lookup_alter_eq, Hrow|]. split; [lia|].
  split; [intros u Hu; by rewrite lookup_alter_ne|].
  repeat split. by rewrite <- !app_assoc.
Qed.

(** ** The approval of a withdrawal *)

(** X11. The Approve button of a withdrawal request.  Pressed by someone
    who is not an administrator it only answers so; the request and its
    buttons stay.  Pressed by an administrator it sets the status of the
    request to completed and touches nothing else: no balance changes (the
    debit was made when the request was sent), no other request changes.
    The message then loses its buttons for good, so the button works
    once. *)
Theorem approve_withdrawal_cb_completes (w : world) (msg : nat) (wid points : Z) :
  views w !! msg = Some (Payout wid points) →
  step' w (ApproveWithdrawal msg false)
  = World (store w) (last_click w) (views w) (suspended w) (outbox w ++ [MustBeAdministrator])
  ∧ let w' := step' w (ApproveWithdrawal msg true) in
    users (store w') = users (store w)
    ∧ tasks (store w') = tasks (store w)
    ∧ submissions (store w') = submissions (store w)
    ∧ withdrawals (store w') = complete_row wid <$> withdrawals (store w)
    ∧ (∀ x, x ∈ withdrawals (store w') → w_id x = wid → w_status x = w_completed)
    ∧ (∀ x, x ∈ withdrawals (store w) → w_id x ≠ wid → x ∈ withdrawals (store w'))
    ∧ outbox w' = outbox w ++ [WithdrawalApproved wid points]
    ∧ ∀ trace administrator,
        step' (panel_run' trace w') (ApproveWithdrawal msg administrator)
        = panel_run' trace w'.
Proof.
  intros Hv. unfold step at 1 2, step_with, dispatch. rewrite Hv.
  destruct w as [d lc vs cs out]. unfold approve_withdrawal_cb. eval_handler.
  cbn [negb store views outbox users tasks submissions withdrawals complete_q
       set_withdrawals] in *.
  split; [reflexivity|]. repeat split.
  - intros x (x0 & -> & Hx)%list_elem_of_fmap Hid. unfold complete_row in *.
    destruct (decide (w_id x0 = wid)); done.
  - intros x Hx Hid. apply list_elem_of_fmap. exists x. split; [|done].
    unfold complete_row. by rewrite decide_False.
  - intros trace administrator.
    apply (closed_is_inert (panel_run' trace _) msg), panel_run_closed.
    cbn [views]. apply list_lookup_insert_eq. by eapply lookup_lt_Some.
Qed.

(** ** The review menu *)

Lemma review_select_q_spec sid d :
  store_wf d →
  match review_select_q sid d with
  | Some r =>
      r_sub r ∈ submissions d ∧ s_id (r_sub r) = sid
      ∧ ∃ t, t ∈ tasks d ∧ t_id t = s_task_id (r_sub r)
             ∧ r_title r = t_title t ∧ r_task_points r = t_points t
  | None => ∀ s, s ∈ submissions d → s_id s ≠ sid
  end.
Proof.
  intros [Hf Hk]. unfold review_select_q.
  destruct (head (filter (λ s, s_id s = sid) (submissions d))) as [s|] eqn:Hs; cbn.
  - apply head_Some_elem_of, list_elem_of_filter in Hs as [Hid Hs].
    destruct (Hk s Hs) as (_ & t & Ht & Htid).
    destruct (task_by_id_is_Some (s_task_id s) d t Ht Htid) as [t' Ht'].
    rewrite Ht'. cbn. apply task_by_id_Some in Ht' as [Hin Hid'].
    split; [done|]. split; [done|]. by exists t'.
  - intros s Hin Hid.
    assert (s ∈ filter (λ s, s_id s = sid) (submissions d))
      by (by apply list_elem_of_filter).
    destruct (filter _ (submissions d)); [by apply elem_of_nil in H|done].
Qed.

(** X12. The review menu and what picking from it does.  The menu offers
    at most 25 ids, each of a pending submission, and with no pending
    submission there is no menu.  Picking an id reads the submission again:
    only when it is still there and still pending is a review message with
    the two buttons opened, for that submission, with the title and the
    points its task has now; a submission reviewed or removed since the menu
    was drawn is answered as no longer pending.  Neither step writes to the
    store. *)
Theorem review_menu_reads_again (w : world) :
  store_wf (store w) →
  (let w' := step' w ReviewCmd in
   store w' = store w
   ∧ (length (pending_q (store w)) ≤ 25)%nat
   ∧ (∀ sid, sid ∈ pending_q (store w) →
        ∃ s, s ∈ submissions (store w) ∧ s_id s = sid ∧ s_status s = pending)
   ∧ match pending_q (store w) with
     | [] => views w' = views w ∧ outbox w' = outbox w ++ [NoPending]
     | ids => views w' = views w ++ [Menu ids]
     end)
  ∧ ∀ menu options opt sid,
      views w !! menu = Some (Menu options) → options !! opt = Some sid →
      let w' := step' w (Select menu opt) in
      store w' = store w
      ∧ ((∃ s t, s ∈ submissions (store w) ∧ s_id s = sid ∧ s_status s = pending
                 ∧ t ∈ tasks (store w) ∧ t_id t = s_task_id s
                 ∧ views w' = views w ++ [Review sid (ReviewRow s (t_title t) (t_points t))]
                 ∧ outbox w' = outbox w)
         ∨ ((∀ s, s ∈ submissions (store w) → s_id s = sid → s_status s ≠ pending)
            ∧ views w' = views w ∧ outbox w' = outbox w ++ [NoLongerPending])).
Proof.
  intros Hwf. split.
  - cbv zeta. unfold step, step_with, dispatch, review_cmd.
    destruct w as [d lc vs cs out]. eval_handler. cbn [store] in *.
    split; [by destruct (pending_q d)|]. split; [|split].
    + unfold pending_q. rewrite length_fmap, length_take. lia.
    + intros sid Hsid. unfold pending_q in Hsid.
      apply list_elem_of_fmap in Hsid as (s & -> & Hs).
      apply subseteq_take, list_elem_of_filter in Hs as [[Hp _] Hs]. by exists s.
    + by destruct (pending_q d).
  - intros menu options opt sid Hv Hopt. cbv zeta.
    unfold step, step_with, dispatch. rewrite Hv, Hopt. unfold select_callback.
    destruct w as [d lc vs cs out]. eval_handler. cbn [store views outbox] in *.
    pose proof (review_select_q_spec sid d Hwf) as Hspec.
    destruct (review_select_q sid d) as [[s title points]|];
      cbn [r_sub r_title r_task_points] in *.
    + destruct Hspec as (Hs & Hid & t & Ht & Htid & -> & ->).
      case_bool_decide as Hp; eval_handler; cbn [store views outbox].
      * split; [done|]. right. split; [|done].
        intros s0 Hs0 Hid0.
        assert (s0 = s) as -> by (apply (same_submission d); [done..|congruence]). done.
      * split; [done|]. left. exists s, t.
        assert (s_status s = pending) by (by destruct (decide (s_status s = pending))).
        done.
    + eval_handler. split; [done|]. right. split; [|done].
      intros s Hs Hid. by destruct (Hspec s Hs).
Qed.

(** ** Adding a quest by command *)

Lemma map_tasks_other (f : task → task) (tid : Z) (ts : list task) :
  (∀ t, t_id t ≠ tid → f t = t) → (∀ t, t ∈ ts → t_id t ≠ tid) → f <$> ts = ts.
Proof.
  intros Hf Hts. induction ts as [|t ts IH]; [done|]. cbn.
  rewrite Hf by (apply Hts; by left). rewrite IH; [done|].
  intros t' Ht'. apply Hts. by right.
Qed.

(** X13. Adding a quest by command.  A type other than like, rt or link is
    refused and nothing is written.  Otherwise the quest is inserted at
    once, with the next id, open, with the points and the capacity as given
    (they are not checked) and no link, and the command waits for the link:
    a message of another author or in another channel is ignored; the
    author's next message in the channel, whatever it says, is stripped and
    stored as the link, and the id of the announcement is stored with it;
    and if the wait times out the quest stays as inserted, open and without
    a link. *)
Theorem addtask_inserts_then_waits (w : world) (author channel : Z) (title : string)
    (points max_subs : Z) (ttype : string) (role : option Z) :
  fresh_ids (store w) → tasks_seq (store w) ≠ 0 →
  let w1 := step' w (AddTask author channel title points max_subs ttype role) in
  let tid := tasks_seq (store w) in
  let n := length (suspended w) in
  if bool_decide (ttype ∈ ["like"; "rt"; "link"]%string) then
    tasks (store w1) = tasks (store w) ++ [Task tid title points max_subs 0 role 0 ttype None None]
    ∧ tasks_seq (store w1) = tid + 1
    ∧ suspended w1 = suspended w ++ [AwaitLink author channel tid title points]
    ∧ outbox w1 = outbox w ++ [TaskAdded tid]
    ∧ (∀ a ch content now,
         a ≠ author ∨ ch ≠ channel → step' w1 (Message n a ch content now) = w1)
    ∧ (∀ content now,
         let w2 := step' w1 (Message n author channel content now) in
         tasks (store w2)
         = tasks (store w)
           ++ [Task tid title points max_subs 0 role 0 ttype (Some (py_strip content))
                    (Some (Z.of_nat (length (outbox w)) + 3))]
         ∧ suspended w2 = suspended w
         ∧ outbox w2 = outbox w1 ++ [LinkSaved (py_strip content); Announcement title points])
    ∧ (let w2 := step' w1 (TimedOut n) in
       store w2 = store w1 ∧ suspended w2 = suspended w
       ∧ outbox w2 = outbox w1 ++ [LinkTimedOut])
  else w1 = World (store w) (last_click w) (views w) (suspended w) (outbox w ++ [BadTaskType]).
Proof.
  intros (Hn & Hlt & _) Hseq w1 tid n. subst w1 tid n.
  destruct w as [d lc vs cs out]. cbn [store suspended outbox] in *.
  assert (Hstep :
    step' (World d lc vs cs out) (AddTask author channel title points max_subs ttype role)
    = if bool_decide (ttype ∈ ["like"; "rt"; "link"]%string)
      then World (insert_task_q title points max_subs role ttype d) lc vs
                 (cs ++ [AwaitLink author channel (tasks_seq d) title points])
                 (out ++ [TaskAdded (tasks_seq d)])
      else World d lc vs cs (out ++ [BadTaskType])).
  { unfold step, step_with. cbn [dispatch]. unfold addtask.
    case_bool_decide; cbn [negb]; eval_handler; [|reflexivity].
    rewrite bool_decide_eq_false_2 by done. eval_handler. reflexivity. }
  rewrite Hstep. clear Hstep. case_bool_decide as Hty; [|reflexivity].
  cbn [tasks tasks_seq insert_task_q store suspended outbox].
  split; [done|]. split; [done|]. split; [done|]. split; [done|].
  assert (Hother : ∀ t, t ∈ tasks d → t_id t ≠ tasks_seq d).
  { intros t Ht. specialize (Hlt t Ht). lia. }
  split; [|split].
  - intros a ch content now Hno. unfold step, step_with, dispatch. cbn [suspended].
    rewrite lookup_app_r, Nat.sub_diag by done. cbn [lookup list_lookup check].
    assert (bool_decide (a = author) && bool_decide (ch = channel) = false) as ->;
      [|reflexivity].
    destruct Hno as [Hno|Hno].
    + by rewrite bool_decide_eq_false_2.
    + rewrite (bool_decide_eq_false_2 (ch = channel)) by done. apply andb_false_r.
  - intros content now. cbv zeta.
    rewrite step_message_parked by apply check_same.
    cbn [resume]. unfold addtask_link. eval_handler. unfold sent_message_id. eval_handler.
    cbn [tasks store suspended outbox set_link_q set_announcement_q set_tasks insert_task_q].
    split; [|split; [done|by rewrite <- !app_assoc]].
    rewrite <- list_fmap_compose, fmap_app. f_equal.
    + apply (map_tasks_other _ (tasks_seq d)); [|done].
      intros t Ht. cbn. unfold set_link_row. destruct (decide (t_id t = _)); [done|].
      unfold set_announcement_row. by rewrite decide_False.
    + cbn. unfold set_link_row. cbn. rewrite decide_True by done.
      unfold set_announcement_row. cbn. rewrite decide_True by done.
      do 3 f_equal. rewrite !length_app. cbn. lia.
  - cbv zeta. erewrite step_timed_out; cycle 1.
    + cbn [suspended]. by rewrite lookup_app_r, Nat.sub_diag.
    + by eexists.
    + unfold unpark. cbn [expire suspended store last_click views outbox]. eval_handler.
      rewrite delete_middle, app_nil_r. done.
Qed.

(** ** Removing and archiving a quest *)

Lemma filter_filter_same {A} (P Q : A → Prop) `{∀ x, Decision (P x)} `{∀ x, Decision (Q x)}
    (l : list A) :
  (∀ x, Q x → ¬ P x) → filter P (filter Q l) = [].
Proof.
  intros HPQ. apply filter_none, Forall_forall. intros x Hx.
  apply list_elem_of_filter in Hx as [Hq _]. by apply HPQ.
Qed.

Lemma filter_filter_other {A} (P Q : A → Prop) `{∀ x, Decision (P x)} `{∀ x, Decision (Q x)}
    (l : list A) :
  (∀ x, P x → Q x) → filter P (filter Q l) = filter P l.
Proof.
  intros HPQ. induction l as [|x l IH]; [done|].
  rewrite (filter_cons Q). destruct (decide (Q x)) as [Hq|Hq].
  - rewrite !filter_cons. destruct (decide (P x)); by rewrite IH.
  - rewrite IH, filter_cons. rewrite decide_False; [done|]. intros Hp. by apply Hq, HPQ.
Qed.

(** X14. Removing a quest.  The button deletes the submissions of the
    quest, whatever their status, and then the quest: afterwards no task has
    that id and no submission refers to it, every other task and every other
    submission is as before, and no balance has changed, so the points
    earned on the quest stay with the users. *)
Theorem remove_task_button_removes (w : world) (task_id : Z) :
  let w' := step' w (RemoveTask task_id) in
  tasks (store w') = filter (λ t, t_id t ≠ task_id) (tasks (store w))
  ∧ submissions (store w') = filter (λ s, s_task_id s ≠ task_id) (submissions (store w))
  ∧ users (store w') = users (store w)
  ∧ withdrawals (store w') = withdrawals (store w)
  ∧ banned_users (store w') = banned_users (store w)
  ∧ task_by_id task_id (store w') = None
  ∧ count_done task_id (store w') = 0
  ∧ (∀ tid, tid ≠ task_id →
       task_by_id tid (store w') = task_by_id tid (store w)
       ∧ count_done tid (store w') = count_done tid (store w))
  ∧ outbox w' = outbox w ++ [QuestRemoved task_id].
Proof.
  cbv zeta. unfold step, step_with. cbn [dispatch]. unfold remove_task_button.
  destruct w as [d lc vs cs out]. eval_handler.
  cbn [store outbox tasks submissions users withdrawals banned_users delete_task_q
       delete_submissions_q set_tasks set_submissions].
  repeat split.
  - unfold task_by_id, delete_task_q, delete_submissions_q, set_tasks, set_submissions.
    cbn [tasks]. rewrite filter_filter_same; [done|]. cbn. tauto.
  - unfold count_done, delete_task_q, delete_submissions_q, set_tasks, set_submissions.
    cbn [submissions]. rewrite filter_filter_same; [done|]. cbn. tauto.
  - unfold task_by_id, delete_task_q, delete_submissions_q, set_tasks, set_submissions.
    cbn [tasks]. rewrite filter_filter_other; [done|]. cbn. congruence.
  - unfold count_done, delete_task_q, delete_submissions_q, set_tasks, set_submissions.
    cbn [submissions]. rewrite filter_filter_other; [done|].
    cbn. intros s [Hs _]. congruence.
Qed.

Lemma archive_q_idem tid d : archive_q tid (archive_q tid d) = archive_q tid d.
Proof.
  unfold archive_q, set_tasks. cbn. f_equal. rewrite <- list_fmap_compose.
  apply list_fmap_ext. intros i t _. cbn. unfold archive_row.
  destruct (decide (t_id t = tid)) as [Heq|Hne]; cbn.
  - by rewrite decide_True.
  - by rewrite decide_False.
Qed.

(** X15. Archiving a quest.  The button sets the archived flag of the
    tasks with that id and changes nothing else: the submissions of the quest
    and all balances stay.  The quest is then no longer among the open
    tasks, so no board drawn from then on has a button for it; archiving it
    again changes nothing. *)
Theorem archive_task_button_hides (w : world) (task_id : Z) :
  let w' := step' w (ArchiveTask task_id) in
  store w' = archive_q task_id (store w)
  ∧ submissions (store w') = submissions (store w)
  ∧ users (store w') = users (store w)
  ∧ withdrawals (store w') = withdrawals (store w)
  ∧ t_id <$> tasks (store w') = t_id <$> tasks (store w)
  ∧ (∀ t, t ∈ tasks (store w') → t_id t = task_id → t_archived t = 1)
  ∧ (∀ t, t ∈ open_tasks_q (store w') → t_id t ≠ task_id)
  ∧ (∀ b, b ∈ drawn (store w') → b_tid b ≠ task_id)
  ∧ store (step' w' (ArchiveTask task_id)) = store w'.
Proof.
  cbv zeta. unfold step, step_with. cbn [dispatch]. unfold archive_task_button.
  destruct w as [d lc vs cs out]. eval_handler. cbn [store].
  assert (Harch : ∀ t, t ∈ tasks (archive_q task_id d) → t_id t = task_id → t_archived t = 1).
  { intros t (t0 & -> & Ht0)%list_elem_of_fmap. unfold archive_row.
    destruct (decide (t_id t0 = task_id)); cbn; [done|]. done. }
  assert (Hopen : ∀ t, t ∈ open_tasks_q (archive_q task_id d) → t_id t ≠ task_id).
  { intros t [Ha Ht]%list_elem_of_filter Hid. specialize (Harch t Ht Hid). lia. }
  split; [done|]. split; [done|]. split; [done|]. split; [done|]. split.
  { cbn [tasks archive_q set_tasks]. rewrite <- list_fmap_compose.
    apply list_fmap_ext. intros i t _. cbn. unfold archive_row. by destruct (decide _). }
  split; [exact Harch|]. split; [exact Hopen|]. split.
  - intros b (r & -> & Hr)%list_elem_of_fmap. cbn.
    apply list_elem_of_filter in Hr as [_ Hr]. apply subseteq_take in Hr. by apply Hopen.
  - apply archive_q_idem.
Qed.

(** ** The profile command as it is written *)

Lemma ensure_user_q_submissions u d : submissions (ensure_user_q u d) = submissions d.
Proof. unfold ensure_user_q. by destruct (users d !! u). Qed.

Lemma count_of_split u d :
  count_of u [pending; approved; rejected] d
  = count_of u [pending] d + count_of u [approved] d + count_of u [rejected] d.
Proof.
  unfold count_of. induction (submissions d) as [|s l IH]; [done|].
  rewrite !filter_cons.
  destruct (decide (s_user_id s = u)) as [Hu|Hu], (s_status s);
    repeat match goal with
           | |- context [decide ?P] =>
               first [ rewrite (decide_True (P := P)) by (split; [done|repeat constructor])
                     | rewrite (decide_False (P := P))
                         by (let H := fresh in
                             intros [? H];
                             repeat (apply elem_of_cons in H as [H|H]; [discriminate|]);
                             first [by apply elem_of_nil in H | done]) ]
           end;
    cbn [length]; lia.
Qed.

(** X16. The profile command, with the unbound button.  The command first
    makes a row with 0 points for the member if there is none, whoever asks.
    Asked for one's own profile it then shows the points of the row, the rank
    of these points, and the counts of the member's submissions, the total
    being the pending, approved and rejected ones together, and posts the
    withdraw button.  Asked for another member's profile it dies at the use
    of the button that was never made and shows nothing.  In both cases the
    store it leaves is the one the command of the runs leaves. *)
Theorem profile_cmd_as_written_shows (w : world) (author member : Z) :
  let d' := ensure_user_q member (store w) in
  let pts := get_user_points_q member d' in
  profile_cmd_as_written author member None w
  = (if bool_decide (author = member) then Returned tt else Raised, None,
     if bool_decide (author = member)
     then World d' (last_click w) (views w ++ [Profile member true]) (suspended w)
                (outbox w ++ [ProfileEmbed pts (get_rank pts)
                                (count_of member [pending; approved; rejected] (store w))
                                (count_of member [approved] (store w))
                                (count_of member [rejected] (store w))])
     else World d' (last_click w) (views w) (suspended w) (outbox w))
  ∧ is_Some (users d' !! member)
  ∧ pts = get_user_points_q member (store w)
  ∧ count_of member [pending; approved; rejected] (store w)
    = count_of member [pending] (store w) + count_of member [approved] (store w)
      + count_of member [rejected] (store w)
  ∧ store (after (profile_cmd author member) None w) = d'
  ∧ (author = member →
     after (profile_cmd author member) None w
     = (profile_cmd_as_written author member None w).2).
Proof.
  cbv zeta. destruct w as [d lc vs cs out]. cbn [store last_click views suspended outbox].
  assert (Hc : ∀ sts, count_of member sts (ensure_user_q member d) = count_of member sts d).
  { intros sts. unfold count_of. by rewrite ensure_user_q_submissions. }
  assert (Hp : get_user_points_q member (ensure_user_q member d)
               = get_user_points_q member d).
  { unfold get_user_points_q, ensure_user_q. destruct (users d !! member) eqn:E.
    - by rewrite E.
    - cbn. by rewrite lookup_insert_eq. }
  split; [|split; [apply ensure_user_has|split; [exact Hp|split; [apply count_of_split|]]]].
  - unfold profile_cmd_as_written. eval_handler. rewrite !Hc.
    case_bool_decide; eval_handler; reflexivity.
  - unfold profile_cmd, profile_cmd_as_written. eval_handler. rewrite !Hc.
    split; [reflexivity|]. intros ->. rewrite bool_decide_eq_true_2 by done.
    eval_handler. reflexivity.
Qed.

(** ** The forms of the admin panel *)

Lemma quest_fields_Some pi mi ti points max_subs ttype :
  quest_fields py_int py_lower pi mi ti = Some (points, max_subs, ttype)
  ↔ py_int pi = Some points ∧ py_int mi = Some max_subs
    ∧ ttype = py_lower ti ∧ ttype ∈ ["link"; "like"; "rt"]%string.
Proof.
  unfold quest_fields.
  destruct (py_int pi) as [p|]; [|split; [discriminate|intros (? & _); discriminate]].
  destruct (py_int mi) as [m|]; [|split; [discriminate|intros (_ & ? & _); discriminate]].
  case_bool_decide as Hin.
  - split.
    + intros [= <- <- <-]. done.
    + intros ([= <-] & [= <-] & -> & _). done.
  - split; [discriminate|]. intros (_ & _ & -> & Hin'). done.
Qed.

(** X17. The form that adds a quest.  When the points or the capacity do
    not parse as integers, or the type in lower case is not link, like or rt,
    the form answers that the input is not valid and writes nothing.
    Otherwise it inserts the quest with the next id, open, with the link as
    typed, answers that the quest was added, announces it and stores the id
    of the announcement.  It has no transaction: if the store fails at the
    INSERT nothing is written and the form answers with the error; if it
    fails at the later UPDATE the quest stays inserted without the id of its
    announcement, and the answer already given stands. *)
Theorem add_task_modal_adds (w : world) (title pi mi ti li : string) :
  fresh_ids (store w) →
  match quest_fields py_int py_lower pi mi ti with
  | None =>
      ∀ fault, add_task_modal py_int py_lower title pi mi ti li fault w
               = (Returned InvalidQuestInput, fault, w)
  | Some (points, max_subs, ttype) =>
      let tid := tasks_seq (store w) in
      let row ann := Task tid title points max_subs 0 None 0 ttype (Some li) ann in
      let added ann :=
        Db (users (store w)) (tasks (store w) ++ [row ann]) (tid + 1)
           (submissions (store w)) (submissions_seq (store w))
           (withdrawals (store w)) (withdrawals_seq (store w)) (banned_users (store w)) in
      py_int pi = Some points ∧ py_int mi = Some max_subs ∧ ttype = py_lower ti
      ∧ ttype ∈ ["link"; "like"; "rt"]%string
      ∧ add_task_modal py_int py_lower title pi mi ti li None w
        = (Returned QuestAdded, None,
           World (added (Some (Z.of_nat (length (outbox w)) + 1)))
                 (last_click w) (views w) (suspended w)
                 (outbox w ++ [Announcement title points]))
      ∧ add_task_modal py_int py_lower title pi mi ti li (Some 0%nat) w
        = (Returned PanelError, None, w)
      ∧ add_task_modal py_int py_lower title pi mi ti li (Some 1%nat) w
        = (Returned QuestAdded, None,
           World (added None) (last_click w) (views w) (suspended w)
                 (outbox w ++ [Announcement title points]))
  end.
Proof.
  intros (_ & Hlt & _). unfold add_task_modal.
  destruct (quest_fields py_int py_lower pi mi ti) as [[[points max_subs] ttype]|] eqn:Hq;
    [|reflexivity].
  apply quest_fields_Some in Hq as (Hp & Hm & Ht & Hin). cbv zeta.
  split; [exact Hp|]. split; [exact Hm|]. split; [exact Ht|]. split; [exact Hin|].
  destruct w as [d lc vs cs out]. cbn [store last_click views suspended outbox] in *.
  assert (Hother : ∀ t, t ∈ tasks d → t_id t ≠ tasks_seq d).
  { intros t Ht'. specialize (Hlt t Ht'). lia. }
  split; [|split].
  - eval_handler. unfold sent_message_id. eval_handler. do 2 f_equal.
    unfold set_announcement_q, insert_task_modal_q, set_tasks. cbn. f_equal.
    rewrite fmap_app. f_equal.
    + apply (map_tasks_other _ (tasks_seq d)); [|done].
      intros t Ht'. unfold set_announcement_row. by rewrite decide_False.
    + cbn. unfold set_announcement_row. cbn. rewrite decide_True by done.
      do 3 f_equal. rewrite length_app. cbn. lia.
  - reflexivity.
  - eval_handler. unfold sent_message_id. eval_handler. reflexivity.
Qed.

(** X18. The form that edits a quest.  On input that is not valid (as for
    the form that adds) it writes nothing.  Otherwise the tasks with the id
    get the title, points, capacity, type and link of the form, and keep
    their id, archived flag, role, daily flag and announcement; every other
    task, the submissions, the balances and the withdrawals are as before.
    An archived quest stays archived whatever capacity it is given, and the
    form answers that the quest was updated also when no task has the id.
    If the store fails at the UPDATE nothing is written. *)
Theorem edit_task_modal_edits (w : world) (task_id : Z) (title pi mi ti li : string) :
  match quest_fields py_int py_lower pi mi ti with
  | None =>
      ∀ fault, edit_task_modal py_int py_lower task_id title pi mi ti li fault w
               = (Returned InvalidQuestInput, fault, w)
  | Some (points, max_subs, ttype) =>
      let w' := after (edit_task_modal py_int py_lower task_id title pi mi ti li) None w in
      edit_task_modal py_int py_lower task_id title pi mi ti li None w
      = (Returned (QuestUpdated task_id), None, w')
      ∧ edit_task_modal py_int py_lower task_id title pi mi ti li (Some 0%nat) w
        = (Returned PanelError, None, w)
      ∧ tasks (store w')
        = (λ t, if decide (t_id t = task_id)
                then Task (t_id t) title points max_subs (t_archived t) (t_role_reward_id t)
                          (t_daily_flag t) ttype (Some li) (t_announcement_message_id t)
                else t) <$> tasks (store w)
      ∧ t_id <$> tasks (store w') = t_id <$> tasks (store w)
      ∧ t_archived <$> tasks (store w') = t_archived <$> tasks (store w)
      ∧ submissions (store w') = submissions (store w)
      ∧ users (store w') = users (store w)
      ∧ withdrawals (store w') = withdrawals (store w)
      ∧ views w' = views w ∧ suspended w' = suspended w ∧ outbox w' = outbox w
  end.
Proof.
  unfold edit_task_modal.
  destruct (quest_fields py_int py_lower pi mi ti) as [[[points max_subs] ttype]|] eqn:Hq;
    [|reflexivity].
  cbv zeta. destruct w as [d lc vs cs out]. eval_handler.
  cbn [store views suspended outbox tasks submissions users withdrawals edit_q set_tasks].
  split; [reflexivity|]. split; [reflexivity|]. split; [reflexivity|].
  split; [|split; [|done]].
  - rewrite <- list_fmap_compose. apply list_fmap_ext. intros i t _. cbn.
    unfold edit_row. by destruct (decide _).
  - rewrite <- list_fmap_compose. apply list_fmap_ext. intros i t _. cbn.
    unfold edit_row. by destruct (decide _).
Qed.

(** ** What moves points *)

Lemma same_points_refl d : same_points d d.
Proof. done. Qed.

Lemma same_points_users (f : db → db) d0 d :
  (∀ d, users (f d) = users d) → same_points d0 d → same_points d0 (f d).
Proof. intros Hf H u. unfold get_user_points_q. rewrite Hf. apply H. Qed.

Lemma same_points_ensure_user u d0 d : same_points d0 d → same_points d0 (ensure_user_q u d).
Proof.
  intros H u'. rewrite <- H. unfold get_user_points_q, ensure_user_q.
  destruct (users d !! u) eqn:E; [done|]. cbn.
  destruct (decide (u' = u)) as [->|Hne].
  - by rewrite lookup_insert_eq, E.
  - by rewrite lookup_insert_ne.
Qed.

Lemma same_points_archive_all ids d0 d : same_points d0 d → same_points d0 (archive_all ids d).
Proof.
  revert d. induction ids as [|i ids IH]; intros d H; [exact H|].
  cbn. apply IH. by apply (same_points_users (archive_q i)).
Qed.

Lemma same_points_insert_submission u tid proof now d0 d d' :
  insert_submission_q u tid proof now d = Some d' → same_points d0 d → same_points d0 d'.
Proof.
  unfold insert_submission_q. destruct (task_by_id tid d); [|done].
  intros [= <-] H u'. apply H.
Qed.

Ltac points_chain :=
  repeat first
    [ assumption
    | apply same_points_refl
    | apply same_points_ensure_user
    | apply same_points_archive_all
    | (eapply same_points_insert_submission; [eassumption|])
    | (apply same_points_users; [reflexivity|]) ].

Lemma step_same_points w e :
  moves_points w (Bot e) = false → same_points (store w) (store (step' w e)).
Proof.
  intros Hmv. unfold step, step_with.
  destruct (dispatch py_int py_strip e w) as [m w0] eqn:Hd.
  assert (Hw0 : store w0 = store w
                ∧ wp m (λ _ w', same_points (store w) (store w'))
                       (λ w', same_points (store w) (store w')) w0).
  2:{ destruct Hw0 as [_ Hwp].
      apply (wp_after m (λ w', same_points (store w) (store w'))), Hwp. }
  destruct e; cbn [dispatch moves_points] in Hd, Hmv;
    repeat match type of Hd with
           | context [match ?x with _ => _ end] => destruct x eqn:?
           end;
    try discriminate Hmv;
    injection Hd as Hm Hw; subst m w0;
    (split; [reflexivity|]);
    destruct w as [d lc vs cs out]; unfold unpark;
    cbn [store last_click views suspended outbox] in *;
    wp_run; try discriminate Hmv; cbn [store]; points_chain.
Qed.

(** X19. Only an approval and a withdrawal move points.  An event of the
    bot or its panel that is neither a press of Approve on a review message
    nor the answer that gives the amount of a withdrawal leaves every user
    with the points they had: rejecting, banning, adding, editing, archiving
    or removing a quest, submitting a proof, opening a profile or completing
    a withdrawal change no balance (a new row starts at 0, which is what a
    missing row reads as). *)
Theorem points_move_only_by_approval_and_withdrawal (w : world) (e : panel_event) (u : Z) :
  moves_points w e = false →
  get_user_points_q u (store (panel_step' w e)) = get_user_points_q u (store w).
Proof.
  intros Hmv. revert u. change (same_points (store w) (store (panel_step' w e))).
  destruct e as [e| |]; cbn [panel_step].
  - by apply step_same_points.
  - apply (wp_after _ (λ w', same_points (store w) (store w'))).
    destruct w as [d lc vs cs out]. cbn [store].
    unfold add_task_modal. destruct (quest_fields _ _ _ _ _) as [[[points max_subs] ttype]|];
      wp_run; cbn [store]; points_chain.
  - apply (wp_after _ (λ w', same_points (store w) (store w'))).
    destruct w as [d lc vs cs out]. cbn [store].
    unfold edit_task_modal. destruct (quest_fields _ _ _ _ _) as [[[points max_subs] ttype]|];
      wp_run; cbn [store]; points_chain.
Qed.

(** ** The lazy row of a user *)

(** X20. Making the row of a user changes what nobody reads.  After
    [ensure_user] the user has a row; every user, this one included, reads
    the same points as before (a row that was there keeps its points, a new
    row has the 0 that a missing row reads as); nothing else of the store
    changes, and doing it again changes nothing. *)
Theorem ensure_user_keeps_points (w : world) (user_id : Z) :
  let d := store w in
  let d' := ensure_user_q user_id d in
  ensure_user user_id None w = (Returned tt, None, with_store d' w)
  ∧ is_Some (users d' !! user_id)
  ∧ (∀ u, get_user_points_q u d' = get_user_points_q u d)
  ∧ (∀ u p, users d !! u = Some p → users d' !! u = Some p)
  ∧ (∀ u, u ≠ user_id → users d' !! u = users d !! u)
  ∧ tasks d' = tasks d ∧ submissions d' = submissions d
  ∧ withdrawals d' = withdrawals d ∧ banned_users d' = banned_users d
  ∧ ensure_user_q user_id d' = d'.
Proof.
  cbv zeta. split; [reflexivity|]. split; [apply ensure_user_has|].
  split; [apply (same_points_ensure_user user_id (store w) (store w)), same_points_refl|].
  unfold ensure_user_q. destruct (users (store w) !! user_id) eqn:E.
  - rewrite E. done.
  - cbn. rewrite lookup_insert_eq. repeat split; try done.
    + intros u p Hu. rewrite lookup_insert_ne; [done|]. congruence.
    + intros u Hu. by rewrite lookup_insert_ne.
Qed.

(** ** Banning a user *)

(** X21. The form that bans a user.  An id that does not parse as an
    integer is answered as not valid and nothing is written.  An id that
    parses is put in the table of banned users: [is_banned] is true for it
    from then on, the other users are banned or not as before, no other table
    changes, and banning it again changes nothing.  If the store fails at
    the INSERT the form answers with the error and nothing is written. *)
Theorem ban_user_modal_bans (w : world) (user_id_input : string) :
  match py_int user_id_input with
  | None =>
      ∀ fault, step_with py_int py_strip fault w (BanUser user_id_input)
               = World (store w) (last_click w) (views w) (suspended w)
                       (outbox w ++ [BadUserId])
  | Some user_id =>
      let w' := step' w (BanUser user_id_input) in
      is_banned_q user_id (store w') = true
      ∧ (∀ u, u ≠ user_id → is_banned_q u (store w') = is_banned_q u (store w))
      ∧ users (store w') = users (store w) ∧ tasks (store w') = tasks (store w)
      ∧ submissions (store w') = submissions (store w)
      ∧ withdrawals (store w') = withdrawals (store w)
      ∧ outbox w' = outbox w ++ [UserBanned user_id]
      ∧ store (step' w' (BanUser user_id_input)) = store w'
      ∧ step_with py_int py_strip (Some 0%nat) w (BanUser user_id_input)
        = World (store w) (last_click w) (views w) (suspended w)
                (outbox w ++ [ErrorOccurred])
  end.
Proof.
  unfold step, step_with. cbn [dispatch]. unfold ban_user_modal.
  destruct (py_int user_id_input) as [u|]; [|intros fault; destruct w; reflexivity].
  cbv zeta. destruct w as [d lc vs cs out]. eval_handler.
  cbn [store outbox users tasks submissions withdrawals].
  split; [|split; [|repeat split]].
  - unfold is_banned_q, ban_q. cbn. apply bool_decide_eq_true. apply elem_of_union_l.
    by apply elem_of_singleton.
  - intros u' Hne. unfold is_banned_q, ban_q. cbn. apply bool_decide_ext.
    rewrite elem_of_union, elem_of_singleton. tauto.
  - unfold ban_q. cbn. f_equal. apply set_eq. intros x.
    rewrite !elem_of_union. tauto.
Qed.

End Runs.

(** ** The claims that do not hold on every run *)


(** The balance can also go below zero: two negotiations opened on a balance
    of 1200 both compare 1000 with the 1200 they read, and both debit. *)
Example withdraw_cb_twice_overdraws :
  points_of 7 (play (earned_1200 ++ withdraws_twice "1000") init) = Some (-800)
  ∧ w_points <$> withdrawals (store (play (earned_1200 ++ withdraws_twice "1000") init))
    = [1000; 1000].
Proof. vm_compute. split; reflexivity. Qed.


(** Two users who both click the last slot before either has posted a proof
    both get their row: the quest ends with two submissions for one slot. *)
Example last_slot_taken_twice :
  count_done 1 (store (play two_claim_last_slot init)) = 2
  ∧ t_max_submissions <$> tasks (store (play two_claim_last_slot init)) = [1].
Proof. vm_compute. split; reflexivity. Qed.

(** C9 (as stated, it fails). User 7 clicked at 10 s.  The click at 19 s is
    denied and leaves the record at 10 s; the click at 22 s, three seconds
    after the one before, is twelve seconds after the record and passes: it
    enters the wait for a proof. *)
Lemma cooldown_counterexample : ¬ cooldown_as_claimed ascii_int ascii_strip.
Proof.
  intros H.
  assert (Hv : ∃ buttons b,
             views (run ascii_int ascii_strip clicked_once init) !! 0%nat
             = Some (Board 7 (Some 1) buttons)
             ∧ buttons !! 0%nat = Some b)
    by (do 2 eexists; vm_compute; split; reflexivity).
  destruct Hv as (buttons & b & Hv & Hb).
  specialize (H clicked_once 0%nat 0%nat 7 200 (Some 1) buttons b
                (19 * SECOND) (22 * SECOND) 0%nat 0%nat Hv Hb).
  destruct H as (_ & _ & Hs); [vm_compute; reflexivity|unfold BUTTON_COOLDOWN, SECOND; lia|].
  vm_compute in Hs. discriminate.
Qed.

(** Of the six cooldown messages only two show the seconds left. *)
Example cooldown_messages_showing_seconds :
  shows_remaining <$> COOLDOWN_MESSAGES = [false; false; false; true; true; false].
Proof. vm_compute. reflexivity. Qed.

(** ** Instances *)


(** The scenario of the specification: 1200 points, 1000 withdrawn, 200 left
    and one pending withdrawal of 1000. *)
Example withdraw_1000_of_1200 :
  points_of 7 (play earned_1200 init) = Some 1200
  ∧ points_of 7 (play (earned_1200 ++ withdraws "1000") init) = Some 200
  ∧ (λ x, (w_user_id x, w_points x, w_status x)) <$>
      withdrawals (store (play (earned_1200 ++ withdraws "1000") init))
    = [(7, 1000, w_pending)].
Proof. vm_compute. repeat split; reflexivity. Qed.



Lemma waits_time_out_without_writes_witness :
  let w := play (quest_posted 200 5 ++ [TasksCmd 7 (Some 1)]) init in
  let w1 := step ascii_int ascii_strip w (Click 0 0 7 200 (10 * SECOND) 0) in
  let w2 := step ascii_int ascii_strip w1 (TimedOut 0) in
  suspended w1 ≠ suspended w
  ∧ store w2 = store w ∧ suspended w2 = suspended w ∧ submissions (store w2) = [].
Proof.
  cbv zeta.
  assert (Hpark : suspended (step ascii_int ascii_strip
                               (play (quest_posted 200 5 ++ [TasksCmd 7 (Some 1)]) init)
                               (Click 0 0 7 200 (10 * SECOND) 0))
                  ≠ suspended (play (quest_posted 200 5 ++ [TasksCmd 7 (Some 1)]) init))
    by (vm_compute; discriminate).
  destruct (waits_time_out_without_writes ascii_int ascii_strip) as (_ & _ & _ & Hclick & _).
  specialize (Hclick (play (quest_posted 200 5 ++ [TasksCmd 7 (Some 1)]) init)
                0%nat 0%nat 7 200 (10 * SECOND) 0%nat).
  cbv zeta in Hclick.
  assert (Hn : length (suspended (play (quest_posted 200 5 ++ [TasksCmd 7 (Some 1)]) init))
               = 0%nat) by (vm_compute; reflexivity).
  rewrite Hn in Hclick. destruct (Hclick Hpark) as (_ & Hs & Hc & _).
  split; [exact Hpark|]. split; [exact Hs|]. split; [exact Hc|].
  rewrite Hs. vm_compute. reflexivity.
Defined.

Lemma cooldown_gate_fixed_window_witness :
  let w := play clicked_once init in
  let w' := step ascii_int ascii_strip w (Click 0 0 7 200 (19 * SECOND) 3) in
  last_click w !! (7, 1) = Some (10 * SECOND)
  ∧ store w' = store w ∧ suspended w' = suspended w
  ∧ last_click w' = last_click w
  ∧ outbox w' = outbox w ++ [Cooldown (pick_message 3) 7 "Follow us" 1].
Proof.
  cbv zeta.
  assert (Hv : ∃ buttons b,
             views (play clicked_once init) !! 0%nat = Some (Board 7 (Some 1) buttons)
             ∧ buttons !! 0%nat = Some b ∧ b_tid b = 1 ∧ b_title b = "Follow us"%string)
    by (do 2 eexists; vm_compute; repeat split).
  destruct Hv as (buttons & b & Hv & Hb & Htid & Htitle).
  assert (Hlast : last_click (play clicked_once init) !! (7, b_tid b) = Some (10 * SECOND))
    by (rewrite Htid; vm_compute; reflexivity).
  destruct (cooldown_gate_fixed_window ascii_int ascii_strip) as (Hdeny & _).
  destruct (Hdeny (play clicked_once init) 0%nat 0%nat 7 200 (19 * SECOND) 3%nat
              (Some 1) buttons b (10 * SECOND) Hv Hb) as [Hstep _];
    [vm_compute; reflexivity|exact Hlast|unfold BUTTON_COOLDOWN, SECOND; lia|].
  rewrite Hstep. cbn [store suspended last_click outbox]. rewrite Htitle.
  split; [rewrite <- Htid; exact Hlast|]. repeat split.
Defined.

(** ** Ranks and milestones *)

Lemma filter_milestones old new :
  next_milestones_reached old new MILESTONES
  = (if decide (old < 500 ≤ new) then [500] else [])
    ++ (if decide (old < 1000 ≤ new) then [1000] else [])
    ++ (if decide (old < 1500 ≤ new) then [1500] else [])
    ++ (if decide (old < 2000 ≤ new) then [2000] else []).
Proof.
  unfold next_milestones_reached, MILESTONES.
  rewrite !filter_cons, filter_nil. repeat case_decide; reflexivity.
Qed.

(** X22. The ranks change exactly at the milestones: when the points go from
    [old] to [new], not down, the rank goes up by as many steps as there are
    milestones in [next_milestones_reached old new MILESTONES]. *)
Theorem rank_steps_are_milestones (old new : Z) :
  old ≤ new →
  rank_step (get_rank new)
  = (rank_step (get_rank old) + length (next_milestones_reached old new MILESTONES))%nat.
Proof.
  intros Hle. rewrite filter_milestones. unfold get_rank.
  repeat match goal with
         | |- context [?a <=? ?b] => destruct (Z.leb_spec a b)
         end;
    repeat case_decide; cbn; first [reflexivity | lia].
Qed.

Lemma rank_steps_are_milestones_witness :
  480 ≤ 1600
  ∧ rank_step (get_rank 1600)
    = (rank_step (get_rank 480) + length (next_milestones_reached 480 1600 MILESTONES))%nat.
Proof. split; [lia|]. apply (rank_steps_are_milestones 480 1600). lia. Defined.

(** ** The bar of the review dashboard *)

Lemma progress_bar_bounds (current total length : Z) :
  0 ≤ length → 0 ≤ current ≤ total → 0 < total →
  progress_bar current total length
  = replicate (Z.to_nat ((length * current) `div` total)) Filled
    ++ replicate (Z.to_nat (length - (length * current) `div` total)) Hollow
  ∧ List.length (progress_bar current total length) = Z.to_nat length.
Proof.
  intros Hl [Hc Ht] Hpos. unfold progress_bar. rewrite bool_decide_eq_false_2 by lia.
  rewrite Z.max_r by lia. rewrite Z.quot_div_nonneg by nia. cbv zeta.
  split; [reflexivity|]. rewrite length_app, !length_replicate.
  assert (0 ≤ (length * current) `div` total ≤ length); [|lia].
  split; [apply Z.div_pos; nia|]. apply Z.div_le_upper_bound; nia.
Qed.

(** X23. For a count between nothing and the total, with
    [length * current] in the range where the float quotient is exact, the
    bar has exactly [length] cells, the filled ones first; their number is
    [length * current / total] rounded down (none when the total is 0), and
    the bar is full only when the count is the total. *)
Theorem progress_bar_cells (current total length : Z) :
  0 ≤ length → 0 ≤ current ≤ total → length * current < 2 ^ 52 →
  ∃ filled,
    0 ≤ filled ≤ length
    ∧ progress_bar current total length
      = replicate (Z.to_nat filled) Filled ++ replicate (Z.to_nat (length - filled)) Hollow
    ∧ List.length (progress_bar current total length) = Z.to_nat length
    ∧ (total = 0 → filled = 0)
    ∧ (0 < total → filled = (length * current) `div` total)
    ∧ (0 < total → 0 < length → (filled = length ↔ current = total)).
Proof.
  intros Hl [Hc Ht] _. unfold progress_bar. case_bool_decide as H0.
  - exists 0. rewrite Z.sub_0_r. cbn [Z.to_nat replicate app].
    rewrite length_replicate. repeat split; try lia.
  - assert (0 < total) as Hpos by lia. rewrite Z.max_r by lia.
    rewrite Z.quot_div_nonneg by nia.
    assert (Hk : 0 ≤ (length * current) `div` total ≤ length).
    { split; [apply Z.div_pos; nia|]. apply Z.div_le_upper_bound; nia. }
    exists ((length * current) `div` total). cbv zeta.
    rewrite length_app, !length_replicate. repeat split; try lia.
    + intros Heq. pose proof (Z.mul_div_le (length * current) total Hpos). nia.
    + intros ->. apply Z.div_mul. lia.
Qed.

Lemma progress_bar_cells_witness :
  ∃ filled,
    0 ≤ filled ≤ 10
    ∧ progress_bar 2 3 10
      = replicate (Z.to_nat filled) Filled ++ replicate (Z.to_nat (10 - filled)) Hollow
    ∧ List.length (progress_bar 2 3 10) = Z.to_nat 10
    ∧ (3 = 0 → filled = 0)
    ∧ (0 < 3 → filled = (10 * 2) `div` 3)
    ∧ (0 < 3 → 0 < 10 → (filled = 10 ↔ 2 = 3)).
Proof. apply (progress_bar_cells 2 3 10); [lia|lia|reflexivity]. Defined.

(** ** [sorted] with [reverse=True] *)

Lemma insert_desc_perm {A} (key : A → Z) x l : insert_desc key x l ≡ₚ x :: l.
Proof.
  induction l as [|y l IH]; cbn; [reflexivity|].
  destruct (key y <=? key x); [reflexivity|]. rewrite IH. apply Permutation_swap.
Qed.

Lemma sorted_desc_perm {A} (key : A → Z) l : sorted_desc key l ≡ₚ l.
Proof.
  induction l as [|x l IH]; cbn; [reflexivity|].
  rewrite insert_desc_perm. by rewrite IH.
Qed.

Lemma insert_desc_descending {A} (key : A → Z) x l :
  descending (key <$> l) → descending (key <$> insert_desc key x l).
Proof.
  induction l as [|y l IH]; cbn; [intros _; split; [constructor|exact I]|].
  intros [Hy Hl]. destruct (Z.leb_spec (key y) (key x)); cbn.
  - split; [|split; assumption]. constructor; [assumption|].
    eapply Forall_impl; [exact Hy|]. cbn. intros; lia.
  - split; [|by apply IH].
    rewrite insert_desc_perm. cbn. constructor; [lia|exact Hy].
Qed.

Lemma sorted_desc_descending {A} (key : A → Z) l : descending (key <$> sorted_desc key l).
Proof.
  induction l as [|x l IH]; cbn; [exact I|]. by apply insert_desc_descending.
Qed.

(** ** The review dashboard *)

Lemma review_lines_run i rows d lc vs cs out :
  review_lines i rows None (World d lc vs cs out)
  = (Returned (imap (λ k r, ReviewLine (MEDALS !! (i + k)%nat) r.1.1 r.1.2 r.2
                             (total_count r.1.2 d)
                             (progress_bar r.2 (total_count r.1.2 d) 10)) rows),
     None, World d lc vs cs out).
Proof.
  revert i. induction rows as [|[[title tid] n] rows IH]; intros i; [reflexivity|].
  cbn [review_lines]. unfold bind at 1. unfold query at 1, statement at 1.
  unfold with_store. cbn [store last_click views suspended outbox fmap option_fmap option_map].
  unfold bind. rewrite IH. unfold ret. rewrite imap_cons. cbn [fst snd].
  rewrite Nat.add_0_r.
  rewrite (imap_ext _ ((λ k r, ReviewLine (MEDALS !! (i + k)%nat) r.1.1 r.1.2 r.2
                                 (total_count r.1.2 d)
                                 (progress_bar r.2 (total_count r.1.2 d) 10)) ∘ S) rows);
    [reflexivity|].
  intros k r _. cbn. by rewrite Nat.add_succ_r.
Qed.

Lemma pending_le_total tid d : pending_count tid d ≤ total_count tid d.
Proof.
  unfold pending_count, total_count. apply inj_le.
  induction (submissions d) as [|s l IH]; [done|].
  rewrite !filter_cons. repeat case_decide; cbn; first [lia | tauto].
Qed.

Lemma imap_ignore {A B} (g : A → B) (l : list A) : imap (λ _, g) l = g <$> l.
Proof. apply imap_const. Qed.

Lemma build_review_embed_run d lc vs cs out :
  build_review_embed None (World d lc vs cs out)
  = (Returned
       match review_queue_q d with
       | [] => None
       | _ => Some (imap (λ k r, ReviewLine (MEDALS !! k) r.1.1 r.1.2 r.2
                                   (total_count r.1.2 d)
                                   (progress_bar r.2 (total_count r.1.2 d) 10))
                         (sorted_desc (λ r, r.2) (review_queue_q d)))
       end, None, World d lc vs cs out).
Proof.
  unfold build_review_embed. unfold bind at 1. unfold query at 1, statement at 1.
  unfold with_store. cbn [store last_click views suspended outbox fmap option_fmap option_map].
  destruct (review_queue_q d) as [|r0 rows0]; [reflexivity|].
  unfold bind. rewrite review_lines_run. reflexivity.
Qed.

(** X24. The review dashboard reads and writes nothing.  It says that all is
    clear exactly when no task has a pending submission; otherwise it has
    one line for each task that has one, the more pending first, the first
    three with a medal, and on each line the pending count is at least 1 and
    at most the total, so that the bar has exactly ten cells, of which
    [10 * pending / total] (rounded down) are filled, for counts in the
    range where the float quotient is exact. *)
Theorem build_review_embed_lines (w : world) :
  ∃ r, build_review_embed None w = (Returned r, None, w)
       ∧ match r with
         | None => ∀ t, t ∈ tasks (store w) → pending_count (t_id t) (store w) = 0
         | Some lines =>
             rl_task_id <$> lines
               ≡ₚ t_id <$> filter (λ t, 0 < pending_count (t_id t) (store w)) (tasks (store w))
             ∧ lines ≠ []
             ∧ descending (rl_pending <$> lines)
             ∧ ∀ i line, lines !! i = Some line →
                 rl_emoji line = MEDALS !! i
                 ∧ rl_pending line = pending_count (rl_task_id line) (store w)
                 ∧ rl_total line = total_count (rl_task_id line) (store w)
                 ∧ 1 ≤ rl_pending line ≤ rl_total line
                 ∧ (10 * rl_pending line < 2 ^ 52 →
                    rl_bar line
                    = replicate (Z.to_nat ((10 * rl_pending line) `div` rl_total line)) Filled
                      ++ replicate
                           (Z.to_nat (10 - (10 * rl_pending line) `div` rl_total line)) Hollow)
                 ∧ length (rl_bar line) = 10%nat
         end.
Proof.
  destruct w as [d lc vs cs out]. cbn [store]. rewrite build_review_embed_run.
  destruct (review_queue_q d) as [|r0 rows0] eqn:Hq.
  - eexists. split; [reflexivity|]. intros t Ht.
    assert (Hnone : filter (λ t, 0 < pending_count (t_id t) d) (tasks d) = []).
    { unfold review_queue_q in Hq. by apply fmap_nil_inv in Hq. }
    destruct (decide (0 < pending_count (t_id t) d)) as [Hpos|Hn].
    + assert (t ∈ filter (λ t, 0 < pending_count (t_id t) d) (tasks d))
        by (apply list_elem_of_filter; done).
      rewrite Hnone in *. by apply elem_of_nil in H.
    + unfold pending_count in *. lia.
  - rewrite <- Hq. eexists. split; [reflexivity|].
    set (key := λ r : string * Z * Z, r.2).
    assert (Hrows : ∀ r, r ∈ sorted_desc key (review_queue_q d) →
                         r.2 = pending_count r.1.2 d ∧ 0 < r.2).
    { intros r Hr. rewrite sorted_desc_perm in Hr. unfold review_queue_q in Hr.
      apply list_elem_of_fmap in Hr as (t & -> & Ht).
      apply list_elem_of_filter in Ht as [Hpos _]. done. }
    split; [|split; [|split]].
    + rewrite fmap_imap. unfold compose. cbn [rl_task_id]. rewrite imap_ignore.
      etrans; [apply fmap_Permutation, (sorted_desc_perm key)|].
      unfold review_queue_q. rewrite <- list_fmap_compose. reflexivity.
    + intros Hnil. apply (f_equal length) in Hnil. rewrite length_imap in Hnil.
      pose proof (Permutation_length (sorted_desc_perm key (review_queue_q d))) as Hlen.
      rewrite Hq in Hlen at 2. cbn in *. lia.
    + rewrite fmap_imap. unfold compose. cbn [rl_pending]. rewrite imap_ignore.
      apply (sorted_desc_descending key).
    + intros i line Hi. apply list_lookup_imap_Some in Hi as (r & Hr & ->).
      cbn [rl_emoji rl_pending rl_total rl_bar rl_task_id rl_title].
      destruct (Hrows r) as [Hp Hpos]; [by eapply list_elem_of_lookup_2|].
      pose proof (pending_le_total r.1.2 d) as Hle. rewrite <- Hp in Hle.
      destruct (progress_bar_bounds r.2 (total_count r.1.2 d) 10) as (Hbar & Hlen);
        [lia|lia|lia|].
      split; [reflexivity|]. split; [exact Hp|]. split; [reflexivity|].
      unfold key. cbn beta.
      split; [lia|]. split; [intros _; exact Hbar|]. rewrite Hlen. reflexivity.
Qed.

(** ** The leaderboard *)

Lemma filter_all {A} (P : A → Prop) `{∀ x, Decision (P x)} (l : list A) :
  Forall P l → filter P l = l.
Proof.
  induction 1 as [|x l Hx _ IH]; [done|]. rewrite filter_cons, decide_True by done.
  by rewrite IH.
Qed.

Lemma descending_lookup l i j a b :
  descending l → l !! i = Some a → l !! j = Some b → (i < j)%nat → b ≤ a.
Proof.
  revert i j. induction l as [|x l IH]; intros i j Hd Hi Hj Hij; [done|].
  destruct Hd as [Hx Hl]. destruct j as [|j]; [lia|]. cbn in Hj.
  destruct i as [|i]; cbn in Hi.
  - injection Hi as ->. rewrite Forall_forall in Hx. apply Hx.
    by eapply list_elem_of_lookup_2.
  - apply (IH i j); [done..|lia].
Qed.

Lemma descending_take n l : descending l → descending (take n l).
Proof.
  revert n. induction l as [|x l IH]; intros [|n]; cbn; try done.
  intros [Hx Hl]. split; [|by apply IH].
  apply Forall_take, Hx.
Qed.

Lemma by_points_desc_row d rows u p :
  by_points_desc d rows → (u, p) ∈ rows ↔ users d !! u = Some p.
Proof. intros [Hp _]. rewrite Hp. apply elem_of_map_to_list. Qed.

(** X25. The rank the leaderboard shows to its caller.  A caller with no
    row is told that they have not scored yet.  A caller with a row is shown
    the points of that row and a rank that is above the number of users with
    more points and at most the number of users with at least as many,
    whatever order the store gives to equal points. *)
Theorem leaderboard_rank (d : db) (rows user_rows : list (Z * Z)) (author : Z) :
  rows ≠ [] → by_points_desc d user_rows →
  ∃ e, leaderboard rows user_rows author = Some e
       ∧ match users d !! author with
         | None => lb_rank e = None
         | Some p =>
             ∃ r, lb_rank e = Some (r, p)
                  ∧ (length (filter (λ kv, (p < kv.2)%Z) (map_to_list (users d))) < r)%nat
                  ∧ (r ≤ length (filter (λ kv, (p ≤ kv.2)%Z) (map_to_list (users d))))%nat
         end.
Proof.
  intros Hrows Hq. unfold leaderboard. destruct rows as [|r0 rows]; [done|].
  eexists. split; [reflexivity|]. cbn [lb_rank].
  destruct (users d !! author) as [p|] eqn:Hu.
  - apply (by_points_desc_row d user_rows) in Hu as Hin; [|done].
    destruct (list_find (λ rr, rr.1 = author) user_rows) as [[i [u q]]|] eqn:Hf.
    2:{ apply list_find_None in Hf. rewrite Forall_forall in Hf.
        destruct (Hf _ Hin). reflexivity. }
    apply list_find_Some in Hf as (Hi & Hua & Hbefore). cbn in Hua. subst u.
    assert (q = p) as ->.
    { apply list_elem_of_lookup_2 in Hi.
      apply (by_points_desc_row d user_rows) in Hi; [|done]. congruence. }
    exists (S i). cbn. split; [reflexivity|].
    destruct Hq as [Hperm Hdesc].
    rewrite <- !Hperm.
    rewrite <- (take_drop_middle user_rows i (author, p)) by done.
    assert (Hlen : length (take i user_rows) = i).
    { apply length_take_le. apply lookup_lt_Some in Hi. lia. }
    rewrite !filter_app, !filter_cons, !length_app. cbn [snd].
    rewrite decide_False by lia. rewrite decide_True by lia. cbn [length].
    split.
    + assert (filter (λ kv : Z * Z, p < kv.2) (drop (S i) user_rows) = []) as ->.
      { apply filter_none, Forall_forall. intros [u q] Hq. cbn.
        apply list_elem_of_lookup in Hq as [j Hj]. rewrite lookup_drop in Hj.
        assert (q ≤ p); [|lia].
        apply (descending_lookup user_rows.*2 i (S i + j)); [done| | |lia].
        - by rewrite list_lookup_fmap, Hi.
        - by rewrite list_lookup_fmap, Hj. }
      pose proof (length_filter (λ kv : Z * Z, p < kv.2) (take i user_rows)). cbn. lia.
    + assert (filter (λ kv : Z * Z, p ≤ kv.2) (take i user_rows) = take i user_rows) as ->.
      { apply filter_all, Forall_forall. intros [u q] Hq. cbn.
        apply list_elem_of_lookup in Hq as [j Hj].
        apply lookup_take_Some in Hj as [Hj Hji].
        apply (descending_lookup user_rows.*2 j i); [done| | |lia].
        - by rewrite list_lookup_fmap, Hj.
        - by rewrite list_lookup_fmap, Hi. }
      lia.
  - destruct (list_find (λ rr, rr.1 = author) user_rows) as [[i [u q]]|] eqn:Hf; [|done].
    apply list_find_Some in Hf as (Hi & Hua & _). cbn in Hua. subst u.
    apply list_elem_of_lookup_2 in Hi.
    apply (by_points_desc_row d user_rows) in Hi; [|done]. congruence.
Qed.

Lemma three_users_by_points : by_points_desc three_users [(1, 500); (3, 500); (2, 300)].
Proof.
  split.
  - replace (map_to_list (users three_users)) with [(3, 500); (2, 300); (1, 500)]
      by (vm_compute; reflexivity).
    apply (Permutation_app_comm [(1, 500)] [(3, 500); (2, 300)]).
  - cbn. repeat split; repeat constructor; lia.
Qed.

Lemma leaderboard_rank_witness :
  ∃ e, leaderboard [(1, 500); (3, 500)] [(1, 500); (3, 500); (2, 300)] 3 = Some e
       ∧ match users three_users !! 3 with
         | None => lb_rank e = None
         | Some p =>
             ∃ r, lb_rank e = Some (r, p)
                  ∧ (length (filter (λ kv, (p < kv.2)%Z) (map_to_list (users three_users))) < r)%nat
                  ∧ (r ≤ length (filter (λ kv, (p ≤ kv.2)%Z)
                                   (map_to_list (users three_users))))%nat
         end.
Proof.
  apply (leaderboard_rank three_users [(1, 500); (3, 500)]); [discriminate|].
  apply three_users_by_points.
Defined.

(** X26. The lines of the leaderboard.  With a limit that is not negative
    the board has as many lines as the limit allows and there are users;
    it says that there are no users when it has none to show, which is also
    what a limit of 0 gives.  The lines come with the more points first, the
    first three with a medal and the others with their number; each shows a
    user with the points of their row, and no user left out has more points
    than one who is shown. *)
Theorem leaderboard_lines (d : db) (limit : Z) (rows user_rows : list (Z * Z)) (author : Z) :
  by_points_desc_limit d limit rows →
  match leaderboard rows user_rows author with
  | None => limit = 0 ∨ users d = ∅
  | Some e =>
      length (lb_lines e) = (Z.to_nat limit `min` size (users d))%nat
      ∧ descending (lb_lines e).*2
      ∧ ∀ i b u p, lb_lines e !! i = Some (b, u, p) →
          users d !! u = Some p
          ∧ b = match i with
                | 0%nat => Medal Gold
                | 1%nat => Medal Silver
                | 2%nat => Medal Bronze
                | _ => Numbered (S i)
                end
          ∧ ∀ u' p', users d !! u' = Some p' → (u', p') ∉ rows → p' ≤ p
  end.
Proof.
  intros (Hlimit & all & Hall & ->). unfold leaderboard.
  destruct (take (Z.to_nat limit) all) as [|r0 rows0] eqn:Htake.
  - apply take_nil_inv in Htake as [H0| ->]; [left; lia|right].
    destruct Hall as [Hp _]. apply Permutation_nil in Hp.
    by apply map_to_list_empty_iff in Hp.
  - rewrite <- Htake. clear Htake r0 rows0. cbn [lb_lines].
    split; [|split].
    + rewrite length_imap, length_take. destruct Hall as [Hp _].
      by rewrite Hp, length_map_to_list.
    + rewrite fmap_imap. unfold compose. cbn [snd]. rewrite imap_ignore.
      rewrite fmap_take. apply descending_take, Hall.
    + intros i b u p Hi. apply list_lookup_imap_Some in Hi as ([u0 p0] & Hi & Heq).
      cbn in Heq. injection Heq as -> -> ->.
      apply lookup_take_Some in Hi as [Hi Hlt].
      split; [|split].
      * apply (by_points_desc_row d all); [done|]. by eapply list_elem_of_lookup_2.
      * unfold badge_of. cbn [length MEDALS]. destruct i as [|[|[|i]]]; reflexivity.
      * intros u' p' Hu' Hout.
        apply (by_points_desc_row d all) in Hu'; [|done].
        apply list_elem_of_lookup in Hu' as [j Hj].
        destruct (decide (j < Z.to_nat limit)%nat) as [Hjl|Hjl].
        { destruct Hout. apply list_elem_of_lookup. exists j.
          by apply lookup_take_Some. }
        destruct Hall as [_ Hdesc].
        apply (descending_lookup all.*2 i j); [done| | |lia].
        -- by rewrite list_lookup_fmap, Hi.
        -- by rewrite list_lookup_fmap, Hj.
Qed.

Lemma leaderboard_lines_witness :
  match leaderboard [(1, 500); (3, 500)] [(1, 500); (3, 500); (2, 300)] 3 with
  | None => 2 = 0 ∨ users three_users = ∅
  | Some e =>
      length (lb_lines e) = (Z.to_nat 2 `min` size (users three_users))%nat
      ∧ descending (lb_lines e).*2
      ∧ ∀ i b u p, lb_lines e !! i = Some (b, u, p) →
          users three_users !! u = Some p
          ∧ b = match i with
                | 0%nat => Medal Gold
                | 1%nat => Medal Silver
                | 2%nat => Medal Bronze
                | _ => Numbered (S i)
                end
          ∧ ∀ u' p', users three_users !! u' = Some p' →
                     (u', p') ∉ [(1, 500); (3, 500)] → p' ≤ p
  end.
Proof.
  apply (leaderboard_lines three_users 2 [(1, 500); (3, 500)]).
  split; [lia|]. exists [(1, 500); (3, 500); (2, 300)].
  split; [apply three_users_by_points|reflexivity].
Defined.

(** ** The pages of the quest history *)

Lemma pages_concat {A} (l : list A) (n k : nat) :
  concat ((λ p, take n (drop (p * n) l)) <$> seq 0 k) = take (k * n) l.
Proof.
  induction k as [|k IH]; [done|].
  rewrite seq_S, fmap_app, concat_app, IH. cbn [fmap list_fmap concat plus].
  rewrite app_nil_r, take_take_drop. f_equal. lia.
Qed.

Lemma length_omap_all {A B} (f : A → option B) (l : list A) :
  Forall (λ x, is_Some (f x)) l → length (omap f l) = length l.
Proof.
  induction 1 as [|x l [y Hy] _ IH]; [done|]. cbn. rewrite Hy. cbn. by rewrite IH.
Qed.

Lemma length_history_of member d :
  references_kept d →
  length (history_of member d) = Z.to_nat (count_of member [approved; rejected] d).
Proof.
  intros Hk. unfold history_of, count_of.
  rewrite length_fmap, (Permutation_length (sorted_desc_perm _ _)), Nat2Z.id.
  apply length_omap_all, Forall_forall. intros s Hs.
  apply list_elem_of_filter in Hs as [_ Hs]. destruct (Hk s Hs) as (_ & t & Ht & Hid).
  destruct (task_by_id_is_Some (s_task_id s) d t Ht Hid) as [t' ->]. by eexists.
Qed.

Lemma total_pages_bounds total :
  0 ≤ total →
  total ≤ submissions_per_page * total_pages total < total + submissions_per_page.
Proof.
  intros Ht. unfold total_pages, submissions_per_page.
  pose proof (Z.div_mod (total + 10 - 1) 10 ltac:(lia)).
  pose proof (Z.mod_pos_bound (total + 10 - 1) 10 ltac:(lia)). lia.
Qed.

(** X27. The pages of the history cut it without loss.  When every
    submission has its task (the foreign key) and the count the view was made
    with is still the count of the member's reviewed submissions, each page
    from 0 to the last has between one and ten rows, the pages together are
    the whole history in its order, a page past the last is empty and a page
    below 0 is refused by the store. *)
Theorem history_pages_cover (d : db) (member : Z) :
  references_kept d →
  let total := count_of member [approved; rejected] d in
  let page p := history_q member submissions_per_page (p * submissions_per_page) d in
  length (history_of member d) = Z.to_nat total
  ∧ (∀ p, 0 ≤ p < total_pages total →
          ∃ rows, page p = Some rows ∧ rows ≠ [] ∧ (length rows ≤ 10)%nat)
  ∧ (∀ p, total_pages total ≤ p → page p = Some [])
  ∧ (∀ p, p < 0 → page p = None)
  ∧ concat ((λ p, default [] (page (Z.of_nat p))) <$> seq 0 (Z.to_nat (total_pages total)))
    = history_of member d.
Proof.
  intros Hk total page. pose proof (length_history_of member d Hk) as Hlen.
  fold total in Hlen.
  assert (Htotal : 0 ≤ total) by (unfold total, count_of; lia).
  clearbody total.
  pose proof (total_pages_bounds total Htotal) as Hpages.
  assert (Hpage : ∀ p, 0 ≤ p →
            page p = Some (take 10 (drop (Z.to_nat p * 10) (history_of member d)))).
  { intros p Hp. unfold page, history_q, submissions_per_page.
    replace (10 <? 0) with false by reflexivity.
    replace (p * 10 <? 0) with false by (symmetry; apply Z.ltb_ge; lia).
    cbn [orb]. do 3 f_equal. lia. }
  unfold submissions_per_page in *.
  split; [exact Hlen|]. split; [|split; [|split]].
  - intros p [Hp0 Hp]. rewrite Hpage by done. eexists. split; [reflexivity|]. split.
    + intros Hnil. apply (f_equal length) in Hnil.
      rewrite length_take, length_drop, Hlen in Hnil. cbn [length] in Hnil. lia.
    + rewrite length_take. lia.
  - intros p Hp. rewrite Hpage by lia. f_equal.
    rewrite drop_ge; [apply take_nil|]. rewrite Hlen. lia.
  - intros p Hp. unfold page, history_q, submissions_per_page.
    replace (p * 10 <? 0) with true by (symmetry; apply Z.ltb_lt; lia).
    by rewrite orb_true_r.
  - rewrite (list_fmap_ext _ (λ p, take 10 (drop (p * 10) (history_of member d)))).
    2:{ intros i p _. rewrite Hpage by lia. cbn. by rewrite Nat2Z.id. }
    rewrite pages_concat. apply take_ge. rewrite Hlen. lia.
Qed.

Lemma history_pages_cover_witness :
  let d := store (play earned_1200 init) in
  let page p := history_q 7 submissions_per_page (p * submissions_per_page) d in
  references_kept d
  ∧ length (history_of 7 d) = 1%nat
  ∧ page 0 = Some [HistoryRow approved "Follow us" 1200 (Some (30 * SECOND))]
  ∧ concat ((λ p, default [] (page (Z.of_nat p)))
              <$> seq 0 (Z.to_nat (total_pages (count_of 7 [approved; rejected] d))))
    = history_of 7 d.
Proof.
  cbv zeta.
  assert (Hk : references_kept (store (play earned_1200 init)))
    by (apply (run_wf ascii_int ascii_strip earned_1200 init wf_init)).
  destruct (history_pages_cover (store (play earned_1200 init)) 7 Hk)
    as (Hlen & _ & _ & _ & Hcat).
  split; [exact Hk|]. split; [rewrite Hlen; vm_compute; reflexivity|].
  split; [vm_compute; reflexivity|exact Hcat].
Defined.

Lemma history_click_in_range total hv c :
  0 < total →
  hv_total_submissions hv = total
  ∧ 0 ≤ hv_page hv < total_pages total
  ∧ hv_previous_disabled hv = bool_decide (hv_page hv ≤ 0)
  ∧ hv_next_disabled hv = bool_decide (total_pages total - 1 ≤ hv_page hv) →
  hv_total_submissions (history_click hv c) = total
  ∧ 0 ≤ hv_page (history_click hv c) < total_pages total
  ∧ hv_previous_disabled (history_click hv c) = bool_decide (hv_page (history_click hv c) ≤ 0)
  ∧ hv_next_disabled (history_click hv c)
    = bool_decide (total_pages total - 1 ≤ hv_page (history_click hv c)).
Proof.
  intros Ht (Htot & Hpage & Hprev & Hnext). unfold history_click.
  destruct (has_page_buttons hv); cbv iota; [|by destruct Hpage].
  destruct c.
  - destruct (hv_previous_disabled hv) eqn:Hd; [rewrite Hd; by destruct Hpage|].
    symmetry in Hprev. apply bool_decide_eq_false in Hprev.
    unfold on_previous_page_click, update_view, with_page. cbn. rewrite Htot.
    repeat split; lia.
  - destruct (hv_next_disabled hv) eqn:Hd; [rewrite Hd; by destruct Hpage|].
    symmetry in Hnext. apply bool_decide_eq_false in Hnext.
    unfold on_next_page_click, update_view, with_page. cbn. rewrite Htot.
    repeat split; lia.
Qed.

(** X28. Turning the pages of the history never leaves it.  The view is
    made on page 0 for a member with at least one reviewed submission; after
    any clicks on its page buttons (a click counts only on a button that is
    shown and enabled) the page is one of the pages, the previous button is
    disabled exactly on the first page and the next button exactly on the
    last. *)
Theorem history_pages_in_range (member total : Z) (clicks : list page_click) :
  0 < total →
  let hv := foldl history_click (history_view_init member total 0) clicks in
  0 ≤ hv_page hv < total_pages total
  ∧ hv_previous_disabled hv = bool_decide (hv_page hv = 0)
  ∧ hv_next_disabled hv = bool_decide (hv_page hv = total_pages total - 1)
  ∧ hv_total_submissions hv = total.
Proof.
  intros Ht hv.
  assert (Hinv : hv_total_submissions hv = total
                 ∧ 0 ≤ hv_page hv < total_pages total
                 ∧ hv_previous_disabled hv = bool_decide (hv_page hv ≤ 0)
                 ∧ hv_next_disabled hv = bool_decide (total_pages total - 1 ≤ hv_page hv)).
  { subst hv. induction clicks as [|c clicks IH] using rev_ind.
    - cbn. pose proof (total_pages_bounds total ltac:(lia)).
      unfold submissions_per_page in *. repeat split; lia.
    - rewrite foldl_app. cbn [foldl]. by apply history_click_in_range. }
  destruct Hinv as (Htot & Hpage & Hprev & Hnext).
  split; [exact Hpage|]. rewrite Hprev, Hnext. split; [|split; [|exact Htot]].
  - apply bool_decide_ext. lia.
  - apply bool_decide_ext. lia.
Qed.

Lemma history_pages_in_range_witness :
  0 < 25
  ∧ let hv := foldl history_click (history_view_init 7 25 0)
                [NextPage; NextPage; NextPage; PreviousPage; PreviousPage; PreviousPage] in
    0 ≤ hv_page hv < total_pages 25
    ∧ hv_previous_disabled hv = bool_decide (hv_page hv = 0)
    ∧ hv_next_disabled hv = bool_decide (hv_page hv = total_pages 25 - 1)
    ∧ hv_total_submissions hv = 25.
Proof. split; [lia|]. apply (history_pages_in_range 7 25). lia. Defined.

(** ** Instances of the properties of runs *)

Lemma store_wf_play trace : store_wf (store (run ascii_int ascii_strip trace init)).
Proof.
  destruct (run_wf ascii_int ascii_strip trace init wf_init) as (Hf & Hk & _). by split.
Qed.

Lemma panel_play_nil (w : world) :
  panel_run ascii_int ascii_strip ascii_lower [] w = w.
Proof. reflexivity. Qed.

Lemma archived_is_permanent_witness :
  let w := play quest_archived init in
  let w' := panel_play panel_goes_on w in
  ∃ t', t' ∈ tasks (store w') ∧ t_id t' = 1 ∧ t_max_submissions t' = 5 ∧ t_archived t' = 1.
Proof.
  cbv zeta. unfold panel_play, play.
  assert (Ht' : ∃ t', tasks (store (panel_run ascii_int ascii_strip ascii_lower panel_goes_on
                                      (run ascii_int ascii_strip quest_archived init)))
                        !! 0%nat = Some t'
                      ∧ t_id t' = 1 ∧ t_max_submissions t' = 5)
    by (eexists; vm_compute; repeat split).
  destruct Ht' as (t' & Hl & Hid & Hmax). exists t'.
  apply list_elem_of_lookup_2 in Hl as Hin.
  split; [exact Hin|]. split; [exact Hid|]. split; [exact Hmax|].
  destruct (archived_is_permanent ascii_int ascii_strip ascii_lower _ _ t'
              (store_wf_play quest_archived) Hin) as [(t & Ht & Htid) Harch].
  { rewrite Hid. vm_compute. reflexivity. }
  apply (Harch t Ht Htid).
  assert (Hall : Forall (λ t, t_archived t = 1)
                   (tasks (store (run ascii_int ascii_strip quest_archived init))))
    by (vm_compute; repeat constructor).
  rewrite Forall_forall in Hall. apply Hall, Ht.
Defined.

Lemma submission_facts_stay_witness :
  let w := play (quest_posted 200 1 ++ proof_sent) init in
  let w' := panel_play (Bot <$> approved_once) w in
  ∃ s', s' ∈ submissions (store w') ∧ s_id s' = 1 ∧ s_status s' = approved
        ∧ s_user_id s' = 7 ∧ s_proof s' = Some "http://example.org/proof"%string.
Proof.
  cbv zeta. unfold panel_play, play.
  assert (Hs' : ∃ s', submissions
                        (store (panel_run ascii_int ascii_strip ascii_lower
                                  (Bot <$> approved_once)
                                  (run ascii_int ascii_strip
                                     (quest_posted 200 1 ++ proof_sent) init)))
                        !! 0%nat = Some s'
                      ∧ s_id s' = 1 ∧ s_status s' = approved)
    by (eexists; vm_compute; repeat split).
  destruct Hs' as (s' & Hl & Hid & Hst). exists s'.
  apply list_elem_of_lookup_2 in Hl as Hin.
  split; [exact Hin|]. split; [exact Hid|]. split; [exact Hst|].
  destruct (submission_facts_stay ascii_int ascii_strip ascii_lower _ _ s'
              (store_wf_play _) Hin) as (s & Hs & _ & _ & Hu & _ & Hp & _).
  { rewrite Hid. vm_compute. reflexivity. }
  rewrite <- Hu, <- Hp.
  assert (Hall : Forall (λ s, s_user_id s = 7
                              ∧ s_proof s = Some "http://example.org/proof"%string)
                   (submissions (store (run ascii_int ascii_strip
                                          (quest_posted 200 1 ++ proof_sent) init))))
    by (vm_compute; repeat constructor).
  rewrite Forall_forall in Hall. apply Hall, Hs.
Defined.

Lemma withdrawal_requests_stay_witness :
  let w := play withdrawal_posted init in
  let w' := panel_play (Bot (ApproveWithdrawal 4 true) :: panel_goes_on) w in
  ∃ x', x' ∈ withdrawals (store w') ∧ w_id x' = 1 ∧ w_user_id x' = 7 ∧ w_points x' = 1000.
Proof.
  cbv zeta. unfold panel_play, play.
  assert (Hx : ∃ x, withdrawals (store (run ascii_int ascii_strip withdrawal_posted init))
                      !! 0%nat = Some x
                    ∧ w_id x = 1 ∧ w_user_id x = 7 ∧ w_points x = 1000)
    by (eexists; vm_compute; repeat split).
  destruct Hx as (x & Hl & Hid & Hu & Hp).
  apply list_elem_of_lookup_2 in Hl as Hin.
  destruct (withdrawal_requests_stay ascii_int ascii_strip ascii_lower _
              (Bot (ApproveWithdrawal 4 true) :: panel_goes_on) x Hin)
    as (_ & x' & Hx' & Hid' & Hu' & _ & _ & _ & Hp' & _).
  exists x'. split; [exact Hx'|]. split; [congruence|]. split; congruence.
Defined.

Lemma ban_is_permanent_witness :
  let w := play submitted_then_banned init in
  let w' := panel_play panel_goes_on w in
  is_banned_q 7 (store w) = true
  ∧ is_banned_q 7 (store w') = true
  ∧ outbox (step ascii_int ascii_strip w' (Click 0 0 7 200 (60 * SECOND) 0))
    = outbox w' ++ [OnlyCaller].
Proof.
  cbv zeta. unfold panel_play, play.
  assert (Hb : is_banned_q 7 (store (run ascii_int ascii_strip submitted_then_banned init))
               = true)
    by (vm_compute; reflexivity).
  destruct (ban_is_permanent ascii_int ascii_strip ascii_lower _ panel_goes_on 7 Hb)
    as [Hb' Hclick].
  split; [exact Hb|]. split; [exact Hb'|].
  assert (Hv : ∃ bs b, views (panel_run ascii_int ascii_strip ascii_lower panel_goes_on
                                (run ascii_int ascii_strip submitted_then_banned init))
                         !! 0%nat = Some (Board 1 (Some 1) bs)
                       ∧ bs !! 0%nat = Some b)
    by (do 2 eexists; vm_compute; split; reflexivity).
  destruct Hv as (bs & b & Hv & Hbtn).
  rewrite (Hclick 0%nat 0%nat 200 (60 * SECOND) 0%nat 1 (Some 1) bs b Hv Hbtn).
  cbn [outbox]. rewrite bool_decide_eq_false_2 by discriminate. reflexivity.
Defined.

(** ** Instances of the properties of the callbacks *)

Lemma refreshed_board_answers_to_owner_witness :
  let w := play proof_posted init in
  let w' := step ascii_int ascii_strip w (Completed 0) in
  suspended w !! 0%nat = Some (Recorded 0)
  ∧ (∃ bs, views w !! 0%nat = Some (Board 7 (Some 1) bs))
  ∧ (∃ bs', views w' !! 0%nat = Some (Board 1 (Some 1) bs'))
  ∧ step ascii_int ascii_strip w' (Click 0 0 7 200 (40 * SECOND) 0)
    = World (store w') (last_click w') (views w') (suspended w') (outbox w' ++ [OnlyCaller]).
Proof.
  cbv zeta. unfold play.
  assert (Hc : suspended (run ascii_int ascii_strip proof_posted init) !! 0%nat
               = Some (Recorded 0)) by (vm_compute; reflexivity).
  assert (Hv : ∃ bs, views (run ascii_int ascii_strip proof_posted init) !! 0%nat
                     = Some (Board 7 (Some 1) bs)) by (eexists; vm_compute; reflexivity).
  destruct Hv as (bs & Hv).
  assert (Hb : ∃ b, drawn (store (run ascii_int ascii_strip proof_posted init)) !! 0%nat
                    = Some b) by (eexists; vm_compute; reflexivity).
  destruct Hb as (b & Hb).
  pose proof (refreshed_board_answers_to_owner ascii_int ascii_strip _ 0%nat 0%nat 7
                (Some 1) bs Hc Hv) as H.
  cbv zeta in H. destruct H as (_ & _ & _ & Hviews & Hclick).
  split; [exact Hc|]. split; [by exists bs|]. split.
  - eexists. rewrite Hviews. apply list_lookup_insert_eq. by eapply lookup_lt_Some.
  - apply (Hclick 0%nat b 7 200 (40 * SECOND) 0%nat Hb). discriminate.
Defined.


Lemma approve_cb_credits_once_witness :
  let w := play under_review init in
  let w' := step ascii_int ascii_strip w (Approve 2 (30 * SECOND)) in
  (∃ row, views w !! 2%nat = Some (Review 1 row))
  ∧ users (store w) !! 7 = Some 0
  ∧ users (store w') !! 7 = Some 200
  ∧ step ascii_int ascii_strip w' (Approve 2 (31 * SECOND)) = w'.
Proof.
  cbv zeta. unfold play.
  assert (Hv : ∃ row, views (run ascii_int ascii_strip under_review init) !! 2%nat
                      = Some (Review 1 row)
                      ∧ s_user_id (r_sub row) = 7 ∧ r_task_points row = 200)
    by (eexists; vm_compute; repeat split).
  destruct Hv as (row & Hv & Hu & Hp).
  assert (H0 : users (store (run ascii_int ascii_strip under_review init)) !! 7 = Some 0)
    by (vm_compute; reflexivity).
  pose proof (approve_cb_credits_once ascii_int ascii_strip ascii_lower _ 2%nat 1 row
                (30 * SECOND) Hv) as H.
  cbv zeta in H. destruct H as (Hcredit & _ & _ & _ & _ & _ & _ & Honce).
  split; [by exists row|]. split; [exact H0|]. split.
  - rewrite Hu, Hp in Hcredit. apply (Hcredit 0 H0).
  - destruct (Honce [] (31 * SECOND)) as [Hagain _].
    rewrite !panel_play_nil in Hagain. exact Hagain.
Defined.

Lemma reject_cb_takes_no_points_witness :
  let w := play under_review init in
  let w' := step ascii_int ascii_strip w (Reject 2 (30 * SECOND)) in
  (∃ row, views w !! 2%nat = Some (Review 1 row))
  ∧ users (store w') = users (store w)
  ∧ count_done 1 (store w') ≤ count_done 1 (store w)
  ∧ step ascii_int ascii_strip w' (Approve 2 (31 * SECOND)) = w'.
Proof.
  cbv zeta. unfold play.
  assert (Hv : ∃ row, views (run ascii_int ascii_strip under_review init) !! 2%nat
                      = Some (Review 1 row))
    by (eexists; vm_compute; reflexivity).
  destruct Hv as (row & Hv).
  pose proof (reject_cb_takes_no_points ascii_int ascii_strip ascii_lower _ 2%nat 1 row
                (30 * SECOND) Hv) as H.
  cbv zeta in H. destruct H as (Husers & _ & _ & _ & Hcount & _ & _ & Honce).
  split; [by exists row|]. split; [exact Husers|]. split; [apply Hcount|].
  destruct (Honce [] (31 * SECOND)) as [Hagain _].
  rewrite !panel_play_nil in Hagain. exact Hagain.
Defined.

Lemma withdraw_cb_debits_witness :
  let w := play earned_1200 init in
  let w' := play (withdraws "1000") w in
  views w !! 3%nat = Some (Profile 7 true)
  ∧ ascii_int "1000" = Some 1000
  ∧ get_user_points_q 7 (store w) = 1200
  ∧ users (store w') !! 7 = Some 200
  ∧ w_points <$> withdrawals (store w') = [1000].
Proof.
  cbv zeta. unfold play, withdraws.
  assert (Hv : views (run ascii_int ascii_strip earned_1200 init) !! 3%nat
               = Some (Profile 7 true)) by (vm_compute; reflexivity).
  assert (Hn : length (suspended (run ascii_int ascii_strip earned_1200 init)) = 0%nat)
    by (vm_compute; reflexivity).
  assert (Hb : get_user_points_q 7 (store (run ascii_int ascii_strip earned_1200 init))
               = 1200) by (vm_compute; reflexivity).
  assert (Hparse : ascii_int "1000" = Some 1000) by (vm_compute; reflexivity).
  pose proof (withdraw_cb_debits ascii_int ascii_strip _ 3%nat 7 7 200
                "Bank" "0123456789" "A. User" "1000" 1000
                (40 * SECOND) (41 * SECOND) (42 * SECOND) (43 * SECOND)
                Hv Hparse ltac:(rewrite Hb; lia)) as H.
  cbv zeta in H. rewrite Hn, Hb in H. destruct H as (Hu & _ & _ & Hw & _).
  split; [exact Hv|]. split; [exact Hparse|]. split; [exact Hb|].
  split; [exact Hu|]. rewrite Hw. vm_compute. reflexivity.
Defined.

Lemma approve_withdrawal_cb_completes_witness :
  let w := play withdrawal_posted init in
  let w' := step ascii_int ascii_strip w (ApproveWithdrawal 4 true) in
  views w !! 4%nat = Some (Payout 1 1000)
  ∧ users (store w') = users (store w)
  ∧ w_status <$> withdrawals (store w') = [w_completed]
  ∧ step ascii_int ascii_strip w' (ApproveWithdrawal 4 true) = w'.
Proof.
  cbv zeta. unfold play.
  assert (Hv : views (run ascii_int ascii_strip withdrawal_posted init) !! 4%nat
               = Some (Payout 1 1000)) by (vm_compute; reflexivity).
  destruct (approve_withdrawal_cb_completes ascii_int ascii_strip ascii_lower _ 4%nat 1 1000
              Hv) as (_ & H).
  cbv zeta in H. destruct H as (Hu & _ & _ & Hw & _ & _ & _ & Honce).
  split; [exact Hv|]. split; [exact Hu|]. split.
  - rewrite Hw. vm_compute. reflexivity.
  - pose proof (Honce [] true) as Hagain.
    rewrite !panel_play_nil in Hagain. exact Hagain.
Defined.

Lemma review_menu_reads_again_witness :
  let w := play (quest_posted 200 1 ++ proof_sent) init in
  store_wf (store w)
  ∧ views (step ascii_int ascii_strip w ReviewCmd) = views w ++ [Menu [1]].
Proof.
  cbv zeta. unfold play.
  destruct (review_menu_reads_again ascii_int ascii_strip _
              (store_wf_play (quest_posted 200 1 ++ proof_sent))) as (H & _).
  cbv zeta in H. destruct H as (_ & _ & _ & Hm).
  split; [apply store_wf_play|].
  assert (Hp : pending_q (store (run ascii_int ascii_strip
                                   (quest_posted 200 1 ++ proof_sent) init)) = [1])
    by (vm_compute; reflexivity).
  rewrite Hp in Hm. exact Hm.
Defined.

Lemma addtask_inserts_then_waits_witness :
  let w1 := step ascii_int ascii_strip init (AddTask 1 100 "Follow us" 200 5 "link" None) in
  fresh_ids (store init) ∧ tasks_seq (store init) ≠ 0
  ∧ tasks (store w1) = [Task 1 "Follow us" 200 5 0 None 0 "link" None None]
  ∧ step ascii_int ascii_strip w1 (Message 0 2 100 "https://example.org" SECOND) = w1.
Proof.
  cbv zeta.
  assert (Hf : fresh_ids (store init)) by apply wf_init.
  assert (Hs : tasks_seq (store init) ≠ 0) by discriminate.
  pose proof (addtask_inserts_then_waits ascii_int ascii_strip init 1 100 "Follow us" 200 5
                "link" None Hf Hs) as H.
  cbv zeta in H. rewrite bool_decide_eq_true_2 in H by (repeat constructor).
  destruct H as (Ht & _ & _ & _ & Hother & _).
  split; [exact Hf|]. split; [exact Hs|]. split; [exact Ht|].
  apply Hother. left. discriminate.
Defined.

Lemma add_task_modal_adds_witness :
  fresh_ids (store init)
  ∧ add_task_modal ascii_int ascii_lower "Like our post" "50" "3" "LIKE"
      "https://example.org/post" (Some 0%nat) init
    = (Returned PanelError, None, init)
  ∧ add_task_modal ascii_int ascii_lower "Like our post" "fifty" "3" "LIKE"
      "https://example.org/post" None init
    = (Returned InvalidQuestInput, None, init).
Proof.
  assert (Hf : fresh_ids (store init)) by apply wf_init.
  split; [exact Hf|]. split.
  - pose proof (add_task_modal_adds ascii_int ascii_lower init "Like our post" "50" "3"
                  "LIKE" "https://example.org/post" Hf) as H.
    replace (quest_fields ascii_int ascii_lower "50" "3" "LIKE")
      with (Some (50, 3, "like"%string)) in H by (vm_compute; reflexivity).
    cbv zeta in H. destruct H as (_ & _ & _ & _ & _ & Hfail & _). exact Hfail.
  - pose proof (add_task_modal_adds ascii_int ascii_lower init "Like our post" "fifty" "3"
                  "LIKE" "https://example.org/post" Hf) as H.
    replace (quest_fields ascii_int ascii_lower "fifty" "3" "LIKE")
      with (@None (Z * Z * string)) in H by (vm_compute; reflexivity).
    apply H.
Defined.

Lemma points_move_only_by_approval_and_withdrawal_witness :
  let w := play earned_1200 init in
  let e := EditTaskForm 1 "Follow us" "5" "1" "link" "https://example.org/quest" in
  moves_points w e = false
  ∧ get_user_points_q 7 (store (panel_step ascii_int ascii_strip ascii_lower w e)) = 1200.
Proof.
  cbv zeta. unfold play.
  assert (Hmv : moves_points (run ascii_int ascii_strip earned_1200 init)
                  (EditTaskForm 1 "Follow us" "5" "1" "link" "https://example.org/quest")
                = false) by reflexivity.
  split; [exact Hmv|].
  rewrite (points_move_only_by_approval_and_withdrawal ascii_int ascii_strip ascii_lower
             _ _ 7 Hmv).
  vm_compute. reflexivity.
Defined.
